(** * Jira MCP server: tool dispatch, argument validation and issue workflows

    A shallow embedding of the two server variants of the repository:

    - [Server]: the function-style server (the file that exports [start]),
      eleven tools, every input schema closed by [additionalProperties: false];
    - [Index]: the class-style server ([JiraMcpServer]), nine tools, open
      schemas, [get_issues] guarded by an [anyOf] of [required] lists.

    JavaScript values are modelled by a JSON datatype, thrown values by
    [JsError], and every [await]ed Jira call by a [Call] recorded in a trace
    and answered by an arbitrary, history-dependent [Remote].  A handler is a
    computation in the monad [M], which threads the trace and propagates
    thrown values; [try_catch] is the source's [try]/[catch].

    The runtime pieces the source only calls ([String.prototype.toLowerCase],
    [JSON.stringify], Ajv's [errorsText], the rendering of a non-integer
    number) are fields of the class [Runtime].  Console output is not
    modelled. *)

From Stdlib Require Import String Ascii List ZArith QArith Bool Lia.
From Stdlib Require Import DecimalString.
Import ListNotations.
Open Scope list_scope.
Open Scope string_scope.

Set Implicit Arguments.
Set Warnings "-register-all".
Generalizable All Variables.

(** ** Strings *)

(** The double-quote character, code 34. *)
Definition dquote : ascii := Ascii false true false false false true false false.

(** [quoted s] is [s] between double quotes, as in the template literal
    ["${s}"] written inside quotes. *)
Definition quoted (s : string) : string :=
  String dquote s ++ String dquote EmptyString.

(** [Array.prototype.join]. *)
Fixpoint join (sep : string) (l : list string) : string :=
  match l with
  | [] => EmptyString
  | [x] => x
  | x :: rest => x ++ sep ++ join sep rest
  end.

(** Decimal rendering of an integer, as a template literal prints it. *)
Definition Z_toString (z : Z) : string := NilZero.string_of_int (Z.to_int z).

(** ** JSON values *)

Inductive json : Type :=
| JNull
| JBool (b : bool)
| JNum (q : Q)
| JStr (s : string)
| JArr (l : list json)
| JObj (o : list (string * json)).

(** A JavaScript object: properties in insertion order. *)
Definition obj : Type := list (string * json).

(** Property read [o.k]; [None] is [undefined].  Also [Map.prototype.get]. *)
Fixpoint get {A : Type} (k : string) (o : list (string * A)) : option A :=
  match o with
  | [] => None
  | (k', v) :: rest => if String.eqb k k' then Some v else get k rest
  end.

(** Property write [o.k = v]: overwrite in place, else append.  Also
    [Map.prototype.set]. *)
Fixpoint set {A : Type} (k : string) (v : A) (o : list (string * A)) : list (string * A) :=
  match o with
  | [] => [(k, v)]
  | (k', v') :: rest =>
      if String.eqb k k' then (k, v) :: rest else (k', v') :: set k v rest
  end.

(** [Object.keys(o)]. *)
Definition Object_keys (o : obj) : list string :=
  nodup string_dec (map fst o).

(** The properties of a value that is an object; none otherwise. *)
Definition props (v : json) : obj :=
  match v with JObj o => o | _ => [] end.

(** The elements of a value that is an array; none otherwise. *)
Definition elements (v : json) : list json :=
  match v with JArr l => l | _ => [] end.

(** [v.k] when it is a string.  The Jira client types every [id], [name],
    [jql] and [emailAddress] it returns as an optional string. *)
Definition str_prop (k : string) (v : json) : option string :=
  match get k (props v) with
  | Some (JStr s) => Some s
  | _ => None
  end.

(** Truthiness of a JavaScript value. *)
Definition truthy (v : option json) : bool :=
  match v with
  | None | Some JNull => false
  | Some (JBool b) => b
  | Some (JNum q) => negb (Qeq_bool q 0)
  | Some (JStr s) => negb (String.eqb s EmptyString)
  | Some (JArr _) | Some (JObj _) => true
  end.

(** Truthiness of an optional string. *)
Definition nonempty (s : option string) : bool :=
  match s with
  | Some s => negb (String.eqb s EmptyString)
  | None => false
  end.

(** A possibly [undefined] string inside a template literal. *)
Definition text_of (s : option string) : string :=
  match s with Some s => s | None => "undefined" end.

(** ** Input schemas and their validation *)

Inductive JType := TObject | TString | TNumber | TArray.

(** The regular expressions of the schemas. *)
Inductive Regex :=
| re_digits (* "^\\d+$" *).

(** The JSON-Schema keywords the tool schemas use.  An absent [properties]
    or [required] is the empty list, an absent [minProperties] is 0, an absent
    [additionalProperties] is [true]; [description] annotations, which do not
    take part in validation, are left out. *)
Inductive Schema : Type :=
  mkSchema {
    type : option JType;
    properties : list (string * Schema);
    required : list string;
    minProperties : nat;
    additionalProperties : bool;
    enum : option (list string);
    items : option Schema;
    oneOf : option (list Schema);
    anyOf : option (list Schema);
    minimum : option Q;
    pattern : option Regex
  }.

Definition is_digit (c : ascii) : bool :=
  let n := nat_of_ascii c in (48 <=? n)%nat && (n <=? 57)%nat.

Fixpoint all_chars (p : ascii -> bool) (s : string) : bool :=
  match s with
  | EmptyString => true
  | String c rest => p c && all_chars p rest
  end.

Definition regex_test (r : Regex) (s : string) : bool :=
  match r with
  | re_digits => negb (String.eqb s EmptyString) && all_chars is_digit s
  end.

Definition has_type (t : JType) (v : json) : bool :=
  match t, v with
  | TObject, JObj _ => true
  | TString, JStr _ => true
  | TNumber, JNum _ => true
  | TArray, JArr _ => true
  | _, _ => false
  end.

Definition mem (k : string) (l : list string) : bool :=
  existsb (String.eqb k) l.

Definition has_key (o : obj) (k : string) : bool :=
  match get k o with Some _ => true | None => false end.

(** The keywords of a schema that look at the instance itself and at no
    sub-schema. *)
Definition type_ok (t : option JType) (v : json) : bool :=
  match t with Some t => has_type t v | None => true end.

Definition enum_ok (e : option (list string)) (v : json) : bool :=
  match e with
  | Some allowed => match v with JStr s => mem s allowed | _ => false end
  | None => true
  end.

Definition minimum_ok (m : option Q) (v : json) : bool :=
  match m, v with
  | Some m, JNum q => Qle_bool m q
  | _, _ => true
  end.

Definition pattern_ok (r : option Regex) (v : json) : bool :=
  match r, v with
  | Some r, JStr s => regex_test r s
  | _, _ => true
  end.

Definition required_ok (req : list string) (v : json) : bool :=
  match v with
  | JObj o => forallb (has_key o) req
  | _ => true
  end.

Definition minProperties_ok (n : nat) (v : json) : bool :=
  match v with
  | JObj o => (n <=? length (Object_keys o))%nat
  | _ => true
  end.

(** [additionalProperties: false]: every key of the instance is declared. *)
Definition additional_ok (allow : bool) (declared : list string) (v : json) : bool :=
  match v with
  | JObj o => allow || forallb (fun k => mem k declared) (map fst o)
  | _ => true
  end.

(** The validity of an instance against a schema: what a compiled Ajv
    validator returns for it. *)
Fixpoint validate (s : Schema) (v : json) {struct s} : bool :=
  match s with
  | mkSchema t ps req minp addl en its one any_ mi pat =>
      type_ok t v
      && enum_ok en v
      && minimum_ok mi v
      && pattern_ok pat v
      && required_ok req v
      && minProperties_ok minp v
      && additional_ok addl (map fst ps) v
      && match v with
         | JObj o =>
             forallb
               (fun kv : string * Schema =>
                  match get (fst kv) o with
                  | Some x => validate (snd kv) x
                  | None => true
                  end)
               ps
         | _ => true
         end
      && match its, v with
         | Some it, JArr l => forallb (validate it) l
         | _, _ => true
         end
      && match one with
         | Some alts =>
             Nat.eqb (length (filter (fun a => validate a v) alts)) 1
         | None => true
         end
      && match any_ with
         | Some alts => existsb (fun a => validate a v) alts
         | None => true
         end
  end.

(** Schema literals. *)
Definition schema_any : Schema :=
  mkSchema None [] [] 0 true None None None None None None.

Definition schema_string : Schema :=
  mkSchema (Some TString) [] [] 0 true None None None None None None.

Definition schema_enum (allowed : list string) : Schema :=
  mkSchema (Some TString) [] [] 0 true (Some allowed) None None None None None.

Definition schema_array (it : Schema) : Schema :=
  mkSchema (Some TArray) [] [] 0 true None (Some it) None None None None.

Definition schema_object (ps : list (string * Schema)) (req : list string)
    (minp : nat) (addl : bool) (any_ : option (list Schema)) : Schema :=
  mkSchema (Some TObject) ps req minp addl None None None any_ None None.

Definition schema_required (req : list string) : Schema :=
  mkSchema None [] req 0 true None None None None None None.

(** The [rapidView] property of [get_issues]: a number at least 1, or a
    string of digits. *)
Definition schema_rapidView : Schema :=
  mkSchema None [] [] 0 true None None
    (Some [ mkSchema (Some TNumber) [] [] 0 true None None None None (Some 1%Q) None;
            mkSchema (Some TString) [] [] 0 true None None None None None (Some re_digits) ])
    None None None.

(** ** Runtime services *)

Class Runtime : Type := {
  (** [String.prototype.toLowerCase] *)
  toLowerCase : string -> string;
  (** [JSON.stringify(value, null, 2)] *)
  JSON_stringify : json -> string;
  (** [ajv.errorsText(validator.errors)] after the validator of a schema
      rejected an instance ([None] is [undefined]) *)
  errorsText : Schema -> option json -> string;
  (** the template-literal text of a number that is not an integer, or
      that is one beyond [2^53] in magnitude *)
  Number_toString : Q -> string
}.

(** ** Thrown values *)

(** The [ErrorCode]s of the MCP SDK that the servers use. *)
Inductive ErrorCode := InvalidRequest | MethodNotFound | InvalidParams | InternalError.

Definition code_number (c : ErrorCode) : Z :=
  match c with
  | InvalidRequest => -32600
  | MethodNotFound => -32601
  | InvalidParams => -32602
  | InternalError => -32603
  end.

(** What a handler can throw: an [McpError] built by the server ([data] is
    its [originalError]), or an error object of the Jira client with the
    properties the catch block reads. *)
Inductive JsError : Type :=
| McpError (code : ErrorCode) (message : string) (data : option JsError)
| ApiError (status : option Z) (errorMessages : option (list string))
    (message : option string).

(** [error.message].  The SDK's [McpError] constructor passes
    [`MCP error ${code}: ${message}`] to [Error]. *)
Definition error_message (e : JsError) : option string :=
  match e with
  | McpError c m _ => Some ("MCP error " ++ Z_toString (code_number c) ++ ": " ++ m)
  | ApiError _ _ m => m
  end.

(** [error.status]; an [McpError] has none. *)
Definition error_status (e : JsError) : option Z :=
  match e with
  | McpError _ _ _ => None
  | ApiError s _ _ => s
  end.

(** [error.errorMessages?.join(", ")]. *)
Definition error_joined (e : JsError) : option string :=
  match e with
  | ApiError _ (Some l) _ => Some (join ", " l)
  | _ => None
  end.

(** ** The catch block of the CallTool handler (the same in both servers) *)

(** [error?.errorMessages?.join(", ") || error?.message || "An unknown error occurred"] *)
Definition errorMessage_of (e : JsError) : string :=
  if nonempty (error_joined e) then text_of (error_joined e)
  else if nonempty (error_message e) then text_of (error_message e)
  else "An unknown error occurred".

(** [error?.status || 500] *)
Definition statusCode_of (e : JsError) : Z :=
  match error_status e with
  | Some s => if (s =? 0)%Z then 500%Z else s
  | None => 500%Z
  end.

Definition mcpErrorCode_of (statusCode : Z) : ErrorCode :=
  if (statusCode =? 400)%Z then InvalidParams
  else if (statusCode =? 401)%Z || (statusCode =? 403)%Z then InvalidRequest
  else if (statusCode =? 404)%Z then InvalidRequest
  else InternalError.

Definition tool_error (e : JsError) : JsError :=
  McpError (mcpErrorCode_of (statusCode_of e))
    ("Jira API Error (" ++ Z_toString (statusCode_of e) ++ "): " ++ errorMessage_of e)
    (Some e).

(** ** The Jira client *)

(** One constructor per client method the servers call, with the arguments
    they pass.  [getFilter] is recorded with the filter id string whose
    [Number(...)] the source passes. *)
Inductive Call : Type :=
| deleteIssue (issueIdOrKey : string)
| getBoard (boardId : Z)
| getConfiguration (boardId : Z)
| getFilter (id : string)
| searchForIssuesUsingJql (jql : string)
| getPriorities
| getTransitions (issueIdOrKey : string)
| editIssue (issueIdOrKey : string) (fields : obj)
| doTransition (issueIdOrKey : string) (transitionId : string)
| getIssue (issueIdOrKey : string)
| getFields
| getIssueAllTypes
| getIssueLinkTypes
| findUsers (query : string) (maxResults : Z)
| getProject (projectIdOrKey : string)
| getProjectComponents (projectIdOrKey : string)
| createIssue (fields : obj)
| linkIssues (linkType inwardIssueKey outwardIssueKey : string).

(** The calls issued so far, oldest first. *)
Definition Trace : Type := list Call.

Inductive Outcome (A : Type) : Type :=
| Returned (a : A)
| Thrown (e : JsError).
Arguments Thrown {A} e.

(** The remote service: what it answers to a call, given the calls it has
    already received. *)
Definition Remote : Type := Trace -> Call -> Outcome json.

(** ** The handler monad *)

Definition M (A : Type) : Type := Remote -> Trace -> Outcome A * Trace.

Definition ret {A : Type} (a : A) : M A := fun _ tr => (Returned a, tr).

Definition throw {A : Type} (e : JsError) : M A := fun _ tr => (Thrown e, tr).

Definition bind {A B : Type} (m : M A) (k : A -> M B) : M B :=
  fun R tr =>
    match m R tr with
    | (Returned a, tr') => k a R tr'
    | (Thrown e, tr') => (Thrown e, tr')
    end.

(** [try { m } catch (e) { h e }] *)
Definition try_catch {A : Type} (m : M A) (h : JsError -> M A) : M A :=
  fun R tr =>
    match m R tr with
    | (Returned a, tr') => (Returned a, tr')
    | (Thrown e, tr') => h e R tr'
    end.

(** [await client.method(...)] *)
Definition call (c : Call) : M json := fun R tr => (R tr c, (tr ++ [c])%list).

Declare Scope js_scope.
Delimit Scope js_scope with js.
Notation "x <- m ;; k" := (bind m (fun x => k))
  (at level 100, m at next level, right associativity) : js_scope.
Notation "m ;;; k" := (bind m (fun _ => k))
  (at level 100, right associativity) : js_scope.
Open Scope js_scope.

(** ** Requests and responses *)

Record CallToolRequest : Type := {
  req_name : string;               (* request.params.name *)
  req_arguments : option json      (* request.params.arguments *)
}.

Record Content : Type := { content_type : string; text : string }.

(** What the CallTool handler hands back: the [{ content: [...] }] envelope,
    or a value returned as it is. *)
Inductive Response : Type :=
| ToolResult (content : list Content)
| Plain (value : json).

(** How a [case] of the handler's [switch] ends: [break] with [result]
    assigned, or a [return] out of the request handler. *)
Inductive Completion : Type :=
| Break (result : json)
| Return (value : json).

Record Tool : Type := { name : string; description : string; inputSchema : Schema }.

(** [tools.find((t) => t.name === name)] *)
Definition find_tool (tools : list Tool) (toolName : string) : option Tool :=
  find (fun t => String.eqb (name t) toolName) tools.

(** The [toolValidators] map after the [forEach] over the tools. *)
Definition toolValidators (tools : list Tool) : list (string * Schema) :=
  fold_left (fun m t => set (name t) (inputSchema t) m) tools [].

(** ** Reading validated arguments *)

(** [args.k] for a property the schema declares as a string. *)
Definition str_arg (k : string) (args : obj) : option string :=
  match get k args with
  | Some (JStr s) => Some s
  | _ => None
  end.

Definition success_message (msg : string) : json :=
  JObj [("success", JBool true); ("message", JStr msg)].

(** ** Helpers shared by the workflow handlers *)

Section Workflows.
Context `{Runtime}.

(** [n?.toLowerCase() === target.toLowerCase()] *)
Definition same_name (target : string) (n : option string) : bool :=
  match n with
  | Some n => String.eqb (toLowerCase n) (toLowerCase target)
  | None => false
  end.

(** [list.find((x) => x.name?.toLowerCase() === target.toLowerCase())] *)
Definition find_named (target : string) (l : list json) : option json :=
  find (fun x => same_name target (str_prop "name" x)) l.

(** [t.to?.name] *)
Definition to_name (t : json) : option string :=
  match get "to" (props t) with
  | Some to => str_prop "name" to
  | None => None
  end.

(** [transitions.transitions?.find((t) => t.to?.name?.toLowerCase() === status.toLowerCase())] *)
Definition find_transition (status : string) (transitions : json) : option json :=
  match get "transitions" (props transitions) with
  | Some ts => find (fun t => same_name status (to_name t)) (elements ts)
  | None => None
  end.

(** [found?.id] when it is truthy. *)
Definition truthy_id (found : option json) : option string :=
  match found with
  | Some x =>
      match str_prop "id" x with
      | Some i => if String.eqb i EmptyString then None else Some i
      | None => None
      end
  | None => None
  end.

Definition id_object (i : string) : json := JObj [("id", JStr i)].

(** [o.k = v] for a value read from the arguments. *)
Definition assign (k : string) (v : option json) (o : obj) : obj :=
  match v with Some x => set k x o | None => o end.

Definition as_string (v : json) : string :=
  match v with JStr s => s | _ => EmptyString end.

(** The value an argument holds where the source passes it on. *)
Definition value_of (v : option json) : json :=
  match v with Some x => x | None => JNull end.

(** *** Numbers *)

Definition is_integer (q : Q) : bool := (Zpos (Qden (Qred q)) =? 1)%Z.

(** [`${n}`] for a Number that is an integer: its decimal digits up to
    [2^53] in magnitude, where every integer is a Number and prints in full;
    beyond, the text of the runtime (the shortest digits that read back as
    the same Number, with an exponent from [10^21] on). *)
Definition integer_text (n : Z) : string :=
  if (Z.abs n <=? 2 ^ 53)%Z then Z_toString n else Number_toString (inject_Z n).

Definition render_number (q : Q) : string :=
  if is_integer q then integer_text (Qnum (Qred q)) else Number_toString q.

(** [`${v}`] for a string or a number. *)
Definition render (v : option json) : string :=
  match v with
  | Some (JStr s) => s
  | Some (JNum q) => render_number q
  | _ => "undefined"
  end.

Fixpoint digits_value (acc : option Z) (s : string) : option Z :=
  match s with
  | EmptyString => acc
  | String c rest =>
      if is_digit c then
        let d := Z.of_nat (nat_of_ascii c - 48) in
        digits_value
          (Some (match acc with Some a => 10 * a + d | None => d end)%Z) rest
      else acc
  end.

(** What [parseInt] yields. *)
Inductive Parsed : Type := NaN | Infinity | Integer (n : Z).

(** The Number nearest to an integer [n] that is not negative (IEEE 754
    binary64, round to nearest, ties to even).  Every integer below [2^53] is
    a Number.  From there on [n = q * 2^e + r] with [2^52 <= q < 2^53] and
    [0 <= r < 2^e] lies between the Numbers [q * 2^e] and [(q + 1) * 2^e];
    what rounds to [2^1024] is [Infinity]. *)
Definition nearest_Number (n : Z) : Parsed :=
  if (n <? 2 ^ 53)%Z then Integer n
  else
    let e := (Z.log2 n - 52)%Z in
    let q := (n / 2 ^ e)%Z in
    let r := (n mod 2 ^ e)%Z in
    let half := (2 ^ (e - 1))%Z in
    let q' :=
      if (half <? r)%Z || ((r =? half)%Z && Z.odd q) then (q + 1)%Z else q in
    if (q' * 2 ^ e <? 2 ^ 1024)%Z then Integer (q' * 2 ^ e) else Infinity.

(** [parseInt(s, 10)] on a string that starts with its digits, as every
    string the [rapidView] schema admits does: the Number nearest to the
    integer that the digits denote, as V8 (the engine of Node.js) computes
    it. *)
Definition parseInt10 (s : string) : Parsed :=
  match digits_value None s with
  | Some n => nearest_Number n
  | None => NaN
  end.

(** [boardId] of [get_issues]; [None] when [Number.isInteger] rejects it
    ([NaN], [Infinity], a number with a fraction). *)
Definition boardId_of (rapidView : option json) : option Z :=
  match rapidView with
  | Some (JStr s) =>
      match parseInt10 s with
      | Integer n => Some n
      | NaN | Infinity => None
      end
  | Some (JNum q) => if is_integer q then Some (Qnum (Qred q)) else None
  | _ => None
  end.

(** ** The cases of the [switch] that both servers share *)

Definition neither_message : string :=
  "Either projectKey or rapidView must be provided".

Definition case_delete_issue (args : obj) : M Completion :=
  let issueKey := text_of (str_arg "issueKey" args) in
  _ <- call (deleteIssue issueKey) ;;
  ret (Break (success_message ("Issue " ++ issueKey ++ " deleted successfully."))).

Definition board_jql (args : obj) (boardId : Z) : M string :=
  _ <- call (getBoard boardId) ;;
  config <- call (getConfiguration boardId) ;;
  let filterId :=
    match get "filter" (props config) with
    | Some f => str_prop "id" f
    | None => None
    end in
  if negb (nonempty filterId) then
    throw (McpError InvalidParams
             ("Board " ++ integer_text boardId ++ " has no filter configured") None)
  else
    filter <- call (getFilter (text_of filterId)) ;;
    if negb (nonempty (str_prop "jql" filter)) then
      throw (McpError InvalidParams
               ("Filter " ++ text_of filterId ++ " has no JQL configured") None)
    else if truthy (get "jql" args) then
      ret (text_of (str_prop "jql" filter) ++ " AND (" ++ render (get "jql" args) ++ ")")
    else ret (text_of (str_prop "jql" filter)).

Definition case_get_issues (args : obj) : M Completion :=
  jql <-
    (if truthy (get "rapidView" args) then
       match boardId_of (get "rapidView" args) with
       | Some boardId =>
           if (boardId <=? 0)%Z then
             throw (McpError InvalidParams
                      ("Invalid rapidView ID: " ++ render (get "rapidView" args)
                       ++ ". Must be a positive integer.") None)
           else board_jql args boardId
       | None =>
           throw (McpError InvalidParams
                    ("Invalid rapidView ID: " ++ render (get "rapidView" args)
                     ++ ". Must be a positive integer.") None)
       end
     else if truthy (get "projectKey" args) then
       ret (if truthy (get "jql" args)
            then "project = " ++ quoted (render (get "projectKey" args))
                 ++ " AND " ++ render (get "jql" args)
            else "project = " ++ quoted (render (get "projectKey" args)))
     else
       throw (McpError InvalidParams neither_message None)) ;;
  result <- call (searchForIssuesUsingJql jql) ;;
  ret (Break result).

Definition case_list_fields : M Completion :=
  result <- call getFields ;; ret (Break result).

Definition case_list_issue_types : M Completion :=
  result <- call getIssueAllTypes ;; ret (Break result).

Definition case_list_link_types : M Completion :=
  result <- call getIssueLinkTypes ;; ret (Break result).

Definition case_get_user (args : obj) : M Completion :=
  let email := text_of (str_arg "email" args) in
  users <- call (findUsers email 1) ;;
  match elements users with
  | first :: _ =>
      if same_name email (str_prop "emailAddress" first) then ret (Break first)
      else throw (McpError InvalidRequest
                    ("User with email " ++ quoted email ++ " not found.") None)
  | [] =>
      throw (McpError InvalidRequest
               ("User with email " ++ quoted email ++ " not found.") None)
  end.

Definition case_create_issue_link (args : obj) : M Completion :=
  let linkType := text_of (str_arg "linkType" args) in
  let inwardIssueKey := text_of (str_arg "inwardIssueKey" args) in
  let outwardIssueKey := text_of (str_arg "outwardIssueKey" args) in
  _ <- call (linkIssues linkType inwardIssueKey outwardIssueKey) ;;
  ret (Break (success_message
                ("Link '" ++ linkType ++ "' created between " ++ inwardIssueKey
                 ++ " and " ++ outwardIssueKey ++ "."))).

(** *** Best-effort resolutions (the same text in every workflow) *)

(** The priority id for a truthy [priority] argument; [None] when no
    priority matches, the match has no id, or the lookup throws. *)
Definition resolve_priority (priority : option json) : M (option string) :=
  if truthy priority then
    try_catch
      (priorities <- call getPriorities ;;
       ret (truthy_id (find_named (render priority) (elements priorities))))
      (fun _ => ret None)
  else ret None.

(** The transition id for a truthy [status] argument. *)
Definition resolve_transition (issueKey : string) (status : option json)
  : M (option string) :=
  if truthy status then
    try_catch
      (transitions <- call (getTransitions issueKey) ;;
       ret (truthy_id (find_transition (render status) transitions)))
      (fun _ => ret None)
  else ret None.

(** [componentObjects] of [create_issue]. *)
Definition resolve_components (components : option json) (projectId : string)
  : M (list json) :=
  if truthy components && (0 <? length (elements (value_of components)))%nat
     && negb (String.eqb projectId EmptyString) then
    try_catch
      (projectComponents <- call (getProjectComponents projectId) ;;
       ret (flat_map
              (fun compName =>
                 match truthy_id (find_named (as_string compName)
                                    (elements projectComponents)) with
                 | Some i => [id_object i]
                 | None => []
                 end)
              (elements (value_of components))))
      (fun _ => ret [])
  else ret [].

(** The optional fields of the create payload, added in source order;
    [assigneeKey] is the property name the server wraps the assignee in. *)
Definition create_fields (args : obj) (assigneeKey : string) (projectId issueTypeId : string)
    (componentObjects : list json) (priorityId : option string) : obj :=
  let fields : obj :=
    [("project", id_object projectId);
     ("summary", value_of (get "summary" args));
     ("issuetype", id_object issueTypeId)] in
  let fields :=
    if truthy (get "description" args)
    then assign "description" (get "description" args) fields else fields in
  let fields :=
    if truthy (get "assignee" args)
    then set "assignee" (JObj [(assigneeKey, value_of (get "assignee" args))]) fields
    else fields in
  let fields :=
    if truthy (get "labels" args)
    then assign "labels" (get "labels" args) fields else fields in
  let fields :=
    if (0 <? length componentObjects)%nat
    then set "components" (JArr componentObjects) fields else fields in
  match priorityId with
  | Some i => set "priority" (id_object i) fields
  | None => fields
  end.

(** The tail of [update_issue]: the transition, when one was found, then
    the read of the updated issue. *)
Definition transition_and_read (issueKey : string) (transitionId : option string)
  : M json :=
  (match transitionId with
   | Some i => call (doTransition issueKey i)
   | None => ret JNull
   end) ;;;
  call (getIssue issueKey).

Definition no_update_message (issueKey : string) : json :=
  success_message
    ("No valid fields or status transition provided for issue " ++ issueKey
     ++ ". No update performed.").

(** The envelope of a successful call. *)
Definition envelope (result : json) : Response :=
  ToolResult [ {| content_type := "text"; text := JSON_stringify result |} ].

Definition respond (c : Completion) : Response :=
  match c with
  | Break result => envelope result
  | Return value => Plain value
  end.

End Workflows.

(** * The function-style server *)

Module Server.

Definition closed_object (ps : list (string * Schema)) (req : list string)
    (minp : nat) : Schema :=
  schema_object ps req minp false None.

Definition delete_issue_schema : Schema :=
  closed_object [("issueKey", schema_string)] ["issueKey"] 0.

Definition get_issues_schema : Schema :=
  closed_object
    [("projectKey", schema_string); ("rapidView", schema_rapidView);
     ("jql", schema_string)] [] 0.

Definition get_assigned_issues_schema : Schema :=
  closed_object
    [("accountId", schema_string);
     ("status", schema_enum ["current"; "past"; "all"]);
     ("additionalJql", schema_string)] ["accountId"] 0.

Definition update_issue_schema : Schema :=
  closed_object
    [("issueKey", schema_string); ("summary", schema_string);
     ("description", schema_string); ("assignee", schema_string);
     ("status", schema_string); ("priority", schema_string)]
    ["issueKey"] 2.

Definition no_arguments_schema : Schema := closed_object [] [] 0.

Definition get_user_schema : Schema :=
  closed_object [("email", schema_string)] ["email"] 0.

Definition create_issue_schema : Schema :=
  closed_object
    [("projectKey", schema_string); ("summary", schema_string);
     ("issueType", schema_string); ("description", schema_string);
     ("assignee", schema_string); ("labels", schema_array schema_string);
     ("components", schema_array schema_string); ("priority", schema_string)]
    ["projectKey"; "summary"; "issueType"] 0.

Definition create_issue_link_schema : Schema :=
  closed_object
    [("inwardIssueKey", schema_string); ("outwardIssueKey", schema_string);
     ("linkType", schema_string)]
    ["inwardIssueKey"; "outwardIssueKey"; "linkType"] 0.

Definition get_issue_schema : Schema :=
  closed_object [("issueKey", schema_string)] ["issueKey"] 0.

Definition delete_issue_tool : Tool :=
  {| name := "delete_issue";
     description := "Delete a Jira issue or subtask";
     inputSchema := delete_issue_schema |}.

Definition get_issues_tool : Tool :=
  {| name := "get_issues";
     description := "Get all issues and subtasks for a project or rapid view";
     inputSchema := get_issues_schema |}.

Definition get_assigned_issues_tool : Tool :=
  {| name := "get_assigned_issues";
     description := "Get issues assigned to a user, with options to filter by assignment status (current, past, or all).";
     inputSchema := get_assigned_issues_schema |}.

Definition update_issue_tool : Tool :=
  {| name := "update_issue";
     description := "Update an existing Jira issue";
     inputSchema := update_issue_schema |}.

Definition list_fields_tool : Tool :=
  {| name := "list_fields";
     description := "List all available fields in the Jira instance";
     inputSchema := no_arguments_schema |}.

Definition list_issue_types_tool : Tool :=
  {| name := "list_issue_types";
     description := "List all available issue types";
     inputSchema := no_arguments_schema |}.

Definition list_link_types_tool : Tool :=
  {| name := "list_link_types";
     description := "List all available issue link types";
     inputSchema := no_arguments_schema |}.

Definition get_user_tool : Tool :=
  {| name := "get_user";
     description := "Get a user's account ID by email address";
     inputSchema := get_user_schema |}.

Definition create_issue_tool : Tool :=
  {| name := "create_issue";
     description := "Create a new Jira issue";
     inputSchema := create_issue_schema |}.

Definition create_issue_link_tool : Tool :=
  {| name := "create_issue_link";
     description := "Create a link between two issues";
     inputSchema := create_issue_link_schema |}.

Definition get_issue_tool : Tool :=
  {| name := "get_issue";
     description := "Get a specific Jira issue by key";
     inputSchema := get_issue_schema |}.

(** The registry, in declaration order. *)
Definition tools : list Tool :=
  [ delete_issue_tool;
    get_issues_tool;
    get_assigned_issues_tool;
    update_issue_tool;
    list_fields_tool;
    list_issue_types_tool;
    list_link_types_tool;
    get_user_tool;
    create_issue_tool;
    create_issue_link_tool;
    get_issue_tool ].

Section Handler.
Context `{Runtime}.

(** [baseJql] of [get_assigned_issues]: the inner [switch (status)]. *)
Definition baseJql (accountId : string) (status : option json) : string :=
  match status with
  | Some (JStr s) =>
      if String.eqb s "past" then "assignee WAS " ++ quoted accountId
      else if String.eqb s "all" then
        "(assignee = " ++ quoted accountId ++ " OR assignee WAS "
        ++ quoted accountId ++ ")"
      else "assignee = " ++ quoted accountId
  | _ => "assignee = " ++ quoted accountId
  end.

Definition case_get_assigned_issues (args : obj) : M Completion :=
  let accountId := render (get "accountId" args) in
  let additionalJql := get "additionalJql" args in
  let base := baseJql accountId (get "status" args) in
  let jql :=
    if truthy additionalJql
    then base ++ " AND (" ++ render additionalJql ++ ")"
    else base in
  result <- call (searchForIssuesUsingJql jql) ;;
  ret (Break result).

(** [fieldsToUpdate] before the priority lookup. *)
Definition fields_from_arguments (args : obj) : obj :=
  let fieldsToUpdate : obj := [] in
  let fieldsToUpdate :=
    if truthy (get "summary" args)
    then assign "summary" (get "summary" args) fieldsToUpdate
    else fieldsToUpdate in
  let fieldsToUpdate :=
    if truthy (get "description" args)
    then assign "description" (get "description" args) fieldsToUpdate
    else fieldsToUpdate in
  match get "assignee" args with
  | Some JNull => set "assignee" JNull fieldsToUpdate
  | Some (JStr a) =>
      if String.eqb a "null" then set "assignee" JNull fieldsToUpdate
      else set "assignee" (JObj [("name", JStr a)]) fieldsToUpdate
  | Some a => set "assignee" (JObj [("name", a)]) fieldsToUpdate
  | None => fieldsToUpdate
  end.

(** [fieldsToUpdate] after the priority lookup. *)
Definition update_fields (args : obj) (priorityId : option string) : obj :=
  match priorityId with
  | Some i => set "priority" (id_object i) (fields_from_arguments args)
  | None => fields_from_arguments args
  end.

Definition case_update_issue (args : obj) : M Completion :=
  let issueKey := text_of (str_arg "issueKey" args) in
  priorityId <- resolve_priority (get "priority" args) ;;
  let fieldsToUpdate := update_fields args priorityId in
  transitionId <- resolve_transition issueKey (get "status" args) ;;
  if (0 <? length (Object_keys fieldsToUpdate))%nat then
    (try_catch (call (editIssue issueKey fieldsToUpdate))
       (fun error => throw error)) ;;;
    result <- transition_and_read issueKey transitionId ;;
    ret (Break result)
  else
    match transitionId with
    | None => ret (Return (no_update_message issueKey))
    | Some _ =>
        result <- transition_and_read issueKey transitionId ;;
        ret (Break result)
    end.

Definition case_create_issue (args : obj) : M Completion :=
  let projectKey := text_of (str_arg "projectKey" args) in
  let issueType := text_of (str_arg "issueType" args) in
  project <- call (getProject projectKey) ;;
  if negb (nonempty (str_prop "id" project)) then
    throw (McpError InvalidParams
             ("Could not find project with key " ++ quoted projectKey ++ ".") None)
  else
    let projectId := text_of (str_prop "id" project) in
    issueTypes <- call getIssueAllTypes ;;
    match truthy_id (find_named issueType (elements issueTypes)) with
    | None =>
        throw (McpError InvalidParams
                 ("Issue type " ++ quoted issueType ++ " not found.") None)
    | Some issueTypeId =>
        priorityId <- resolve_priority (get "priority" args) ;;
        componentObjects <- resolve_components (get "components" args) projectId ;;
        result <- call (createIssue
                          (create_fields args "name" projectId issueTypeId
                             componentObjects priorityId)) ;;
        ret (Break result)
    end.

Definition case_get_issue (args : obj) : M Completion :=
  result <- call (getIssue (text_of (str_arg "issueKey" args))) ;;
  ret (Break result).

(** The [switch (name)] of the request handler. *)
Definition handle (toolName : string) (args : obj) : M Completion :=
  if String.eqb toolName "delete_issue" then case_delete_issue args
  else if String.eqb toolName "get_issues" then case_get_issues args
  else if String.eqb toolName "get_assigned_issues" then case_get_assigned_issues args
  else if String.eqb toolName "update_issue" then case_update_issue args
  else if String.eqb toolName "list_fields" then case_list_fields
  else if String.eqb toolName "list_issue_types" then case_list_issue_types
  else if String.eqb toolName "list_link_types" then case_list_link_types
  else if String.eqb toolName "get_user" then case_get_user args
  else if String.eqb toolName "create_issue" then case_create_issue args
  else if String.eqb toolName "create_issue_link" then case_create_issue_link args
  else if String.eqb toolName "get_issue" then case_get_issue args
  else throw (McpError MethodNotFound
                ("Handler for tool " ++ quoted toolName ++ " not implemented.") None).

(** [request.params.arguments || {}] *)
Definition normalize (arguments : option json) : json :=
  if truthy arguments then value_of arguments else JObj [].

(** The argument check that precedes the [try] block. *)
Definition check_arguments (toolName : string) (args : json) : M unit :=
  match get toolName (toolValidators tools) with
  | Some schema =>
      if negb (validate schema args) then
        throw (McpError InvalidParams
                 ("Invalid arguments for tool " ++ toolName ++ ": "
                  ++ errorsText schema (Some args)) None)
      else ret tt
  | None => ret tt
  end.

(** The CallTool request handler. *)
Definition call_tool (request : CallToolRequest) : M Response :=
  let toolName := req_name request in
  let args := normalize (req_arguments request) in
  match find_tool tools toolName with
  | None =>
      throw (McpError MethodNotFound
               ("Tool " ++ quoted toolName ++ " not found.") None)
  | Some _ =>
      check_arguments toolName args ;;;
      try_catch
        (c <- handle toolName (props args) ;; ret (respond c))
        (fun error => throw (tool_error error))
  end.

End Handler.

End Server.

(** * The class-style server ([JiraMcpServer]) *)

Module Index.

Definition open_object (ps : list (string * Schema)) (req : list string)
    (minp : nat) (any_ : option (list Schema)) : Schema :=
  schema_object ps req minp true any_.

Definition delete_issue_schema : Schema :=
  open_object [("issueKey", schema_string)] ["issueKey"] 0 None.

Definition get_issues_schema : Schema :=
  open_object
    [("projectKey", schema_string); ("rapidView", schema_rapidView);
     ("jql", schema_string)] [] 0
    (Some [schema_required ["projectKey"]; schema_required ["rapidView"]]).

Definition update_issue_schema : Schema :=
  open_object
    [("issueKey", schema_string); ("summary", schema_string);
     ("description", schema_string); ("assignee", schema_string);
     ("status", schema_string); ("priority", schema_string)]
    ["issueKey"] 2 None.

Definition no_arguments_schema : Schema := open_object [] [] 0 None.

Definition get_user_schema : Schema :=
  open_object [("email", schema_string)] ["email"] 0 None.

Definition create_issue_schema : Schema :=
  open_object
    [("projectKey", schema_string); ("summary", schema_string);
     ("issueType", schema_string); ("description", schema_string);
     ("assignee", schema_string); ("labels", schema_array schema_string);
     ("components", schema_array schema_string); ("priority", schema_string)]
    ["projectKey"; "summary"; "issueType"] 0 None.

Definition create_issue_link_schema : Schema :=
  open_object
    [("inwardIssueKey", schema_string); ("outwardIssueKey", schema_string);
     ("linkType", schema_string)]
    ["inwardIssueKey"; "outwardIssueKey"; "linkType"] 0 None.

Definition delete_issue_tool : Tool :=
  {| name := "delete_issue";
     description := "Delete a Jira issue or subtask";
     inputSchema := delete_issue_schema |}.

Definition get_issues_tool : Tool :=
  {| name := "get_issues";
     description := "Get all issues and subtasks for a project or rapid view";
     inputSchema := get_issues_schema |}.

Definition update_issue_tool : Tool :=
  {| name := "update_issue";
     description := "Update an existing Jira issue";
     inputSchema := update_issue_schema |}.

Definition list_fields_tool : Tool :=
  {| name := "list_fields";
     description := "List all available fields in the Jira instance";
     inputSchema := no_arguments_schema |}.

Definition list_issue_types_tool : Tool :=
  {| name := "list_issue_types";
     description := "List all available issue types";
     inputSchema := no_arguments_schema |}.

Definition list_link_types_tool : Tool :=
  {| name := "list_link_types";
     description := "List all available issue link types";
     inputSchema := no_arguments_schema |}.

Definition get_user_tool : Tool :=
  {| name := "get_user";
     description := "Get a user's account ID by email address";
     inputSchema := get_user_schema |}.

Definition create_issue_tool : Tool :=
  {| name := "create_issue";
     description := "Create a new Jira issue";
     inputSchema := create_issue_schema |}.

Definition create_issue_link_tool : Tool :=
  {| name := "create_issue_link";
     description := "Create a link between two issues";
     inputSchema := create_issue_link_schema |}.

(** The registry, in declaration order. *)
Definition tools : list Tool :=
  [ delete_issue_tool;
    get_issues_tool;
    update_issue_tool;
    list_fields_tool;
    list_issue_types_tool;
    list_link_types_tool;
    get_user_tool;
    create_issue_tool;
    create_issue_link_tool ].

(** [validator(args)] where [args] may be [undefined]: a schema that states
    a type, as every tool schema does, rejects [undefined]. *)
Definition validate_arguments (schema : Schema) (args : option json) : bool :=
  match args with
  | Some v => validate schema v
  | None => match type schema with Some _ => false | None => true end
  end.

Section Handler.
Context `{Runtime}.

Definition handleCreateIssue (args : obj) : M json :=
  let projectKey := text_of (str_arg "projectKey" args) in
  let issueType := text_of (str_arg "issueType" args) in
  projectId <-
    try_catch
      (project <- call (getProject projectKey) ;; ret (str_prop "id" project))
      (fun _ =>
         throw (McpError InvalidParams
                  ("Could not find project with key " ++ quoted projectKey ++ ".")
                  None)) ;;
  if negb (nonempty projectId) then
    throw (McpError InternalError
             ("Failed to resolve project ID for key " ++ quoted projectKey ++ ".")
             None)
  else
    issueTypeId <-
      try_catch
        (issueTypes <- call getIssueAllTypes ;;
         match truthy_id (find_named issueType (elements issueTypes)) with
         | None =>
             throw (McpError InvalidParams
                      ("Issue type " ++ quoted issueType ++ " not found or has no ID.")
                      None)
         | Some i => ret i
         end)
        (fun e =>
           throw (McpError InternalError
                    ("Failed to resolve issue type ID for " ++ quoted issueType
                     ++ ": " ++ text_of (error_message e)) None)) ;;
    priorityId <- resolve_priority (get "priority" args) ;;
    componentObjects <-
      resolve_components (get "components" args) (text_of projectId) ;;
    call (createIssue
            (create_fields args "accountId" (text_of projectId) issueTypeId
               componentObjects priorityId)).

Definition fields_from_arguments (args : obj) : obj :=
  let fieldsToUpdate : obj := [] in
  let fieldsToUpdate :=
    if truthy (get "summary" args)
    then assign "summary" (get "summary" args) fieldsToUpdate
    else fieldsToUpdate in
  let fieldsToUpdate :=
    if truthy (get "description" args)
    then assign "description" (get "description" args) fieldsToUpdate
    else fieldsToUpdate in
  if truthy (get "assignee" args)
  then set "assignee" (JObj [("accountId", value_of (get "assignee" args))])
         fieldsToUpdate
  else fieldsToUpdate.

Definition update_fields (args : obj) (priorityId : option string) : obj :=
  match priorityId with
  | Some i => set "priority" (id_object i) (fields_from_arguments args)
  | None => fields_from_arguments args
  end.

Definition handleUpdateIssue (args : obj) : M json :=
  let issueKey := text_of (str_arg "issueKey" args) in
  priorityId <- resolve_priority (get "priority" args) ;;
  let fieldsToUpdate := update_fields args priorityId in
  transitionId <- resolve_transition issueKey (get "status" args) ;;
  if (0 <? length (Object_keys fieldsToUpdate))%nat then
    call (editIssue issueKey fieldsToUpdate) ;;;
    transition_and_read issueKey transitionId
  else
    match transitionId with
    | None => ret (no_update_message issueKey)
    | Some _ => transition_and_read issueKey transitionId
    end.

(** The [switch (toolName)] of the request handler. *)
Definition handle (toolName : string) (args : obj) : M Completion :=
  if String.eqb toolName "delete_issue" then case_delete_issue args
  else if String.eqb toolName "get_issues" then case_get_issues args
  else if String.eqb toolName "update_issue" then
    result <- handleUpdateIssue args ;; ret (Break result)
  else if String.eqb toolName "list_fields" then case_list_fields
  else if String.eqb toolName "list_issue_types" then case_list_issue_types
  else if String.eqb toolName "list_link_types" then case_list_link_types
  else if String.eqb toolName "get_user" then case_get_user args
  else if String.eqb toolName "create_issue" then
    result <- handleCreateIssue args ;; ret (Break result)
  else if String.eqb toolName "create_issue_link" then case_create_issue_link args
  else throw (McpError MethodNotFound
                ("Handler for tool " ++ quoted toolName ++ " not implemented.") None).

Definition check_arguments (toolName : string) (args : option json) : M unit :=
  match get toolName (toolValidators tools) with
  | Some schema =>
      if negb (validate_arguments schema args) then
        throw (McpError InvalidParams
                 ("Invalid arguments for tool " ++ toolName ++ ": "
                  ++ errorsText schema args) None)
      else ret tt
  | None => ret tt
  end.

(** The CallTool request handler. *)
Definition call_tool (request : CallToolRequest) : M Response :=
  let toolName := req_name request in
  let args := req_arguments request in
  match find_tool tools toolName with
  | None =>
      throw (McpError MethodNotFound
               ("Tool " ++ quoted toolName ++ " not found.") None)
  | Some _ =>
      check_arguments toolName args ;;;
      try_catch
        (c <- handle toolName (props (value_of args)) ;; ret (respond c))
        (fun error => throw (tool_error error))
  end.

End Handler.

End Index.

(** * Running a request *)

(** The outcome of a request and the calls it issued, against a remote that
    has received nothing yet. *)
Definition run {A : Type} (m : M A) (R : Remote) : Outcome A * Trace := m R [].

(** How often a trace issues a call of a given kind. *)
Definition count (p : Call -> bool) (tr : Trace) : nat := length (filter p tr).

Definition is_createIssue (c : Call) : bool :=
  match c with createIssue _ => true | _ => false end.

Definition is_editIssue (c : Call) : bool :=
  match c with editIssue _ _ => true | _ => false end.

Definition is_doTransition (c : Call) : bool :=
  match c with doTransition _ _ => true | _ => false end.

Definition is_getIssue (c : Call) : bool :=
  match c with getIssue _ => true | _ => false end.

(** ** A runtime and remotes for concrete runs *)

Definition lower_ascii (c : ascii) : ascii :=
  let n := nat_of_ascii c in
  if (65 <=? n)%nat && (n <=? 90)%nat then ascii_of_nat (n + 32) else c.

Fixpoint lower_string (s : string) : string :=
  match s with
  | EmptyString => EmptyString
  | String c rest => String (lower_ascii c) (lower_string rest)
  end.

(** A compact rendering of the values the examples return: strings as they
    are, the other values by a tag. *)
Definition stringify_sample (v : json) : string :=
  match v with
  | JNull => "null"
  | JBool true => "true"
  | JBool false => "false"
  | JNum _ => "<number>"
  | JStr s => s
  | JArr _ => "<array>"
  | JObj _ => "<object>"
  end.

#[local] Instance sample_runtime : Runtime := {|
  toLowerCase := lower_string;
  JSON_stringify := stringify_sample;
  errorsText := fun _ _ => "data is invalid";
  Number_toString := fun _ => "<number>"
|}.

Definition named (i n : string) : json := JObj [("id", JStr i); ("name", JStr n)].

(** A Jira that knows project TEST (id 10000), the issue types Task and Bug,
    the priorities High and Low and, for every issue, one transition to Done;
    it accepts every mutation. *)
Definition sample_jira : Remote :=
  fun _ c =>
    match c with
    | getProject _ => Returned (JObj [("id", JStr "10000")])
    | getIssueAllTypes => Returned (JArr [named "10001" "Task"; named "10002" "Bug"])
    | getPriorities => Returned (JArr [named "1" "High"; named "2" "Low"])
    | getTransitions _ =>
        Returned (JObj [("transitions",
                         JArr [JObj [("id", JStr "31");
                                     ("to", JObj [("name", JStr "Done")])]])])
    | getIssue k => Returned (JStr k)
    | createIssue _ => Returned (JStr "TEST-1")
    | _ => Returned JNull
    end.

(** The same Jira, except that it rejects every mutation with status 400. *)
Definition rejecting_jira : Remote :=
  fun h c =>
    match c with
    | createIssue _ | editIssue _ _ | doTransition _ _ =>
        Thrown (ApiError (Some 400%Z) (Some ["Field error"]) (Some "Bad Request"))
    | _ => sample_jira h c
    end.

(** A Jira whose every call fails with status 404. *)
Definition failing_jira : Remote :=
  fun _ _ => Thrown (ApiError (Some 404%Z) None (Some "Not Found")).

Definition request (toolName : string) (args : obj) : CallToolRequest :=
  {| req_name := toolName; req_arguments := Some (JObj args) |}.

(** ** Vocabulary of the statements *)

(** An argument that is given and not the empty string. *)
Definition given (s : option string) : option string :=
  match s with
  | Some x => if String.eqb x EmptyString then None else Some x
  | None => None
  end.

(** The lookup a best-effort resolution issues: one call when its argument
    is truthy, none otherwise. *)
Definition if_asked (v : option json) (c : Call) : Trace :=
  if truthy v then [c] else [].

(** The JQL of [get_assigned_issues] in the words of the specification:
    the base filter by status, then [ AND (q)] for a given [additionalJql]. *)
Definition claimed_assigned_jql (a : string) (status additionalJql : option string)
  : string :=
  let base :=
    match status with
    | Some s =>
        if String.eqb s "past" then "assignee WAS " ++ quoted a
        else if String.eqb s "all" then
          "(assignee = " ++ quoted a ++ " OR assignee WAS " ++ quoted a ++ ")"
        else "assignee = " ++ quoted a
    | None => "assignee = " ++ quoted a
    end in
  match additionalJql with
  | Some q => base ++ " AND (" ++ q ++ ")"
  | None => base
  end.

(** The JQL of [get_issues] for a project key, in the words of the
    specification. *)
Definition claimed_project_jql (p : string) (jql : option string) : string :=
  match jql with
  | Some q => "project = " ++ quoted p ++ " AND " ++ q
  | None => "project = " ++ quoted p
  end.

(** Arguments of the concrete runs. *)
Definition story_arguments : obj :=
  [("projectKey", JStr "TEST"); ("summary", JStr "s"); ("issueType", JStr "Story")].

Definition urgent_arguments : obj :=
  [("projectKey", JStr "TEST"); ("summary", JStr "s"); ("issueType", JStr "task");
   ("priority", JStr "Urgent")].

Definition summary_and_status : obj :=
  [("issueKey", JStr "T-1"); ("summary", JStr "x"); ("status", JStr "done")].

(** ** Kinds of calls *)

(** The calls that change something in Jira. *)
Definition is_mutation (c : Call) : bool :=
  match c with
  | deleteIssue _ | editIssue _ _ | doTransition _ _ | createIssue _
  | linkIssues _ _ _ => true
  | _ => false
  end.

(** The tools of the function-style server that only read. *)
Definition read_only_tools : list string :=
  ["get_issues"; "get_assigned_issues"; "list_fields"; "list_issue_types";
   "list_link_types"; "get_user"; "get_issue"].

(** The fields [update_issue] can put in an [editIssue] payload. *)
Definition updatable_fields : list string :=
  ["summary"; "description"; "assignee"; "priority"].

(** The error the dispatcher surfaces for an [McpError] thrown inside the
    [try] block. *)
Definition surfaced (c : ErrorCode) (m : string) : JsError :=
  McpError InternalError
    ("Jira API Error (500): MCP error " ++ Z_toString (code_number c) ++ ": " ++ m)
    (Some (McpError c m None)).

(** The tools that hand the answer of one client method back: tool name and
    the call it issues. *)
Definition passthrough_tools : list (string * Call) :=
  [("list_fields", getFields); ("list_issue_types", getIssueAllTypes);
   ("list_link_types", getIssueLinkTypes)].

(** What the dispatcher makes of the answer to the last call of a handler
    that hands it back. *)
Definition surface `{Runtime} (answer : Outcome json) : Outcome Response :=
  match answer with
  | Returned r => Returned (envelope r)
  | Thrown e => Thrown (tool_error e)
  end.

Definition not_found_message (email : string) : string :=
  "User with email " ++ quoted email ++ " not found.".

(** [config.filter?.id] *)
Definition filter_id_of (config : json) : option string :=
  match get "filter" (props config) with
  | Some f => str_prop "id" f
  | None => None
  end.

(** The JQL of the rapid-view branch: the JQL of the board's filter, then
    the given [jql] in parentheses. *)
Definition board_filter_jql (filterJql : string) (jql : option string) : string :=
  match jql with
  | Some q => filterJql ++ " AND (" ++ q ++ ")"
  | None => filterJql
  end.

Definition invalid_rapidView_message `{Runtime} (rapidView : option json) : string :=
  "Invalid rapidView ID: " ++ render rapidView ++ ". Must be a positive integer.".

(** The least integer that [parseInt] rounds to [Infinity]: half way between
    the largest Number, [2^1024 - 2^971], and [2^1024]. *)
Definition Infinity_from : Z := 2 ^ 1024 - 2 ^ 970.

(** A Jira with one board whose filter has the JQL [project = BOARD]. *)
Definition board_jira : Remote :=
  fun h c =>
    match c with
    | getBoard _ => Returned (JObj [("name", JStr "Team board")])
    | getConfiguration _ => Returned (JObj [("filter", JObj [("id", JStr "10000")])])
    | getFilter _ => Returned (JObj [("jql", JStr "project = BOARD")])
    | searchForIssuesUsingJql jql => Returned (JStr jql)
    | _ => sample_jira h c
    end.

(** A Jira whose boards have a configuration without a filter. *)
Definition unfiltered_jira : Remote :=
  fun h c =>
    match c with
    | getBoard _ => Returned (JObj [("name", JStr "Team board")])
    | getConfiguration _ => Returned (JObj [("name", JStr "Team board")])
    | _ => sample_jira h c
    end.

(** A Jira whose user search finds nobody. *)
Definition empty_directory_jira : Remote :=
  fun h c =>
    match c with
    | findUsers _ _ => Returned (JArr [])
    | _ => sample_jira h c
    end.

Definition board_arguments : obj :=
  [("projectKey", JStr "TEST"); ("rapidView", JStr "117");
   ("jql", JStr "assignee = currentUser()")].

(** ** How a create workflow reaches its mutation *)

(** [CreateRun args R assigneeKey tr fields]: the trace [tr] ends in the
    [createIssue] of [fields]; before it the project lookup returned a
    project with a truthy id, the issue-type lookup returned a type that
    matches the requested name and has a truthy id, the priority and the
    components were resolved, [fields] is the payload assembled from these,
    and no mutation was issued. *)
Inductive CreateRun `{Runtime} (args : obj) (R : Remote) (assigneeKey : string)
    (tr : Trace) (fields : obj) : Prop :=
| create_run
    (project types : json) (projectId issueTypeId : string)
    (priorityId : option string) (componentObjects : list json)
    (before lookups : Trace)
    (project_found :
       R [] (getProject (text_of (str_arg "projectKey" args))) = Returned project)
    (project_id : str_prop "id" project = Some projectId)
    (project_id_truthy : projectId <> EmptyString)
    (types_found :
       R [getProject (text_of (str_arg "projectKey" args))] getIssueAllTypes
       = Returned types)
    (type_found :
       truthy_id (find_named (text_of (str_arg "issueType" args)) (elements types))
       = Some issueTypeId)
    (priority_resolved :
       resolve_priority (get "priority" args) R
         [getProject (text_of (str_arg "projectKey" args)); getIssueAllTypes]
       = (Returned priorityId, lookups))
    (components_resolved :
       resolve_components (get "components" args) projectId R lookups
       = (Returned componentObjects, before))
    (payload :
       fields = create_fields args assigneeKey projectId issueTypeId
                  componentObjects priorityId)
    (trace : tr = (before ++ [createIssue fields])%list)
    (before_reads : count is_mutation before = 0%nat).

Definition full_create_arguments : obj :=
  [("projectKey", JStr "TEST"); ("summary", JStr "s"); ("issueType", JStr "bug");
   ("description", JStr EmptyString); ("assignee", JStr "u-1"); ("labels", JArr [])].

(** A Jira whose project has the components Backend (id 7) and Docs (no
    id). *)
Definition components_jira : Remote :=
  fun h c =>
    match c with
    | getProjectComponents _ =>
        Returned (JArr [named "7" "Backend"; JObj [("name", JStr "Docs")]])
    | _ => sample_jira h c
    end.

(** ** The calls of an update *)

(** What can follow the lookups of [update_issue]: nothing; the field
    update alone (it failed, or no transition was found and the read comes
    next); the field update and the transition; both and the read; or, with
    no field to update, the transition alone or with the read. *)
Definition update_tails (issueKey : string) (fields : obj)
    (transitionId : option string) : list Trace :=
  let edit := [editIssue issueKey fields] in
  let transition :=
    match transitionId with
    | Some i => [doTransition issueKey i]
    | None => []
    end in
  let read := [getIssue issueKey] in
  [ []; edit; (edit ++ transition)%list; (edit ++ transition ++ read)%list;
    transition; (transition ++ read)%list ].

Definition assignee_only (issueKey a : string) : obj :=
  [("issueKey", JStr issueKey); ("assignee", JStr a)].

(** * Verification *)

Unset Implicit Arguments.

Create HintDb js_ops.
#[local] Hint Unfold run bind ret throw try_catch call : js_ops.

Ltac js_step := autounfold with js_ops; cbn beta iota.

(** ** Concrete runs *)

Example run_get_issues_project :
  run (Server.call_tool (request "get_issues" [("projectKey", JStr "TEST")])) sample_jira
  = (Returned (ToolResult [ {| content_type := "text"; text := "null" |} ]),
     [searchForIssuesUsingJql ("project = " ++ quoted "TEST")]).
Proof. reflexivity. Qed.

Example run_update_issue_fields_and_status :
  snd (run (Server.call_tool
              (request "update_issue"
                 [("issueKey", JStr "T-1"); ("status", JStr "done");
                  ("summary", JStr "x")])) sample_jira)
  = [getTransitions "T-1"; editIssue "T-1" [("summary", JStr "x")];
     doTransition "T-1" "31"; getIssue "T-1"].
Proof. reflexivity. Qed.

Example run_unknown_tool :
  run (Server.call_tool (request "nope" [])) sample_jira
  = (Thrown (McpError MethodNotFound ("Tool " ++ quoted "nope" ++ " not found.") None), []).
Proof. reflexivity. Qed.

(** The two servers hand the no-op message of [update_issue] back in
    different shapes: the function-style server returns it from the request
    handler as it is, the class-style server puts it in the envelope. *)
Example run_noop_shapes :
  fst (run (Server.call_tool
              (request "update_issue"
                 [("issueKey", JStr "T-1"); ("status", JStr "Archived")])) sample_jira)
  = Returned (Plain (no_update_message "T-1"))
  /\ fst (run (Index.call_tool
                 (request "update_issue"
                    [("issueKey", JStr "T-1"); ("status", JStr "Archived")])) sample_jira)
     = Returned (envelope (no_update_message "T-1")).
Proof. split; reflexivity. Qed.

(** The schemas of the class-style server are open: it lets [labels]
    through to [update_issue]. *)
Example Index_update_issue_accepts_labels :
  validate Index.update_issue_schema
    (JObj [("issueKey", JStr "PROJ-1"); ("labels", JArr [JStr "x"])]) = true.
Proof. reflexivity. Qed.

(** ** The registry *)

Lemma Server_tool_names_unique : NoDup (map name Server.tools).
Proof.
  cbn. repeat (constructor; [cbn; intros Hin;
    repeat (destruct Hin as [Hin|Hin]; [discriminate Hin|]); exact Hin|]).
  constructor.
Qed.

Lemma Index_tool_names_unique : NoDup (map name Index.tools).
Proof.
  cbn. repeat (constructor; [cbn; intros Hin;
    repeat (destruct Hin as [Hin|Hin]; [discriminate Hin|]); exact Hin|]).
  constructor.
Qed.

Lemma find_tool_absent (ts : list Tool) (n : string) :
  ~ In n (map name ts) -> find_tool ts n = None.
Proof.
  induction ts as [|t ts IH]; intros Hn; [reflexivity|].
  unfold find_tool in *. simpl.
  destruct (String.eqb_spec (name t) n) as [E|E].
  - exfalso. apply Hn. left. exact E.
  - apply IH. intro Hin. apply Hn. right. exact Hin.
Qed.

(** Every tool of the registry is the one [find] returns for its name, and
    its schema is the one the validator map holds for that name. *)
Lemma Server_registry (tool : Tool) :
  In tool Server.tools ->
  find_tool Server.tools (name tool) = Some tool
  /\ get (name tool) (toolValidators Server.tools) = Some (inputSchema tool).
Proof.
  intros Hin. simpl in Hin.
  repeat (destruct Hin as [<-|Hin]; [split; reflexivity|]).
  contradiction.
Qed.

Lemma Index_registry (tool : Tool) :
  In tool Index.tools ->
  find_tool Index.tools (name tool) = Some tool
  /\ get (name tool) (toolValidators Index.tools) = Some (inputSchema tool).
Proof.
  intros Hin. simpl in Hin.
  repeat (destruct Hin as [<-|Hin]; [split; reflexivity|]).
  contradiction.
Qed.

Section Dispatch.
Context `{Runtime}.

(** The dispatcher on a registered tool whose validator rejects the
    arguments. *)
Lemma Server_invalid_arguments (tool : Tool) (arguments : option json) (R : Remote) :
  In tool Server.tools ->
  validate (inputSchema tool) (Server.normalize arguments) = false ->
  run (Server.call_tool {| req_name := name tool; req_arguments := arguments |}) R
  = (Thrown (McpError InvalidParams
               ("Invalid arguments for tool " ++ name tool ++ ": "
                ++ errorsText (inputSchema tool) (Some (Server.normalize arguments)))
               None), []).
Proof.
  intros Hin Hbad. destruct (Server_registry tool Hin) as [Hfind Hget].
  unfold Server.call_tool, Server.check_arguments. cbn [req_name req_arguments].
  rewrite Hfind, Hget, Hbad. reflexivity.
Qed.

(** The dispatcher on a registered tool whose validator accepts the
    arguments: the [try] block runs. *)
Lemma Server_valid_arguments (tool : Tool) (arguments : option json) (R : Remote) :
  In tool Server.tools ->
  validate (inputSchema tool) (Server.normalize arguments) = true ->
  run (Server.call_tool {| req_name := name tool; req_arguments := arguments |}) R
  = match Server.handle (name tool) (props (Server.normalize arguments)) R [] with
    | (Returned c, tr) => (Returned (respond c), tr)
    | (Thrown e, tr) => (Thrown (tool_error e), tr)
    end.
Proof.
  intros Hin Hok. destruct (Server_registry tool Hin) as [Hfind Hget].
  unfold Server.call_tool, Server.check_arguments. cbn [req_name req_arguments].
  rewrite Hfind, Hget, Hok. cbn [negb]. js_step.
  destruct (Server.handle _ _ R []) as [[c|e] tr]; reflexivity.
Qed.

End Dispatch.

(** C1.  A call whose tool name is not in the registry fails with
    [MethodNotFound], and a call to a registered tool whose arguments its
    schema rejects fails with [InvalidParams] and a message that carries the
    validator's error text; in both cases the trace of remote calls is
    empty. *)
Theorem call_tool_rejects_before_any_remote_call `{Runtime} :
  forall (toolName : string) (arguments : option json) (R : Remote),
    (~ In toolName (map name Server.tools) ->
     run (Server.call_tool {| req_name := toolName; req_arguments := arguments |}) R
     = (Thrown (McpError MethodNotFound
                  ("Tool " ++ quoted toolName ++ " not found.") None), []))
    /\
    (forall tool : Tool,
       In tool Server.tools ->
       name tool = toolName ->
       validate (inputSchema tool) (Server.normalize arguments) = false ->
       run (Server.call_tool {| req_name := toolName; req_arguments := arguments |}) R
       = (Thrown (McpError InvalidParams
                    ("Invalid arguments for tool " ++ toolName ++ ": "
                     ++ errorsText (inputSchema tool)
                          (Some (Server.normalize arguments))) None), [])).
Proof.
  intros toolName arguments R. split.
  - intros Habsent. unfold run, Server.call_tool. cbn [req_name].
    rewrite (find_tool_absent Server.tools toolName Habsent). reflexivity.
  - intros tool Hin <- Hbad. apply Server_invalid_arguments; assumption.
Qed.

Lemma call_tool_rejects_before_any_remote_call_witness :
  run (Server.call_tool (request "no_such_tool" [])) sample_jira
  = (Thrown (McpError MethodNotFound
               ("Tool " ++ quoted "no_such_tool" ++ " not found.") None), [])
  /\ run (Server.call_tool (request "get_issue" [("issueKey", JNum 7)])) sample_jira
     = (Thrown (McpError InvalidParams
                  "Invalid arguments for tool get_issue: data is invalid" None), []).
Proof.
  split.
  - refine (proj1 (call_tool_rejects_before_any_remote_call
                     "no_such_tool" (Some (JObj [])) sample_jira) _).
    vm_compute. intros Hin.
    repeat (destruct Hin as [Hin|Hin]; [discriminate Hin|]). exact Hin.
  - refine (proj2 (call_tool_rejects_before_any_remote_call
                     "get_issue" (Some (JObj [("issueKey", JNum 7)])) sample_jira)
              Server.get_issue_tool _ _ _).
    + simpl. do 10 right. left. reflexivity.
    + reflexivity.
    + reflexivity.
Defined.

(** ** Closed schemas *)

Lemma mem_In (k : string) (l : list string) : mem k l = true <-> In k l.
Proof.
  unfold mem. rewrite existsb_exists. split.
  - intros [x [Hin Heq]]. apply String.eqb_eq in Heq. subst. exact Hin.
  - intros Hin. exists k. split; [exact Hin | apply String.eqb_refl].
Qed.

Lemma additional_ok_rejects (declared : list string) (o : obj) (k : string) :
  In k (map fst o) -> ~ In k declared ->
  additional_ok false declared (JObj o) = false.
Proof.
  intros Hin Hnot. unfold additional_ok. cbn [orb].
  destruct (forallb (fun k0 => mem k0 declared) (map fst o)) eqn:E; [|reflexivity].
  rewrite forallb_forall in E. specialize (E k Hin).
  apply mem_In in E. contradiction.
Qed.

(** A schema with [additionalProperties: false] rejects every object that
    has a key outside its [properties]. *)
Lemma validate_rejects_additional (s : Schema) (o : obj) (k : string) :
  additionalProperties s = false ->
  In k (map fst o) ->
  ~ In k (map fst (properties s)) ->
  validate s (JObj o) = false.
Proof.
  destruct s as [t ps req minp addl en its one any_ mi pat].
  cbn [additionalProperties properties]. intros -> Hin Hnot.
  cbn [validate]. rewrite (additional_ok_rejects (map fst ps) o k Hin Hnot).
  rewrite !andb_false_r. reflexivity.
Qed.

Lemma Server_schemas_closed (tool : Tool) :
  In tool Server.tools -> additionalProperties (inputSchema tool) = false.
Proof.
  intros Hin. simpl in Hin.
  repeat (destruct Hin as [<-|Hin]; [reflexivity|]).
  contradiction.
Qed.

(** C10.  Every tool schema of the function-style server sets
    [additionalProperties: false]; so for every registered tool and every
    argument object that has a key the tool's schema does not declare, the
    call fails with [InvalidParams] and issues no remote call.  For example
    [labels] is rejected by [update_issue] and accepted by [create_issue]. *)
Theorem undeclared_property_is_rejected `{Runtime} :
  forall (tool : Tool) (args : obj) (k : string) (R : Remote),
    In tool Server.tools ->
    In k (map fst args) ->
    ~ In k (map fst (properties (inputSchema tool))) ->
    additionalProperties (inputSchema tool) = false
    /\ run (Server.call_tool (request (name tool) args)) R
       = (Thrown (McpError InvalidParams
                    ("Invalid arguments for tool " ++ name tool ++ ": "
                     ++ errorsText (inputSchema tool) (Some (JObj args))) None), [])
    /\ validate Server.update_issue_schema
         (JObj [("issueKey", JStr "PROJ-1"); ("labels", JArr [JStr "x"])]) = false
    /\ validate Server.create_issue_schema
         (JObj [("projectKey", JStr "PROJ"); ("summary", JStr "s");
                ("issueType", JStr "Task"); ("labels", JArr [JStr "x"])]) = true.
Proof.
  intros tool args k R Hin Hkey Hundeclared.
  pose proof (Server_schemas_closed tool Hin) as Hclosed.
  split; [exact Hclosed|]. split; [|split; reflexivity].
  apply (Server_invalid_arguments tool (Some (JObj args)) R Hin).
  cbn [Server.normalize truthy value_of].
  exact (validate_rejects_additional _ args k Hclosed Hkey Hundeclared).
Qed.

Lemma undeclared_property_is_rejected_witness :
  run (Server.call_tool
         (request "update_issue"
            [("issueKey", JStr "PROJ-1"); ("labels", JArr [JStr "x"])])) sample_jira
  = (Thrown (McpError InvalidParams
               "Invalid arguments for tool update_issue: data is invalid" None), []).
Proof.
  refine (proj1 (proj2 (undeclared_property_is_rejected
            Server.update_issue_tool
            [("issueKey", JStr "PROJ-1"); ("labels", JArr [JStr "x"])]
            "labels" sample_jira _ _ _))).
  - simpl. do 3 right. left. reflexivity.
  - simpl. right. left. reflexivity.
  - simpl. intros Hin.
    repeat (destruct Hin as [Hin|Hin]; [discriminate Hin|]). exact Hin.
Defined.

(** ** [get_issues] without a project key or a rapid view *)


Lemma get_issues_registered : In Server.get_issues_tool Server.tools.
Proof. simpl. right. left. reflexivity. Qed.


Section GetIssuesNeither.
Context `{Runtime}.

Lemma case_get_issues_neither (args : obj) (R : Remote) (tr : Trace) :
  get "projectKey" args = None ->
  get "rapidView" args = None ->
  case_get_issues args R tr = (Thrown (McpError InvalidParams neither_message None), tr).
Proof.
  intros Hp Hr. unfold case_get_issues. rewrite Hp, Hr. reflexivity.
Qed.

Lemma Index_invalid_arguments (tool : Tool) (arguments : option json) (R : Remote) :
  In tool Index.tools ->
  Index.validate_arguments (inputSchema tool) arguments = false ->
  run (Index.call_tool {| req_name := name tool; req_arguments := arguments |}) R
  = (Thrown (McpError InvalidParams
               ("Invalid arguments for tool " ++ name tool ++ ": "
                ++ errorsText (inputSchema tool) arguments) None), []).
Proof.
  intros Hin Hbad. destruct (Index_registry tool Hin) as [Hfind Hget].
  unfold Index.call_tool, Index.check_arguments. cbn [req_name req_arguments].
  rewrite Hfind, Hget, Hbad. reflexivity.
Qed.

Lemma Index_valid_arguments (tool : Tool) (arguments : option json) (R : Remote) :
  In tool Index.tools ->
  Index.validate_arguments (inputSchema tool) arguments = true ->
  run (Index.call_tool {| req_name := name tool; req_arguments := arguments |}) R
  = match Index.handle (name tool) (props (value_of arguments)) R [] with
    | (Returned c, tr) => (Returned (respond c), tr)
    | (Thrown e, tr) => (Thrown (tool_error e), tr)
    end.
Proof.
  intros Hin Hok. destruct (Index_registry tool Hin) as [Hfind Hget].
  unfold Index.call_tool, Index.check_arguments. cbn [req_name req_arguments].
  rewrite Hfind, Hget, Hok. cbn [negb]. js_step.
  destruct (Index.handle _ _ R []) as [[c|e] tr]; reflexivity.
Qed.

(** The class-style server refuses an unregistered tool name in the same
    way, before any remote call. *)
Lemma Index_unknown_tool (toolName : string) (arguments : option json) (R : Remote) :
  ~ In toolName (map name Index.tools) ->
  run (Index.call_tool {| req_name := toolName; req_arguments := arguments |}) R
  = (Thrown (McpError MethodNotFound
               ("Tool " ++ quoted toolName ++ " not found.") None), []).
Proof.
  intros Habsent. unfold run, Index.call_tool. cbn [req_name].
  rewrite (find_tool_absent Index.tools toolName Habsent). reflexivity.
Qed.

Lemma validate_required_one (k : string) (o : obj) :
  validate (schema_required [k]) (JObj o) = has_key o k.
Proof.
  unfold schema_required. cbn. rewrite !andb_true_r. reflexivity.
Qed.

(** The class-style server closes the gap in the schema: its [anyOf]
    rejects arguments that name neither a project key nor a rapid view. *)
Lemma Index_get_issues_schema_needs_one (arguments : option json) :
  get "projectKey" (props (value_of arguments)) = None ->
  get "rapidView" (props (value_of arguments)) = None ->
  Index.validate_arguments Index.get_issues_schema arguments = false.
Proof.
  intros Hp Hr. destruct arguments as [[| | | | |o]|]; try reflexivity.
  cbn [value_of props] in Hp, Hr.
  unfold Index.validate_arguments, Index.get_issues_schema, Index.open_object,
    schema_object.
  cbn [validate existsb].
  rewrite !validate_required_one. unfold has_key. rewrite Hp, Hr.
  cbn [orb]. rewrite !andb_false_r. reflexivity.
Qed.

(** In the class-style server the same call is refused by the validator,
    with [InvalidParams], before the [try] block. *)
Lemma Index_get_issues_neither_is_InvalidParams (arguments : option json) (R : Remote) :
  get "projectKey" (props (value_of arguments)) = None ->
  get "rapidView" (props (value_of arguments)) = None ->
  run (Index.call_tool {| req_name := "get_issues"; req_arguments := arguments |}) R
  = (Thrown (McpError InvalidParams
               ("Invalid arguments for tool get_issues: "
                ++ errorsText Index.get_issues_schema arguments) None), []).
Proof.
  intros Hp Hr.
  apply (Index_invalid_arguments Index.get_issues_tool arguments R).
  - simpl. right. left. reflexivity.
  - apply Index_get_issues_schema_needs_one; assumption.
Qed.

End GetIssuesNeither.

(** C3.  In the function-style server a [get_issues] call whose arguments
    pass validation and hold neither [projectKey] nor [rapidView] issues no
    remote call, but the [InvalidParams] error thrown for it inside the [try]
    block is re-wrapped by the catch block: the caller receives
    [InternalError], with the [InvalidParams] error as [originalError]. *)
Theorem get_issues_neither_surfaces_InternalError `{Runtime} :
  forall (args : obj) (R : Remote),
    validate Server.get_issues_schema (JObj args) = true ->
    get "projectKey" args = None ->
    get "rapidView" args = None ->
    run (Server.call_tool (request "get_issues" args)) R
    = (Thrown (McpError InternalError
                 ("Jira API Error (500): MCP error -32602: " ++ neither_message)
                 (Some (McpError InvalidParams neither_message None))), []).
Proof.
  intros args R Hvalid Hp Hr.
  pose proof (Server_valid_arguments Server.get_issues_tool (Some (JObj args)) R
                get_issues_registered Hvalid) as Hrun.
  cbn [name Server.get_issues_tool Server.normalize truthy value_of props] in Hrun.
  unfold request. rewrite Hrun.
  change (Server.handle "get_issues" args) with (case_get_issues args).
  rewrite (case_get_issues_neither args R [] Hp Hr). reflexivity.
Qed.

Lemma get_issues_neither_surfaces_InternalError_witness :
  run (Server.call_tool (request "get_issues" [])) sample_jira
  = (Thrown (McpError InternalError
               "Jira API Error (500): MCP error -32602: Either projectKey or rapidView must be provided"
               (Some (McpError InvalidParams
                        "Either projectKey or rapidView must be provided" None))), []).
Proof.
  refine (get_issues_neither_surfaces_InternalError [] sample_jira _ _ _);
    reflexivity.
Defined.

(** ** The catch block *)

Lemma mcpErrorCode_of_other (s : Z) :
  s <> 400%Z -> s <> 401%Z -> s <> 403%Z -> s <> 404%Z ->
  mcpErrorCode_of s = InternalError.
Proof.
  intros H0 H1 H3 H4. unfold mcpErrorCode_of.
  destruct (Z.eqb_spec s 400); [contradiction|].
  destruct (Z.eqb_spec s 401); [contradiction|].
  destruct (Z.eqb_spec s 403); [contradiction|].
  destruct (Z.eqb_spec s 404); [contradiction|].
  reflexivity.
Qed.

Lemma statusCode_of_status (e : JsError) (s : Z) :
  error_status e = Some s -> s <> 0%Z -> statusCode_of e = s.
Proof.
  intros Hs Hnz. unfold statusCode_of. rewrite Hs.
  destruct (Z.eqb_spec s 0); [contradiction|reflexivity].
Qed.

Lemma nonempty_Some (s : string) : s <> EmptyString -> nonempty (Some s) = true.
Proof.
  intros Hs. unfold nonempty. destruct (String.eqb_spec s EmptyString);
    [contradiction|reflexivity].
Qed.

(** The error the catch block throws for a caught [e]: its code follows the
    status of [e], its message holds the status (500 when [e] has none) and
    the message text of [e], and [e] is attached. *)
Lemma tool_error_table (e : JsError) :
  exists code : ErrorCode,
    tool_error e
    = McpError code
        ("Jira API Error (" ++ Z_toString (statusCode_of e) ++ "): " ++ errorMessage_of e)
        (Some e)
    /\ (error_status e = Some 400%Z -> code = InvalidParams)
    /\ (error_status e = Some 401%Z \/ error_status e = Some 403%Z ->
        code = InvalidRequest)
    /\ (error_status e = Some 404%Z -> code = InvalidRequest)
    /\ ((forall s, error_status e = Some s ->
                   s <> 400%Z /\ s <> 401%Z /\ s <> 403%Z /\ s <> 404%Z) ->
        code = InternalError)
    /\ (forall s, error_status e = Some s -> s <> 0%Z -> statusCode_of e = s)
    /\ (error_status e = None -> statusCode_of e = 500%Z)
    /\ (forall l, error_joined e = Some l -> l <> EmptyString -> errorMessage_of e = l)
    /\ (forall m, error_joined e = None -> error_message e = Some m ->
                  m <> EmptyString -> errorMessage_of e = m).
Proof.
  exists (mcpErrorCode_of (statusCode_of e)).
  split; [reflexivity|].
  split; [intros Hs; unfold statusCode_of; rewrite Hs; reflexivity|].
  split; [intros [Hs|Hs]; unfold statusCode_of; rewrite Hs; reflexivity|].
  split; [intros Hs; unfold statusCode_of; rewrite Hs; reflexivity|].
  split.
  { intros Hother. unfold statusCode_of.
    destruct (error_status e) as [s|]; [|reflexivity].
    destruct (Z.eqb_spec s 0); [reflexivity|].
    destruct (Hother s eq_refl) as (H0 & H1 & H3 & H4).
    apply mcpErrorCode_of_other; assumption. }
  split; [apply statusCode_of_status|].
  split; [intros Hs; unfold statusCode_of; rewrite Hs; reflexivity|].
  split.
  - intros l Hl Hne. unfold errorMessage_of. rewrite Hl, (nonempty_Some l Hne).
    reflexivity.
  - intros m Hj Hm Hne. unfold errorMessage_of. rewrite Hj, Hm.
    cbn [nonempty]. fold (nonempty (Some m)). rewrite (nonempty_Some m Hne).
    reflexivity.
Qed.

(** C9.  Whenever a workflow handler throws [e] during a call (in either
    server), the call throws an [McpError] whose code follows the status of
    [e] (400: [InvalidParams]; 401, 403 and 404: [InvalidRequest]; any other
    or no status: [InternalError]), whose message is
    ["Jira API Error (<status>): <text>"] with the status and message text of
    [e], and whose data holds [e] itself. *)
Theorem handler_errors_are_reclassified `{Runtime} :
  forall (tool : Tool) (arguments : option json) (R : Remote)
         (e : JsError) (tr : Trace),
    (In tool Server.tools ->
     validate (inputSchema tool) (Server.normalize arguments) = true ->
     Server.handle (name tool) (props (Server.normalize arguments)) R [] = (Thrown e, tr) ->
     run (Server.call_tool {| req_name := name tool; req_arguments := arguments |}) R
     = (Thrown (tool_error e), tr))
    /\
    (In tool Index.tools ->
     Index.validate_arguments (inputSchema tool) arguments = true ->
     Index.handle (name tool) (props (value_of arguments)) R [] = (Thrown e, tr) ->
     run (Index.call_tool {| req_name := name tool; req_arguments := arguments |}) R
     = (Thrown (tool_error e), tr))
    /\
    exists code : ErrorCode,
      tool_error e
      = McpError code
          ("Jira API Error (" ++ Z_toString (statusCode_of e) ++ "): "
           ++ errorMessage_of e) (Some e)
      /\ (error_status e = Some 400%Z -> code = InvalidParams)
      /\ (error_status e = Some 401%Z \/ error_status e = Some 403%Z ->
          code = InvalidRequest)
      /\ (error_status e = Some 404%Z -> code = InvalidRequest)
      /\ ((forall s, error_status e = Some s ->
                     s <> 400%Z /\ s <> 401%Z /\ s <> 403%Z /\ s <> 404%Z) ->
          code = InternalError)
      /\ (forall s, error_status e = Some s -> s <> 0%Z -> statusCode_of e = s)
      /\ (error_status e = None -> statusCode_of e = 500%Z)
      /\ (forall l, error_joined e = Some l -> l <> EmptyString ->
                    errorMessage_of e = l)
      /\ (forall m, error_joined e = None -> error_message e = Some m ->
                    m <> EmptyString -> errorMessage_of e = m).
Proof.
  intros tool arguments R e tr. split; [|split].
  - intros Hin Hok Hthrown.
    rewrite (Server_valid_arguments tool arguments R Hin Hok), Hthrown. reflexivity.
  - intros Hin Hok Hthrown.
    rewrite (Index_valid_arguments tool arguments R Hin Hok), Hthrown. reflexivity.
  - apply tool_error_table.
Qed.


Lemma handler_errors_are_reclassified_witness :
  run (Server.call_tool (request "delete_issue" [("issueKey", JStr "PROJ-1")]))
    failing_jira
  = (Thrown (McpError InvalidRequest "Jira API Error (404): Not Found"
               (Some (ApiError (Some 404%Z) None (Some "Not Found")))),
     [deleteIssue "PROJ-1"]).
Proof.
  refine (proj1 (handler_errors_are_reclassified Server.delete_issue_tool
                   (Some (JObj [("issueKey", JStr "PROJ-1")])) failing_jira
                   (ApiError (Some 404%Z) None (Some "Not Found"))
                   [deleteIssue "PROJ-1"]) _ _ _).
  - simpl. left. reflexivity.
  - reflexivity.
  - reflexivity.
Defined.

(** ** [create_issue]: the issue type is mandatory *)



Lemma create_issue_registered : In Server.create_issue_tool Server.tools.
Proof. simpl. do 8 right. left. reflexivity. Qed.

Lemma Index_create_issue_registered : In Index.create_issue_tool Index.tools.
Proof. simpl. do 7 right. left. reflexivity. Qed.

Section CreateIssueType.
Context `{Runtime}.

Variable args : obj.
Variable R : Remote.

Let projectKey : string := text_of (str_arg "projectKey" args).
Let issueType : string := text_of (str_arg "issueType" args).

(** No issue type that the remote returns matches the requested name. *)
Hypothesis no_match :
  forall (h : Trace) (types : json),
    R h getIssueAllTypes = Returned types ->
    find_named issueType (elements types) = None.





End CreateIssueType.




(** ** What validation guarantees about the arguments *)

Lemma validate_property (s : Schema) (o : obj) (k : string) (sub : Schema) (v : json) :
  validate s (JObj o) = true ->
  In (k, sub) (properties s) ->
  get k o = Some v ->
  validate sub v = true.
Proof.
  destruct s as [t ps req minp addl en its one any_ mi pat].
  cbn [validate properties]. intros Hv Hin Hget.
  repeat (apply andb_prop in Hv; destruct Hv as [Hv ?]).
  match goal with
  | Hps : forallb _ ps = true |- _ =>
      rewrite forallb_forall in Hps; specialize (Hps (k, sub) Hin);
      cbn [fst snd] in Hps; rewrite Hget in Hps; exact Hps
  end.
Qed.

Lemma validate_string (v : json) :
  validate schema_string v = true -> exists s, v = JStr s.
Proof.
  destruct v; cbn; try discriminate. intros _. eexists. reflexivity.
Qed.

(** A validated argument that the schema declares as a string is absent or
    a string. *)
Lemma string_argument (s : Schema) (args : obj) (k : string) :
  validate s (JObj args) = true ->
  In (k, schema_string) (properties s) ->
  get k args = None \/ exists x, get k args = Some (JStr x).
Proof.
  intros Hv Hin. destruct (get k args) as [v|] eqn:Hget; [right|left; reflexivity].
  destruct (validate_string v (validate_property s args k schema_string v Hv Hin Hget))
    as [x ->].
  exists x. reflexivity.
Qed.


(** ** [get_assigned_issues] and [get_issues]: the JQL issued *)




Lemma get_assigned_issues_registered : In Server.get_assigned_issues_tool Server.tools.
Proof. simpl. do 2 right. left. reflexivity. Qed.

Section Jql.
Context `{Runtime}.

Lemma baseJql_claimed (a : string) (args : obj) :
  Server.baseJql a (get "status" args)
  = claimed_assigned_jql a (str_arg "status" args) None.
Proof.
  unfold Server.baseJql, claimed_assigned_jql, str_arg.
  destruct (get "status" args) as [[| | | | |]|]; reflexivity.
Qed.

Lemma claimed_assigned_jql_additional (a : string) (status : option string) (q : string) :
  claimed_assigned_jql a status (Some q)
  = claimed_assigned_jql a status None ++ " AND (" ++ q ++ ")".
Proof. reflexivity. Qed.

Lemma case_get_assigned_issues_trace (args : obj) (a : string) (R : Remote) :
  validate Server.get_assigned_issues_schema (JObj args) = true ->
  get "accountId" args = Some (JStr a) ->
  snd (Server.case_get_assigned_issues args R [])
  = [searchForIssuesUsingJql
       (claimed_assigned_jql a (str_arg "status" args)
          (given (str_arg "additionalJql" args)))].
Proof.
  intros Hv Ha. unfold Server.case_get_assigned_issues. js_step.
  rewrite Ha. cbn [render]. rewrite baseJql_claimed.
  assert (Hq : get "additionalJql" args = None
               \/ exists x, get "additionalJql" args = Some (JStr x)).
  { apply (string_argument Server.get_assigned_issues_schema); [exact Hv|].
    simpl. right. right. left. reflexivity. }
  assert (Hgiven : str_arg "additionalJql" args
                   = match get "additionalJql" args with
                     | Some (JStr x) => Some x
                     | _ => None
                     end) by reflexivity.
  rewrite Hgiven.
  destruct Hq as [Hq|[q Hq]]; rewrite Hq; cbn [truthy given render].
  - destruct (R [] _); reflexivity.
  - destruct (String.eqb q EmptyString); cbn [negb];
      destruct (R [] _); reflexivity.
Qed.

End Jql.

(** The catch block and the envelope leave the trace as the handler left it. *)
Lemma snd_surface {A B : Type} (f : A -> B) (g : JsError -> JsError)
    (x : Outcome A * Trace) :
  snd (match x with
       | (Returned c, tr) => (Returned (f c), tr)
       | (Thrown e, tr) => (Thrown (g e), tr)
       end) = snd x.
Proof. destruct x as [[c|e] tr]; reflexivity. Qed.

(** C7 (amended).  A validated [get_assigned_issues] call for account [a]
    issues exactly one remote call, the search with the JQL of the
    specification, where an [additionalJql] that is the empty string counts
    as not given: the base filter is [assignee = "a"] for status "current" or
    none, [assignee WAS "a"] for "past" and the disjunction of both for "all",
    and a non-empty [additionalJql] [q] appends [ AND (q)]. *)
Theorem get_assigned_issues_jql `{Runtime} :
  forall (args : obj) (a : string) (R : Remote),
    validate Server.get_assigned_issues_schema (JObj args) = true ->
    get "accountId" args = Some (JStr a) ->
    snd (run (Server.call_tool (request "get_assigned_issues" args)) R)
    = [searchForIssuesUsingJql
         (claimed_assigned_jql a (str_arg "status" args)
            (given (str_arg "additionalJql" args)))]
    /\ claimed_assigned_jql a None None = "assignee = " ++ quoted a
    /\ claimed_assigned_jql a (Some "current") None = "assignee = " ++ quoted a
    /\ claimed_assigned_jql a (Some "past") None = "assignee WAS " ++ quoted a
    /\ claimed_assigned_jql a (Some "all") None
       = "(assignee = " ++ quoted a ++ " OR assignee WAS " ++ quoted a ++ ")"
    /\ (forall status q,
          claimed_assigned_jql a status (Some q)
          = claimed_assigned_jql a status None ++ " AND (" ++ q ++ ")").
Proof.
  intros args a R Hv Ha. split; [|repeat split].
  pose proof (Server_valid_arguments Server.get_assigned_issues_tool (Some (JObj args)) R
                get_assigned_issues_registered Hv) as Hrun.
  cbn [name Server.get_assigned_issues_tool Server.normalize truthy value_of props] in Hrun.
  unfold request. rewrite Hrun.
  change (Server.handle "get_assigned_issues" args)
    with (Server.case_get_assigned_issues args).
  rewrite snd_surface. apply case_get_assigned_issues_trace; assumption.
Qed.

Lemma get_assigned_issues_jql_witness :
  snd (run (Server.call_tool
              (request "get_assigned_issues"
                 [("accountId", JStr "user-123"); ("status", JStr "all");
                  ("additionalJql", JStr "project = TEST")])) sample_jira)
  = [searchForIssuesUsingJql
       ("(assignee = " ++ quoted "user-123" ++ " OR assignee WAS "
        ++ quoted "user-123" ++ ") AND (project = TEST)")].
Proof.
  refine (proj1 (get_assigned_issues_jql
                   [("accountId", JStr "user-123"); ("status", JStr "all");
                    ("additionalJql", JStr "project = TEST")]
                   "user-123" sample_jira _ _)); reflexivity.
Defined.

(** C7 as stated fails on an [additionalJql] that is given as the empty
    string: the arguments pass validation, the claimed JQL ends in [ AND ()],
    and the search is issued with the base filter alone. *)
Lemma get_assigned_issues_empty_additionalJql :
  validate Server.get_assigned_issues_schema
    (JObj [("accountId", JStr "user-123"); ("additionalJql", JStr EmptyString)]) = true
  /\ snd (run (Server.call_tool
                 (request "get_assigned_issues"
                    [("accountId", JStr "user-123");
                     ("additionalJql", JStr EmptyString)])) sample_jira)
     = [searchForIssuesUsingJql ("assignee = " ++ quoted "user-123")]
  /\ claimed_assigned_jql "user-123" None (Some EmptyString)
     = "assignee = " ++ quoted "user-123" ++ " AND ()"
  /\ claimed_assigned_jql "user-123" None (Some EmptyString)
     <> "assignee = " ++ quoted "user-123".
Proof.
  split; [reflexivity|]. split; [reflexivity|]. split; [reflexivity|].
  vm_compute. discriminate.
Qed.

(** ** [get_issues] for a project key *)

Section ProjectJql.
Context `{Runtime}.

Lemma case_get_issues_project_trace (args : obj) (p : string) (R : Remote) :
  validate Server.get_issues_schema (JObj args) = true ->
  get "projectKey" args = Some (JStr p) ->
  p <> EmptyString ->
  get "rapidView" args = None ->
  snd (case_get_issues args R [])
  = [searchForIssuesUsingJql (claimed_project_jql p (given (str_arg "jql" args)))].
Proof.
  intros Hv Hp Hne Hr. unfold case_get_issues. js_step.
  rewrite Hr, Hp. cbn [truthy render].
  destruct (String.eqb_spec p EmptyString) as [|_]; [contradiction|]. cbn [negb].
  assert (Hq : get "jql" args = None \/ exists x, get "jql" args = Some (JStr x)).
  { apply (string_argument Server.get_issues_schema); [exact Hv|].
    simpl. right. right. left. reflexivity. }
  assert (Hgiven : str_arg "jql" args
                   = match get "jql" args with
                     | Some (JStr x) => Some x
                     | _ => None
                     end) by reflexivity.
  rewrite Hgiven.
  destruct Hq as [Hq|[q Hq]]; rewrite Hq; cbn [truthy given render].
  - destruct (R [] _); reflexivity.
  - destruct (String.eqb q EmptyString); cbn [negb];
      destruct (R [] _); reflexivity.
Qed.

End ProjectJql.

(** C8 (amended).  A validated [get_issues] call with a non-empty
    [projectKey] [p] and no [rapidView] issues exactly one remote call, the
    search, with JQL [project = "p"] when [jql] is absent or the empty string
    and [project = "p" AND q] when a non-empty [jql] [q] is given. *)
Theorem get_issues_project_jql `{Runtime} :
  forall (args : obj) (p : string) (R : Remote),
    validate Server.get_issues_schema (JObj args) = true ->
    get "projectKey" args = Some (JStr p) ->
    p <> EmptyString ->
    get "rapidView" args = None ->
    snd (run (Server.call_tool (request "get_issues" args)) R)
    = [searchForIssuesUsingJql (claimed_project_jql p (given (str_arg "jql" args)))]
    /\ claimed_project_jql p None = "project = " ++ quoted p
    /\ (forall q, claimed_project_jql p (Some q)
                  = "project = " ++ quoted p ++ " AND " ++ q).
Proof.
  intros args p R Hv Hp Hne Hr. split; [|split; reflexivity].
  pose proof (Server_valid_arguments Server.get_issues_tool (Some (JObj args)) R
                get_issues_registered Hv) as Hrun.
  cbn [name Server.get_issues_tool Server.normalize truthy value_of props] in Hrun.
  unfold request. rewrite Hrun.
  change (Server.handle "get_issues" args) with (case_get_issues args).
  rewrite snd_surface. apply case_get_issues_project_trace; assumption.
Qed.

Lemma get_issues_project_jql_witness :
  snd (run (Server.call_tool
              (request "get_issues"
                 [("projectKey", JStr "TEST"); ("jql", JStr "status = Done")]))
         sample_jira)
  = [searchForIssuesUsingJql ("project = " ++ quoted "TEST" ++ " AND status = Done")].
Proof.
  refine (proj1 (get_issues_project_jql
                   [("projectKey", JStr "TEST"); ("jql", JStr "status = Done")]
                   "TEST" sample_jira _ _ _ _)); try reflexivity.
  discriminate.
Defined.

(** C8 as stated fails on a [jql] given as the empty string, where the
    search is issued with the project filter alone, and on a [projectKey]
    given as the empty string, where no search is issued at all. *)
Lemma get_issues_empty_strings :
  (validate Server.get_issues_schema
     (JObj [("projectKey", JStr "TEST"); ("jql", JStr EmptyString)]) = true
   /\ snd (run (Server.call_tool
                  (request "get_issues"
                     [("projectKey", JStr "TEST"); ("jql", JStr EmptyString)]))
             sample_jira)
      = [searchForIssuesUsingJql ("project = " ++ quoted "TEST")]
   /\ claimed_project_jql "TEST" (Some EmptyString)
      = "project = " ++ quoted "TEST" ++ " AND "
   /\ claimed_project_jql "TEST" (Some EmptyString) <> "project = " ++ quoted "TEST")
  /\
  (validate Server.get_issues_schema (JObj [("projectKey", JStr EmptyString)]) = true
   /\ run (Server.call_tool (request "get_issues" [("projectKey", JStr EmptyString)]))
        sample_jira
      = (Thrown (tool_error (McpError InvalidParams neither_message None)), [])).
Proof.
  split.
  - split; [reflexivity|]. split; [reflexivity|]. split; [reflexivity|].
    vm_compute. discriminate.
  - split; reflexivity.
Qed.

(** ** Best-effort resolutions never throw *)


Section Resolutions.
Context `{Runtime}.

Lemma resolve_priority_returns (priority : option json) (R : Remote) (tr : Trace) :
  exists priorityId,
    resolve_priority priority R tr
    = (Returned priorityId, (tr ++ if_asked priority getPriorities)%list).
Proof.
  unfold resolve_priority, if_asked. destruct (truthy priority).
  - js_step. destruct (R tr getPriorities); eexists; reflexivity.
  - exists None. js_step. rewrite app_nil_r. reflexivity.
Qed.

Lemma resolve_priority_unresolved (priority : option json) (R : Remote) (tr : Trace) :
  (forall h priorities,
     R h getPriorities = Returned priorities ->
     truthy_id (find_named (render priority) (elements priorities)) = None) ->
  resolve_priority priority R tr
  = (Returned None, (tr ++ if_asked priority getPriorities)%list).
Proof.
  intros Hno. unfold resolve_priority, if_asked. destruct (truthy priority).
  - js_step. destruct (R tr getPriorities) eqn:E; [rewrite (Hno _ _ E)|]; reflexivity.
  - js_step. rewrite app_nil_r. reflexivity.
Qed.

Lemma resolve_transition_returns (issueKey : string) (status : option json)
    (R : Remote) (tr : Trace) :
  exists transitionId,
    resolve_transition issueKey status R tr
    = (Returned transitionId, (tr ++ if_asked status (getTransitions issueKey))%list).
Proof.
  unfold resolve_transition, if_asked. destruct (truthy status).
  - js_step. destruct (R tr (getTransitions issueKey)); eexists; reflexivity.
  - exists None. js_step. rewrite app_nil_r. reflexivity.
Qed.

Lemma resolve_transition_unresolved (issueKey : string) (status : option json)
    (R : Remote) (tr : Trace) :
  (forall h transitions,
     R h (getTransitions issueKey) = Returned transitions ->
     truthy_id (find_transition (render status) transitions) = None) ->
  resolve_transition issueKey status R tr
  = (Returned None, (tr ++ if_asked status (getTransitions issueKey))%list).
Proof.
  intros Hno. unfold resolve_transition, if_asked. destruct (truthy status).
  - js_step. destruct (R tr (getTransitions issueKey)) eqn:E;
      [rewrite (Hno _ _ E)|]; reflexivity.
  - js_step. rewrite app_nil_r. reflexivity.
Qed.

Lemma resolve_components_returns (components : option json) (projectId : string)
    (R : Remote) (tr : Trace) :
  exists componentObjects asked,
    resolve_components components projectId R tr
    = (Returned componentObjects, (tr ++ asked)%list)
    /\ (asked = [] \/ asked = [getProjectComponents projectId]).
Proof.
  unfold resolve_components.
  destruct (truthy components && (0 <? length (elements (value_of components)))%nat
            && negb (String.eqb projectId EmptyString)).
  - js_step. destruct (R tr (getProjectComponents projectId));
      eexists; eexists; (split; [reflexivity | right; reflexivity]).
  - exists [], []. js_step. rewrite app_nil_r. split; [reflexivity | left; reflexivity].
Qed.

End Resolutions.

Lemma count_app (p : Call -> bool) (a b : Trace) :
  count p (a ++ b)%list = (count p a + count p b)%nat.
Proof. unfold count. rewrite filter_app, length_app. reflexivity. Qed.

Lemma count_if_asked (p : Call -> bool) (v : option json) (c : Call) :
  p c = false -> count p (if_asked v c) = 0%nat.
Proof.
  intros Hp. unfold if_asked, count. destruct (truthy v); cbn; [rewrite Hp|]; reflexivity.
Qed.

(** ** [update_issue] *)


Lemma update_issue_registered : In Server.update_issue_tool Server.tools.
Proof. simpl. do 3 right. left. reflexivity. Qed.

Section UpdateIssue.
Context `{Runtime}.

Lemma Server_call_update_issue (args : obj) (R : Remote) :
  validate Server.update_issue_schema (JObj args) = true ->
  run (Server.call_tool (request "update_issue" args)) R
  = match Server.case_update_issue args R [] with
    | (Returned c, tr) => (Returned (respond c), tr)
    | (Thrown e, tr) => (Thrown (tool_error e), tr)
    end.
Proof.
  intros Hv.
  exact (Server_valid_arguments Server.update_issue_tool (Some (JObj args)) R
           update_issue_registered Hv).
Qed.

Lemma no_fields_from_arguments (args : obj) :
  get "summary" args = None ->
  get "description" args = None ->
  get "assignee" args = None ->
  Server.fields_from_arguments args = [].
Proof.
  intros Hs Hd Ha. unfold Server.fields_from_arguments. rewrite Hs, Hd, Ha. reflexivity.
Qed.

End UpdateIssue.

(** C6.  An [update_issue] call that passes validation with an [issueKey], a
    [status] and no other updatable field, whose status resolves to no
    transition id (no transition that the remote returns matches it, or the
    lookup throws), returns the no-op success message, the object
    [{ success: true, message }] whose message says that no valid fields or
    status transition were provided for the issue and that no update was
    performed; its trace holds at most the transitions lookup, and neither
    [editIssue] nor [doTransition]. *)
Theorem update_issue_unresolved_status_is_noop `{Runtime} :
  forall (args : obj) (issueKey status : string) (R : Remote),
    validate Server.update_issue_schema (JObj args) = true ->
    get "issueKey" args = Some (JStr issueKey) ->
    get "status" args = Some (JStr status) ->
    get "summary" args = None ->
    get "description" args = None ->
    get "assignee" args = None ->
    get "priority" args = None ->
    (forall h transitions,
       R h (getTransitions issueKey) = Returned transitions ->
       truthy_id (find_transition status transitions) = None) ->
    let result := run (Server.call_tool (request "update_issue" args)) R in
    fst result
    = Returned
        (Plain
           (JObj [("success", JBool true);
                  ("message",
                   JStr ("No valid fields or status transition provided for issue "
                         ++ issueKey ++ ". No update performed."))]))
    /\ snd result = if_asked (Some (JStr status)) (getTransitions issueKey)
    /\ count is_editIssue (snd result) = 0%nat
    /\ count is_doTransition (snd result) = 0%nat.
Proof.
  intros args issueKey status R Hv Hkey Hstatus Hs Hd Ha Hp Hno result.
  assert (Hrun : result
                 = (Returned (Plain (no_update_message issueKey)),
                    if_asked (Some (JStr status)) (getTransitions issueKey))).
  { unfold result. rewrite (Server_call_update_issue args R Hv).
    unfold Server.case_update_issue, Server.update_fields, str_arg.
    rewrite Hkey, Hstatus, Hp, (no_fields_from_arguments args Hs Hd Ha).
    cbn [text_of]. unfold bind at 1. cbn [resolve_priority truthy ret].
    unfold bind at 1.
    rewrite (resolve_transition_unresolved issueKey (Some (JStr status)) R [] Hno).
    reflexivity. }
  rewrite Hrun. cbn [fst snd].
  repeat split; apply count_if_asked; reflexivity.
Qed.

Lemma update_issue_unresolved_status_is_noop_witness :
  fst (run (Server.call_tool
              (request "update_issue"
                 [("issueKey", JStr "T-1"); ("status", JStr "Archived")])) sample_jira)
  = Returned
      (Plain
         (JObj [("success", JBool true);
                ("message",
                 JStr "No valid fields or status transition provided for issue T-1. No update performed.")])).
Proof.
  refine (proj1 (update_issue_unresolved_status_is_noop
                   [("issueKey", JStr "T-1"); ("status", JStr "Archived")]
                   "T-1" "Archived" sample_jira _ _ _ _ _ _ _ _)); try reflexivity.
  intros h transitions Ht. inversion Ht. reflexivity.
Defined.

Section UpdateOrder.
Context `{Runtime}.

(** The lookups of [update_issue] are reads: whatever they return, the
    trace they leave holds no mutation and no [getIssue]. *)
Lemma update_lookups_are_reads (args : obj) (issueKey : string) (R : Remote)
    (priorityId transitionId : option string) (tr1 tr2 : Trace) :
  resolve_priority (get "priority" args) R [] = (Returned priorityId, tr1) ->
  resolve_transition issueKey (get "status" args) R tr1 = (Returned transitionId, tr2) ->
  count is_editIssue tr2 = 0%nat
  /\ count is_doTransition tr2 = 0%nat
  /\ count is_getIssue tr2 = 0%nat.
Proof.
  intros Hp Ht.
  destruct (resolve_priority_returns (get "priority" args) R []) as [p Hp'].
  rewrite Hp' in Hp. inversion Hp; subst.
  destruct (resolve_transition_returns issueKey (get "status" args) R
              (if_asked (get "priority" args) getPriorities)) as [t Ht'].
  rewrite Ht' in Ht. inversion Ht; subst.
  repeat split; rewrite !count_app;
    rewrite !count_if_asked by reflexivity; reflexivity.
Qed.

End UpdateOrder.

(** C4 (amended).  In an [update_issue] call whose field-update set is not
    empty after the priority lookup and whose status resolves to a transition
    id, the lookups issue no mutation; [editIssue] is the first call after
    them; [doTransition] is issued next, and only if [editIssue] succeeded;
    [getIssue] is issued next, once, and only if both succeeded, and its
    result is returned in the envelope.  A failure of any of the three calls
    ends the request there with that error re-classified. *)
Theorem update_issue_edit_then_transition_then_read `{Runtime} :
  forall (args : obj) (issueKey : string) (R : Remote)
         (priorityId : option string) (transitionId : string) (tr1 tr2 : Trace),
    validate Server.update_issue_schema (JObj args) = true ->
    get "issueKey" args = Some (JStr issueKey) ->
    resolve_priority (get "priority" args) R [] = (Returned priorityId, tr1) ->
    resolve_transition issueKey (get "status" args) R tr1
    = (Returned (Some transitionId), tr2) ->
    Object_keys (Server.update_fields args priorityId) <> [] ->
    let edit := editIssue issueKey (Server.update_fields args priorityId) in
    let transition := doTransition issueKey transitionId in
    let read := getIssue issueKey in
    let result := run (Server.call_tool (request "update_issue" args)) R in
    (count is_editIssue tr2 = 0%nat
     /\ count is_doTransition tr2 = 0%nat
     /\ count is_getIssue tr2 = 0%nat)
    /\
    match R tr2 edit with
    | Thrown e => result = (Thrown (tool_error e), (tr2 ++ [edit])%list)
    | Returned _ =>
        match R (tr2 ++ [edit])%list transition with
        | Thrown e =>
            result = (Thrown (tool_error e), (tr2 ++ [edit; transition])%list)
        | Returned _ =>
            match R (tr2 ++ [edit; transition])%list read with
            | Thrown e =>
                result
                = (Thrown (tool_error e), (tr2 ++ [edit; transition; read])%list)
            | Returned issue =>
                result
                = (Returned (envelope issue), (tr2 ++ [edit; transition; read])%list)
            end
        end
    end.
Proof.
  intros args issueKey R priorityId transitionId tr1 tr2 Hv Hkey Hp Ht Hfields
    edit transition read result.
  split; [exact (update_lookups_are_reads args issueKey R priorityId
                   (Some transitionId) tr1 tr2 Hp Ht)|].
  assert (Hrun :
            result
            = match (bind (try_catch (call edit) (fun error => throw error))
                       (fun _ => bind (transition_and_read issueKey (Some transitionId))
                                   (fun r => ret (Break r)))) R tr2 with
              | (Returned c, tr) => (Returned (respond c), tr)
              | (Thrown e, tr) => (Thrown (tool_error e), tr)
              end).
  { unfold result. rewrite (Server_call_update_issue args R Hv).
    unfold Server.case_update_issue, str_arg. rewrite Hkey. cbn [text_of].
    unfold bind at 1. rewrite Hp. unfold bind at 1. rewrite Ht.
    fold edit.
    destruct (Object_keys (Server.update_fields args priorityId)) as [|k ks] eqn:Hk;
      [contradiction|].
    reflexivity. }
  rewrite Hrun. clear Hrun.
  unfold transition_and_read. fold transition read. js_step.
  destruct (R tr2 edit) as [edited|e]; [|reflexivity].
  destruct (R (tr2 ++ [edit])%list transition) as [transitioned|e] eqn:Htr.
  - rewrite <- !app_assoc. cbn [app].
    destruct (R (tr2 ++ [edit; transition])%list read) as [issue|e]; reflexivity.
  - rewrite <- !app_assoc. reflexivity.
Qed.


Lemma update_issue_edit_then_transition_then_read_witness :
  run (Server.call_tool (request "update_issue" summary_and_status)) sample_jira
  = (Returned (envelope (JStr "T-1")),
     [getTransitions "T-1"; editIssue "T-1" [("summary", JStr "x")];
      doTransition "T-1" "31"; getIssue "T-1"]).
Proof.
  refine (proj2 (update_issue_edit_then_transition_then_read
                   summary_and_status "T-1" sample_jira None "31"
                   [] [getTransitions "T-1"] _ _ _ _ _)); try reflexivity.
  discriminate.
Defined.

(** C4 as stated fails when the remote rejects the field update: the call
    has a field change ([summary]) and a status that resolves to transition
    31, yet after the rejected [editIssue] neither [doTransition] nor
    [getIssue] is issued and the call fails. *)
Lemma update_issue_rejected_edit_stops :
  validate Server.update_issue_schema (JObj summary_and_status) = true
  /\ Object_keys (Server.update_fields summary_and_status None) = ["summary"]
  /\ resolve_transition "T-1" (get "status" summary_and_status) rejecting_jira []
     = (Returned (Some "31"), [getTransitions "T-1"])
  /\ run (Server.call_tool (request "update_issue" summary_and_status)) rejecting_jira
     = (Thrown (McpError InvalidParams "Jira API Error (400): Field error"
                  (Some (ApiError (Some 400%Z) (Some ["Field error"])
                           (Some "Bad Request")))),
        [getTransitions "T-1"; editIssue "T-1" [("summary", JStr "x")]])
  /\ count is_doTransition
       (snd (run (Server.call_tool (request "update_issue" summary_and_status))
               rejecting_jira)) = 0%nat
  /\ count is_getIssue
       (snd (run (Server.call_tool (request "update_issue" summary_and_status))
               rejecting_jira)) = 0%nat.
Proof. repeat split. Qed.

(** ** [create_issue]: the priority is best-effort *)

Lemma get_set_other {A : Type} (k k' : string) (v : A) (o : list (string * A)) :
  String.eqb k k' = false -> get k (set k' v o) = get k o.
Proof.
  intros Hne. induction o as [|[k0 v0] o IH]; cbn [set get].
  - rewrite Hne. reflexivity.
  - destruct (String.eqb k' k0) eqn:E; cbn [get].
    + apply String.eqb_eq in E. subst k0. rewrite Hne. reflexivity.
    + destruct (String.eqb k k0); [reflexivity | exact IH].
Qed.

Lemma get_assign_other (k k' : string) (v : option json) (o : obj) :
  String.eqb k k' = false -> get k (assign k' v o) = get k o.
Proof.
  intros Hne. destruct v as [x|]; [apply get_set_other; exact Hne | reflexivity].
Qed.

Section CreatePriority.
Context `{Runtime}.

(** Without a priority id the payload has no [priority] field. *)
Lemma create_fields_without_priority (args : obj) (assigneeKey projectId issueTypeId : string)
    (componentObjects : list json) :
  get "priority"
    (create_fields args assigneeKey projectId issueTypeId componentObjects None) = None.
Proof.
  unfold create_fields.
  destruct (0 <? length componentObjects)%nat;
    destruct (truthy (get "labels" args));
    destruct (truthy (get "assignee" args));
    destruct (truthy (get "description" args));
    repeat first [ rewrite (get_set_other "priority") by reflexivity
                 | rewrite (get_assign_other "priority") by reflexivity ];
    reflexivity.
Qed.

Lemma Server_call_create_issue (args : obj) (R : Remote) :
  validate Server.create_issue_schema (JObj args) = true ->
  run (Server.call_tool (request "create_issue" args)) R
  = match Server.case_create_issue args R [] with
    | (Returned c, tr) => (Returned (respond c), tr)
    | (Thrown e, tr) => (Thrown (tool_error e), tr)
    end.
Proof.
  intros Hv.
  exact (Server_valid_arguments Server.create_issue_tool (Some (JObj args)) R
           create_issue_registered Hv).
Qed.

End CreatePriority.

(** C5 (amended).  In a [create_issue] call whose project and issue type
    resolve and whose priority resolves to no id (no priority that the remote
    returns matches it, or the lookup throws), the [createIssue] mutation is
    issued exactly once, as the last call, with a payload that has no
    [priority] field; the call returns the created issue in the envelope when
    that mutation succeeds, and its error re-classified when it fails. *)
Theorem create_issue_without_priority `{Runtime} :
  forall (args : obj) (R : Remote) (project types : json) (issueTypeId : string),
    let projectKey := text_of (str_arg "projectKey" args) in
    let issueType := text_of (str_arg "issueType" args) in
    let result := run (Server.call_tool (request "create_issue" args)) R in
    validate Server.create_issue_schema (JObj args) = true ->
    R [] (getProject projectKey) = Returned project ->
    nonempty (str_prop "id" project) = true ->
    R [getProject projectKey] getIssueAllTypes = Returned types ->
    truthy_id (find_named issueType (elements types)) = Some issueTypeId ->
    (forall h priorities,
       R h getPriorities = Returned priorities ->
       truthy_id (find_named (render (get "priority" args)) (elements priorities))
       = None) ->
    exists (fields : obj) (before : Trace),
      snd result = (before ++ [createIssue fields])%list
      /\ count is_createIssue before = 0%nat
      /\ count is_createIssue (snd result) = 1%nat
      /\ get "priority" fields = None
      /\ fst result
         = match R before (createIssue fields) with
           | Returned created => Returned (envelope created)
           | Thrown e => Thrown (tool_error e)
           end.
Proof.
  intros args R project types issueTypeId projectKey issueType result
    Hv Hproject Hid Htypes Htype Hno.
  destruct (resolve_components_returns (get "components" args)
              (text_of (str_prop "id" project)) R
              ([getProject projectKey; getIssueAllTypes]
                 ++ if_asked (get "priority" args) getPriorities)%list)
    as (componentObjects & asked & Hcomponents & Hasked).
  set (before := (([getProject projectKey; getIssueAllTypes]
                     ++ if_asked (get "priority" args) getPriorities) ++ asked)%list)
    in *.
  set (fields := create_fields args "name" (text_of (str_prop "id" project))
                   issueTypeId componentObjects None).
  assert (Hbefore : count is_createIssue before = 0%nat).
  { unfold before. rewrite !count_app, count_if_asked by reflexivity.
    destruct Hasked as [->| ->]; reflexivity. }
  assert (Hrun :
            result
            = match R before (createIssue fields) with
              | Returned created =>
                  (Returned (envelope created), (before ++ [createIssue fields])%list)
              | Thrown e =>
                  (Thrown (tool_error e), (before ++ [createIssue fields])%list)
              end).
  { unfold result. rewrite (Server_call_create_issue args R Hv).
    unfold Server.case_create_issue. fold projectKey issueType.
    unfold bind at 1. unfold call at 1. rewrite Hproject, Hid. cbn [negb app].
    unfold bind at 1. unfold call at 1. rewrite Htypes, Htype. cbn [app].
    unfold bind at 1.
    rewrite (resolve_priority_unresolved (get "priority" args) R _ Hno).
    unfold bind at 1. rewrite Hcomponents.
    fold fields. js_step.
    destruct (R before (createIssue fields)); reflexivity. }
  exists fields, before. rewrite Hrun.
  destruct (R before (createIssue fields)); cbn [fst snd];
    (split; [reflexivity|]); (split; [exact Hbefore|]);
    (split; [rewrite count_app, Hbefore; reflexivity|]);
    (split; [apply create_fields_without_priority | reflexivity]).
Qed.


Lemma create_issue_without_priority_witness :
  exists (fields : obj) (before : Trace),
    snd (run (Server.call_tool (request "create_issue" urgent_arguments)) sample_jira)
    = (before ++ [createIssue fields])%list
    /\ count is_createIssue before = 0%nat
    /\ count is_createIssue
         (snd (run (Server.call_tool (request "create_issue" urgent_arguments))
                 sample_jira)) = 1%nat
    /\ get "priority" fields = None
    /\ fst (run (Server.call_tool (request "create_issue" urgent_arguments)) sample_jira)
       = match sample_jira before (createIssue fields) with
         | Returned created => Returned (envelope created)
         | Thrown e => Thrown (tool_error e)
         end.
Proof.
  refine (create_issue_without_priority urgent_arguments sample_jira
            (JObj [("id", JStr "10000")])
            (JArr [named "10001" "Task"; named "10002" "Bug"]) "10001"
            _ _ _ _ _ _); try reflexivity.
  intros h priorities Hp. inversion Hp. reflexivity.
Defined.

(** C5 as stated fails when the remote rejects the create mutation: the
    project and the issue type resolve, the priority matches nothing, the
    payload has no priority and [createIssue] is issued once, yet the call
    fails with the rejection re-classified. *)
Lemma create_issue_rejected_create_fails :
  validate Server.create_issue_schema (JObj urgent_arguments) = true
  /\ resolve_priority (get "priority" urgent_arguments) rejecting_jira []
     = (Returned None, [getPriorities])
  /\ run (Server.call_tool (request "create_issue" urgent_arguments)) rejecting_jira
     = (Thrown (McpError InvalidParams "Jira API Error (400): Field error"
                  (Some (ApiError (Some 400%Z) (Some ["Field error"])
                           (Some "Bad Request")))),
        [getProject "TEST"; getIssueAllTypes; getPriorities;
         createIssue [("project", id_object "10000"); ("summary", JStr "s");
                      ("issuetype", id_object "10001")]]).
Proof. repeat split. Qed.

(** * Further properties of the servers *)

(** ** The registry and the validators *)

Lemma find_tool_found (ts : list Tool) (n : string) (t : Tool) :
  find_tool ts n = Some t -> In t ts /\ name t = n.
Proof.
  unfold find_tool. intros Hfind. apply find_some in Hfind.
  destruct Hfind as [Hin Heq]. apply String.eqb_eq in Heq. split; assumption.
Qed.

(** X1.  In both servers the tool names are unique, the lookup of a
    registered tool by its name returns that tool, the validator stored
    under its name is the one of its own schema, and a name is found exactly
    when it is listed. *)
Theorem registry_is_consistent :
  (NoDup (map name Server.tools) /\ NoDup (map name Index.tools))
  /\ (forall tool, In tool Server.tools ->
        find_tool Server.tools (name tool) = Some tool
        /\ get (name tool) (toolValidators Server.tools) = Some (inputSchema tool))
  /\ (forall tool, In tool Index.tools ->
        find_tool Index.tools (name tool) = Some tool
        /\ get (name tool) (toolValidators Index.tools) = Some (inputSchema tool))
  /\ (forall n, find_tool Server.tools n = None <-> ~ In n (map name Server.tools))
  /\ (forall n, find_tool Index.tools n = None <-> ~ In n (map name Index.tools)).
Proof.
  split; [split; [exact Server_tool_names_unique | exact Index_tool_names_unique]|].
  split; [exact Server_registry|]. split; [exact Index_registry|].
  split; intros n; (split; [|apply find_tool_absent]).
  - intros Hnone Hin. apply in_map_iff in Hin. destruct Hin as [t [Hname Hin]].
    destruct (Server_registry t Hin) as [Hfind _]. rewrite Hname in Hfind.
    rewrite Hnone in Hfind. discriminate.
  - intros Hnone Hin. apply in_map_iff in Hin. destruct Hin as [t [Hname Hin]].
    destruct (Index_registry t Hin) as [Hfind _]. rewrite Hname in Hfind.
    rewrite Hnone in Hfind. discriminate.
Qed.

Lemma validate_needs_type (s : Schema) (t : JType) (v : json) :
  type s = Some t -> has_type t v = false -> validate s v = false.
Proof.
  destruct s as [ty ps req minp addl en its one any_ mi pat].
  cbn [type]. intros -> Hty. cbn [validate type_ok]. rewrite Hty. reflexivity.
Qed.

Lemma validate_needs_required (s : Schema) (o : obj) (k : string) :
  In k (required s) -> get k o = None -> validate s (JObj o) = false.
Proof.
  destruct s as [ty ps req minp addl en its one any_ mi pat].
  cbn [required]. intros Hin Hget. cbn [validate].
  assert (Hreq : required_ok req (JObj o) = false).
  { cbn [required_ok]. destruct (forallb (has_key o) req) eqn:E; [|reflexivity].
    rewrite forallb_forall in E. specialize (E k Hin). unfold has_key in E.
    rewrite Hget in E. discriminate. }
  rewrite Hreq. rewrite !andb_false_r. reflexivity.
Qed.

Lemma validate_needs_minProperties (s : Schema) (o : obj) :
  (length (Object_keys o) < minProperties s)%nat -> validate s (JObj o) = false.
Proof.
  destruct s as [ty ps req minp addl en its one any_ mi pat].
  cbn [minProperties]. intros Hlt. cbn [validate].
  assert (Hmin : minProperties_ok minp (JObj o) = false).
  { cbn [minProperties_ok]. apply Nat.leb_gt. exact Hlt. }
  rewrite Hmin. rewrite !andb_false_r. reflexivity.
Qed.

Lemma Server_schemas_are_objects (tool : Tool) :
  In tool Server.tools -> type (inputSchema tool) = Some TObject.
Proof.
  intros Hin. simpl in Hin.
  repeat (destruct Hin as [<-|Hin]; [reflexivity|]).
  contradiction.
Qed.

(** X2.  In the function-style server a call to a registered tool whose
    arguments lack a property the tool's schema requires fails with
    [InvalidParams] and issues no remote call; absent arguments count as the
    empty object, and arguments that are not an object are refused the same
    way. *)
Theorem missing_required_property_is_rejected `{Runtime} :
  forall (tool : Tool) (arguments : option json) (k : string) (R : Remote),
    In tool Server.tools ->
    In k (required (inputSchema tool)) ->
    get k (props (Server.normalize arguments)) = None ->
    run (Server.call_tool {| req_name := name tool; req_arguments := arguments |}) R
    = (Thrown (McpError InvalidParams
                 ("Invalid arguments for tool " ++ name tool ++ ": "
                  ++ errorsText (inputSchema tool)
                       (Some (Server.normalize arguments))) None), []).
Proof.
  intros tool arguments k R Hin Hreq Hget.
  apply (Server_invalid_arguments tool arguments R Hin).
  destruct (Server.normalize arguments) as [| | | | |o] eqn:Hn;
    try (apply (validate_needs_type _ TObject);
         [apply Server_schemas_are_objects; exact Hin | reflexivity]).
  cbn [props] in Hget. exact (validate_needs_required _ o k Hreq Hget).
Qed.

Lemma missing_required_property_is_rejected_witness :
  run (Server.call_tool {| req_name := "create_issue_link"; req_arguments := None |})
    sample_jira
  = (Thrown (McpError InvalidParams
               "Invalid arguments for tool create_issue_link: data is invalid" None), []).
Proof.
  refine (missing_required_property_is_rejected Server.create_issue_link_tool None
            "linkType" sample_jira _ _ _).
  - simpl. do 9 right. left. reflexivity.
  - simpl. right. right. left. reflexivity.
  - reflexivity.
Defined.

(** X3.  [update_issue] needs a second property beside [issueKey]: in both
    servers an argument object with fewer than two distinct keys is refused
    with [InvalidParams] before any remote call. *)
Theorem update_issue_needs_two_properties `{Runtime} :
  forall (args : obj) (R : Remote),
    (length (Object_keys args) < 2)%nat ->
    run (Server.call_tool (request "update_issue" args)) R
    = (Thrown (McpError InvalidParams
                 ("Invalid arguments for tool update_issue: "
                  ++ errorsText Server.update_issue_schema (Some (JObj args))) None), [])
    /\ run (Index.call_tool (request "update_issue" args)) R
       = (Thrown (McpError InvalidParams
                    ("Invalid arguments for tool update_issue: "
                     ++ errorsText Index.update_issue_schema (Some (JObj args))) None),
          []).
Proof.
  intros args R Hlt. split.
  - apply (Server_invalid_arguments Server.update_issue_tool (Some (JObj args)) R
             update_issue_registered).
    exact (validate_needs_minProperties Server.update_issue_schema args Hlt).
  - apply (Index_invalid_arguments Index.update_issue_tool (Some (JObj args)) R).
    + simpl. do 2 right. left. reflexivity.
    + exact (validate_needs_minProperties Index.update_issue_schema args Hlt).
Qed.

Lemma update_issue_needs_two_properties_witness :
  run (Server.call_tool (request "update_issue" [("issueKey", JStr "T-1")])) sample_jira
  = (Thrown (McpError InvalidParams
               "Invalid arguments for tool update_issue: data is invalid" None), []).
Proof.
  refine (proj1 (update_issue_needs_two_properties [("issueKey", JStr "T-1")]
                   sample_jira _)).
  cbn. lia.
Defined.

(** ** Errors thrown by the server itself *)

Lemma errorMessage_of_McpError (c : ErrorCode) (m : string) (d : option JsError) :
  errorMessage_of (McpError c m d)
  = "MCP error " ++ Z_toString (code_number c) ++ ": " ++ m.
Proof. reflexivity. Qed.

(** X4.  Whatever [McpError] a workflow handler throws inside the [try]
    block (in either server), the caller never sees its code: the call fails
    with [InternalError], status 500 in the message, and the thrown error
    attached. *)
Theorem handler_McpError_surfaces_as_InternalError `{Runtime} :
  forall (tool : Tool) (arguments : option json) (R : Remote)
         (c : ErrorCode) (m : string) (tr : Trace),
    (In tool Server.tools ->
     validate (inputSchema tool) (Server.normalize arguments) = true ->
     Server.handle (name tool) (props (Server.normalize arguments)) R []
     = (Thrown (McpError c m None), tr) ->
     run (Server.call_tool {| req_name := name tool; req_arguments := arguments |}) R
     = (Thrown (surfaced c m), tr))
    /\
    (In tool Index.tools ->
     Index.validate_arguments (inputSchema tool) arguments = true ->
     Index.handle (name tool) (props (value_of arguments)) R []
     = (Thrown (McpError c m None), tr) ->
     run (Index.call_tool {| req_name := name tool; req_arguments := arguments |}) R
     = (Thrown (surfaced c m), tr)).
Proof.
  intros tool arguments R c m tr. split; intros Hin Hok Hthrown.
  - rewrite (Server_valid_arguments tool arguments R Hin Hok), Hthrown. reflexivity.
  - rewrite (Index_valid_arguments tool arguments R Hin Hok), Hthrown. reflexivity.
Qed.

Lemma handler_McpError_surfaces_as_InternalError_witness :
  run (Server.call_tool (request "get_user" [("email", JStr "a@b.c")]))
    empty_directory_jira
  = (Thrown (surfaced InvalidRequest
               ("User with email " ++ quoted "a@b.c" ++ " not found.")),
     [findUsers "a@b.c" 1]).
Proof.
  refine (proj1 (handler_McpError_surfaces_as_InternalError Server.get_user_tool
                   (Some (JObj [("email", JStr "a@b.c")])) empty_directory_jira
                   InvalidRequest ("User with email " ++ quoted "a@b.c" ++ " not found.")
                   [findUsers "a@b.c" 1]) _ _ _).
  - simpl. do 7 right. left. reflexivity.
  - reflexivity.
  - reflexivity.
Defined.

(** ** The single-call tools *)

Section SingleCall.
Context `{Runtime}.

Lemma Server_runs_handler (tool : Tool) (args : obj) (R : Remote) :
  In tool Server.tools ->
  validate (inputSchema tool) (JObj args) = true ->
  run (Server.call_tool (request (name tool) args)) R
  = match Server.handle (name tool) args R [] with
    | (Returned c, tr) => (Returned (respond c), tr)
    | (Thrown e, tr) => (Thrown (tool_error e), tr)
    end.
Proof.
  intros Hin Hv. exact (Server_valid_arguments tool (Some (JObj args)) R Hin Hv).
Qed.

Lemma Index_runs_handler (tool : Tool) (args : obj) (R : Remote) :
  In tool Index.tools ->
  validate (inputSchema tool) (JObj args) = true ->
  run (Index.call_tool (request (name tool) args)) R
  = match Index.handle (name tool) args R [] with
    | (Returned c, tr) => (Returned (respond c), tr)
    | (Thrown e, tr) => (Thrown (tool_error e), tr)
    end.
Proof.
  intros Hin Hv. exact (Index_valid_arguments tool (Some (JObj args)) R Hin Hv).
Qed.

Lemma get_user_registered : In Server.get_user_tool Server.tools.
Proof. simpl. do 7 right. left. reflexivity. Qed.

Lemma delete_issue_registered : In Server.delete_issue_tool Server.tools.
Proof. simpl. left. reflexivity. Qed.

Lemma create_issue_link_registered : In Server.create_issue_link_tool Server.tools.
Proof. simpl. do 9 right. left. reflexivity. Qed.

Lemma get_issue_registered : In Server.get_issue_tool Server.tools.
Proof. simpl. do 10 right. left. reflexivity. Qed.

End SingleCall.

(** X5.  [get_user] issues exactly one call, [findUsers] with the email and
    [maxResults] 1.  It returns the first user found when that user's
    [emailAddress] equals the email up to case; when the list is empty or the
    first user does not match it fails with the "not found" error, which
    reaches the caller as [InternalError]; a failure of the lookup is
    re-classified by its status. *)
Theorem get_user_returns_first_match `{Runtime} :
  forall (args : obj) (email : string) (R : Remote),
    validate Server.get_user_schema (JObj args) = true ->
    get "email" args = Some (JStr email) ->
    let result := run (Server.call_tool (request "get_user" args)) R in
    snd result = [findUsers email 1]
    /\ (forall first rest,
          R [] (findUsers email 1) = Returned (JArr (first :: rest)) ->
          same_name email (str_prop "emailAddress" first) = true ->
          fst result = Returned (envelope first))
    /\ (forall first rest,
          R [] (findUsers email 1) = Returned (JArr (first :: rest)) ->
          same_name email (str_prop "emailAddress" first) = false ->
          fst result = Thrown (surfaced InvalidRequest (not_found_message email)))
    /\ (R [] (findUsers email 1) = Returned (JArr []) ->
        fst result = Thrown (surfaced InvalidRequest (not_found_message email)))
    /\ (forall e, R [] (findUsers email 1) = Thrown e ->
                  fst result = Thrown (tool_error e)).
Proof.
  intros args email R Hv Hemail result.
  assert (Hrun : result
                 = match case_get_user args R [] with
                   | (Returned c, tr) => (Returned (respond c), tr)
                   | (Thrown e, tr) => (Thrown (tool_error e), tr)
                   end).
  { exact (Server_runs_handler Server.get_user_tool args R get_user_registered Hv). }
  rewrite Hrun. unfold case_get_user, str_arg. rewrite Hemail. cbn [text_of].
  js_step. cbn [app].
  split; [destruct (R [] (findUsers email 1)) as [users|e];
          [destruct (elements users) as [|first rest];
           [|destruct (same_name email (str_prop "emailAddress" first))]|];
          reflexivity|].
  split; [intros first rest -> Hsame; cbn [elements]; rewrite Hsame; reflexivity|].
  split; [intros first rest -> Hsame; cbn [elements]; rewrite Hsame; reflexivity|].
  split; [intros ->; reflexivity|].
  intros e ->. reflexivity.
Qed.

Lemma get_user_returns_first_match_witness :
  snd (run (Server.call_tool (request "get_user" [("email", JStr "A@B.C")])) sample_jira)
  = [findUsers "A@B.C" 1].
Proof.
  refine (proj1 (get_user_returns_first_match [("email", JStr "A@B.C")] "A@B.C"
                   sample_jira _ _)); reflexivity.
Defined.

(** X6.  [list_fields], [list_issue_types], [list_link_types] and
    [get_issue] issue exactly one call and hand its answer back: the envelope
    holds the serialized answer, and a failure is re-classified by its
    status. *)
Theorem passthrough_tools_return_the_answer `{Runtime} :
  forall (toolName : string) (c : Call) (arguments : option json) (R : Remote),
    (In (toolName, c) passthrough_tools ->
     validate Server.no_arguments_schema (Server.normalize arguments) = true ->
     run (Server.call_tool {| req_name := toolName; req_arguments := arguments |}) R
     = (surface (R [] c), [c]))
    /\
    (forall (args : obj) (issueKey : string),
       validate Server.get_issue_schema (JObj args) = true ->
       get "issueKey" args = Some (JStr issueKey) ->
       run (Server.call_tool (request "get_issue" args)) R
       = (surface (R [] (getIssue issueKey)), [getIssue issueKey])).
Proof.
  intros toolName c arguments R. split.
  - intros Hin Hv. simpl in Hin.
    destruct Hin as [Hin|[Hin|[Hin|[]]]]; inversion Hin; subst toolName c; clear Hin.
    + pose proof (Server_valid_arguments Server.list_fields_tool arguments R
                    ltac:(simpl; do 4 right; left; reflexivity) Hv) as Hrun.
      cbn [name Server.list_fields_tool] in Hrun. rewrite Hrun.
      change (Server.handle "list_fields" (props (Server.normalize arguments)))
        with case_list_fields.
      unfold case_list_fields. js_step. destruct (R [] getFields); reflexivity.
    + pose proof (Server_valid_arguments Server.list_issue_types_tool arguments R
                    ltac:(simpl; do 5 right; left; reflexivity) Hv) as Hrun.
      cbn [name Server.list_issue_types_tool] in Hrun. rewrite Hrun.
      change (Server.handle "list_issue_types" (props (Server.normalize arguments)))
        with case_list_issue_types.
      unfold case_list_issue_types. js_step. destruct (R [] getIssueAllTypes); reflexivity.
    + pose proof (Server_valid_arguments Server.list_link_types_tool arguments R
                    ltac:(simpl; do 6 right; left; reflexivity) Hv) as Hrun.
      cbn [name Server.list_link_types_tool] in Hrun. rewrite Hrun.
      change (Server.handle "list_link_types" (props (Server.normalize arguments)))
        with case_list_link_types.
      unfold case_list_link_types. js_step. destruct (R [] getIssueLinkTypes); reflexivity.
  - intros args issueKey Hv Hkey.
    rewrite (Server_runs_handler Server.get_issue_tool args R get_issue_registered Hv).
    change (Server.handle (name Server.get_issue_tool) args)
      with (Server.case_get_issue args).
    unfold Server.case_get_issue, str_arg. rewrite Hkey. cbn [text_of]. js_step.
    destruct (R [] (getIssue issueKey)); reflexivity.
Qed.

Lemma passthrough_tools_return_the_answer_witness :
  run (Server.call_tool {| req_name := "list_issue_types"; req_arguments := None |})
    sample_jira
  = (Returned (envelope (JArr [named "10001" "Task"; named "10002" "Bug"])),
     [getIssueAllTypes]).
Proof.
  refine (proj1 (passthrough_tools_return_the_answer "list_issue_types"
                   getIssueAllTypes None sample_jira) _ _).
  - simpl. right. left. reflexivity.
  - reflexivity.
Defined.

(** X7.  [delete_issue] issues exactly one call, [deleteIssue] with the
    issue key, and [create_issue_link] exactly one, [linkIssues] with the
    link type and the inward and outward keys in their roles.  On success
    either tool answers with its own fixed message, whatever the remote
    returned; on failure the error is re-classified by its status. *)
Theorem delete_and_link_report_their_own_message `{Runtime} :
  forall (args : obj) (R : Remote),
    (forall issueKey,
       validate Server.delete_issue_schema (JObj args) = true ->
       get "issueKey" args = Some (JStr issueKey) ->
       run (Server.call_tool (request "delete_issue" args)) R
       = (match R [] (deleteIssue issueKey) with
          | Returned _ =>
              Returned (envelope (success_message
                                    ("Issue " ++ issueKey ++ " deleted successfully.")))
          | Thrown e => Thrown (tool_error e)
          end, [deleteIssue issueKey]))
    /\
    (forall linkType inward outward,
       validate Server.create_issue_link_schema (JObj args) = true ->
       get "linkType" args = Some (JStr linkType) ->
       get "inwardIssueKey" args = Some (JStr inward) ->
       get "outwardIssueKey" args = Some (JStr outward) ->
       run (Server.call_tool (request "create_issue_link" args)) R
       = (match R [] (linkIssues linkType inward outward) with
          | Returned _ =>
              Returned (envelope (success_message
                                    ("Link '" ++ linkType ++ "' created between "
                                     ++ inward ++ " and " ++ outward ++ ".")))
          | Thrown e => Thrown (tool_error e)
          end, [linkIssues linkType inward outward])).
Proof.
  intros args R. split.
  - intros issueKey Hv Hkey.
    rewrite (Server_runs_handler Server.delete_issue_tool args R
               delete_issue_registered Hv).
    change (Server.handle (name Server.delete_issue_tool) args)
      with (case_delete_issue args).
    unfold case_delete_issue, str_arg. rewrite Hkey. cbn [text_of]. js_step.
    destruct (R [] (deleteIssue issueKey)); reflexivity.
  - intros linkType inward outward Hv Hl Hi Ho.
    rewrite (Server_runs_handler Server.create_issue_link_tool args R
               create_issue_link_registered Hv).
    change (Server.handle (name Server.create_issue_link_tool) args)
      with (case_create_issue_link args).
    unfold case_create_issue_link, str_arg. rewrite Hl, Hi, Ho. cbn [text_of]. js_step.
    destruct (R [] (linkIssues linkType inward outward)); reflexivity.
Qed.

Lemma delete_and_link_report_their_own_message_witness :
  run (Server.call_tool (request "delete_issue" [("issueKey", JStr "T-1")])) failing_jira
  = (Thrown (McpError InvalidRequest "Jira API Error (404): Not Found"
               (Some (ApiError (Some 404%Z) None (Some "Not Found")))),
     [deleteIssue "T-1"]).
Proof.
  refine (proj1 (delete_and_link_report_their_own_message
                   [("issueKey", JStr "T-1")] failing_jira) "T-1" _ _); reflexivity.
Defined.

(** ** [get_issues] for a rapid view *)

Lemma digits_value_of_digits (s : string) :
  all_chars is_digit s = true ->
  forall acc : option Z,
    match acc with Some a => (0 <= a)%Z | None => s <> EmptyString end ->
    exists n, digits_value acc s = Some n /\ (0 <= n)%Z.
Proof.
  induction s as [|c rest IH]; intros Hall acc Hacc.
  - destruct acc as [a|]; [exists a; split; [reflexivity | exact Hacc] | contradiction].
  - cbn [all_chars] in Hall. apply andb_prop in Hall. destruct Hall as [Hc Hrest].
    cbn [digits_value]. rewrite Hc. apply IH; [exact Hrest|].
    destruct acc as [a|]; lia.
Qed.

(** Every string the [rapidView] pattern admits denotes an integer:
    [parseInt] never yields [NaN] on it. *)
Lemma digits_denote (s : string) :
  regex_test re_digits s = true ->
  exists n, digits_value None s = Some n /\ (0 <= n)%Z.
Proof.
  unfold regex_test. intros Hre. apply andb_prop in Hre. destruct Hre as [Hne Hall].
  apply (digits_value_of_digits s Hall None).
  intros ->. discriminate.
Qed.

Lemma nearest_Number_exact (n : Z) :
  (n < 2 ^ 53)%Z -> nearest_Number n = Integer n.
Proof.
  intros Hn. unfold nearest_Number.
  destruct (Z.ltb_spec n (2 ^ 53)) as [_|Hge]; [reflexivity | lia].
Qed.

(** From [2^53] on, an integer rounds to a Number of at least [2^53], or to
    [Infinity] from [Infinity_from] on. *)
Lemma nearest_Number_rounds (n : Z) :
  (2 ^ 53 <= n)%Z ->
  if (n <? Infinity_from)%Z
  then exists m, nearest_Number n = Integer m /\ (2 ^ 53 <= m)%Z
  else nearest_Number n = Infinity.
Proof.
  intros Hn. unfold nearest_Number.
  destruct (Z.ltb_spec n (2 ^ 53)) as [Hlt|_]; [lia|].
  assert (Hpos : (0 < n)%Z) by lia.
  pose proof (Z.log2_spec n Hpos) as [Hlo Hhi].
  assert (Hlog : (53 <= Z.log2 n)%Z).
  { rewrite <- (Z.log2_pow2 53) by lia. apply Z.log2_le_mono. exact Hn. }
  remember (Z.log2 n - 52)%Z as e eqn:He.
  assert (Hk : Z.log2 n = (52 + e)%Z) by lia.
  rewrite Hk in Hlo. replace (Z.succ (Z.log2 n)) with (53 + e)%Z in Hhi by lia.
  rewrite Z.pow_add_r in Hlo, Hhi by lia.
  assert (Hhalf : (2 ^ e = 2 * 2 ^ (e - 1))%Z).
  { replace e with (Z.succ (e - 1)) at 1 by lia. apply Z.pow_succ_r. lia. }
  assert (Hh : (0 < 2 ^ (e - 1))%Z) by (apply Z.pow_pos_nonneg; lia).
  remember (2 ^ (e - 1))%Z as half eqn:Ehalf.
  remember (2 ^ e)%Z as P eqn:EP.
  assert (HP : (0 < P)%Z) by lia.
  pose proof (Z.div_mod n P ltac:(lia)) as Hdm.
  pose proof (Z.mod_pos_bound n P HP) as Hr.
  assert (Hq_lo : (2 ^ 52 <= n / P)%Z)
    by (apply Z.div_le_lower_bound; lia).
  assert (Hq_hi : (n / P < 2 ^ 53)%Z)
    by (apply Z.div_lt_upper_bound; lia).
  remember (n / P)%Z as q eqn:Eq. remember (n mod P)%Z as r eqn:Er.
  set (q' := if (half <? r)%Z || ((r =? half)%Z && Z.odd q) then (q + 1)%Z else q).
  assert (Hq' : (q <= q' <= q + 1)%Z).
  { subst q'. destruct ((half <? r)%Z || ((r =? half)%Z && Z.odd q)); lia. }
  assert (Hm_lo : (2 ^ 52 * P <= q' * P)%Z)
    by (apply Z.mul_le_mono_nonneg_r; lia).
  assert (Hm_hi : (q' * P <= 2 ^ 53 * P)%Z)
    by (apply Z.mul_le_mono_nonneg_r; lia).
  unfold Infinity_from.
  destruct (Z.lt_trichotomy e 971) as [He_lt|[He_eq|He_gt]].
  - assert (HPle : (P <= 2 ^ 970)%Z) by (rewrite EP; apply Z.pow_le_mono_r; lia).
    destruct (Z.ltb_spec n (2 ^ 1024 - 2 ^ 970)) as [_|Hge]; [|lia].
    destruct (Z.ltb_spec (q' * P) (2 ^ 1024)) as [_|Hge]; [|lia].
    exists (q' * P)%Z. split; [reflexivity | lia].
  - assert (HPeq : P = (2 ^ 971)%Z) by (rewrite EP, He_eq; reflexivity).
    assert (Hodd : Z.odd q = false -> q <> (2 ^ 53 - 1)%Z).
    { intros Hodd ->. vm_compute in Hodd. discriminate Hodd. }
    assert (Ehalf' : half = (2 ^ 970)%Z) by lia.
    clear Hm_lo Hm_hi Hq'. subst q'.
    destruct (Z.ltb_spec half r) as [Hup|Hup];
      destruct (Z.eqb_spec r half) as [Htie|Htie];
      destruct (Z.odd q) eqn:Eodd; cbn [orb andb];
      try (specialize (Hodd eq_refl));
      (destruct (Z.ltb_spec n (2 ^ 1024 - 2 ^ 970)) as [Hn_lt|Hn_ge];
       [ match goal with
         | |- exists m, (if (?M <? _)%Z then _ else _) = _ /\ _ =>
             destruct (Z.ltb_spec M (2 ^ 1024)) as [_|HM]; [|lia];
             exists M; split; [reflexivity | lia]
         end
       | match goal with
         | |- (if (?M <? _)%Z then _ else _) = _ =>
             destruct (Z.ltb_spec M (2 ^ 1024)) as [HM|_]; [lia | reflexivity]
         end ]).
  - assert (HPge : (2 ^ 972 <= P)%Z) by (rewrite EP; apply Z.pow_le_mono_r; lia).
    destruct (Z.ltb_spec n (2 ^ 1024 - 2 ^ 970)) as [Hlt|_]; [lia|].
    destruct (Z.ltb_spec (q' * P) (2 ^ 1024)) as [Hlt|_]; [lia | reflexivity].
Qed.

Lemma boardId_of_digits (s : string) (n : Z) :
  digits_value None s = Some n ->
  (0 <= n)%Z ->
  ((n < 2 ^ 53)%Z -> boardId_of (Some (JStr s)) = Some n)
  /\ ((2 ^ 53 <= n < Infinity_from)%Z ->
      exists b, boardId_of (Some (JStr s)) = Some b /\ (2 ^ 53 <= b)%Z)
  /\ ((Infinity_from <= n)%Z -> boardId_of (Some (JStr s)) = None).
Proof.
  intros Hn Hpos. unfold boardId_of, parseInt10. rewrite Hn.
  split; [|split].
  - intros Hlt. rewrite (nearest_Number_exact n Hlt). reflexivity.
  - intros [Hge Hlt]. pose proof (nearest_Number_rounds n Hge) as Hr.
    destruct (Z.ltb_spec n Infinity_from) as [_|Hinf]; [|lia].
    destruct Hr as [m [-> Hm]]. exists m. split; [reflexivity | exact Hm].
  - intros Hge.
    assert (Hbig : (2 ^ 53 <= n)%Z) by (unfold Infinity_from in Hge; lia).
    pose proof (nearest_Number_rounds n Hbig) as Hr.
    destruct (Z.ltb_spec n Infinity_from) as [Hlt|_]; [lia|].
    rewrite Hr. reflexivity.
Qed.

Lemma validate_rapidView_string (s : string) :
  validate schema_rapidView (JStr s) = regex_test re_digits s.
Proof.
  unfold schema_rapidView. cbn.
  destruct (negb (String.eqb s EmptyString) && all_chars is_digit s); reflexivity.
Qed.

Lemma validate_rapidView_number (q : Q) :
  validate schema_rapidView (JNum q) = Qle_bool 1 q.
Proof.
  unfold schema_rapidView. cbn. destruct (Qle_bool 1 q); reflexivity.
Qed.

Lemma validate_rapidView_shape (v : json) :
  validate schema_rapidView v = true ->
  (exists s, v = JStr s /\ regex_test re_digits s = true)
  \/ (exists q, v = JNum q /\ Qle_bool 1 q = true).
Proof.
  destruct v as [|b|q|s|l|o]; try (cbn; discriminate).
  - rewrite validate_rapidView_number. intros Hq. right. exists q. split; [reflexivity|exact Hq].
  - rewrite validate_rapidView_string. intros Hs. left. exists s. split; [reflexivity|exact Hs].
Qed.

Lemma rapidView_in_schema :
  In ("rapidView", schema_rapidView) (properties Server.get_issues_schema).
Proof. simpl. right. left. reflexivity. Qed.

(** A validated [rapidView] is truthy. *)
Lemma validated_rapidView_truthy (v : json) :
  validate schema_rapidView v = true -> truthy (Some v) = true.
Proof.
  intros Hv. destruct (validate_rapidView_shape v Hv) as [[s [-> Hs]]|[q [-> Hq]]].
  - cbn [truthy]. unfold regex_test in Hs. apply andb_prop in Hs. exact (proj1 Hs).
  - cbn [truthy]. apply Qle_bool_iff in Hq.
    destruct (Qeq_bool q 0) eqn:E; [|reflexivity].
    apply Qeq_bool_iff in E. rewrite E in Hq. unfold Qle in Hq. cbn in Hq. lia.
Qed.

Section RapidView.
Context `{Runtime}.

Lemma Server_call_get_issues (args : obj) (R : Remote) :
  validate Server.get_issues_schema (JObj args) = true ->
  run (Server.call_tool (request "get_issues" args)) R
  = match case_get_issues args R [] with
    | (Returned c, tr) => (Returned (respond c), tr)
    | (Thrown e, tr) => (Thrown (tool_error e), tr)
    end.
Proof.
  intros Hv.
  exact (Server_runs_handler Server.get_issues_tool args R get_issues_registered Hv).
Qed.

Lemma rapidView_is_truthy (args : obj) (v : json) :
  validate Server.get_issues_schema (JObj args) = true ->
  get "rapidView" args = Some v ->
  truthy (get "rapidView" args) = true.
Proof.
  intros Hv Hget. rewrite Hget. apply validated_rapidView_truthy.
  exact (validate_property Server.get_issues_schema args "rapidView" schema_rapidView v
           Hv rapidView_in_schema Hget).
Qed.

Lemma jql_argument (args : obj) :
  validate Server.get_issues_schema (JObj args) = true ->
  (if truthy (get "jql" args) then Some (render (get "jql" args)) else None)
  = given (str_arg "jql" args).
Proof.
  intros Hv.
  assert (Hq : get "jql" args = None \/ exists x, get "jql" args = Some (JStr x)).
  { apply (string_argument Server.get_issues_schema); [exact Hv|].
    simpl. right. right. left. reflexivity. }
  unfold str_arg. destruct Hq as [Hq|[q Hq]]; rewrite Hq; cbn [truthy given render].
  - reflexivity.
  - destruct (String.eqb q EmptyString); reflexivity.
Qed.

Lemma get_issues_refuses (args : obj) (R : Remote) (v : json) :
  validate Server.get_issues_schema (JObj args) = true ->
  get "rapidView" args = Some v ->
  (boardId_of (Some v) = None
   \/ exists n, boardId_of (Some v) = Some n /\ (n <= 0)%Z) ->
  run (Server.call_tool (request "get_issues" args)) R
  = (Thrown (surfaced InvalidParams (invalid_rapidView_message (Some v))), []).
Proof.
  intros Hv Hget Hbad. rewrite (Server_call_get_issues args R Hv).
  unfold case_get_issues.
  rewrite (rapidView_is_truthy args v Hv Hget). rewrite Hget.
  destruct Hbad as [Hnone|[n [Hn Hle]]].
  - rewrite Hnone. reflexivity.
  - rewrite Hn. destruct (Z.leb_spec n 0) as [_|Hgt]; [reflexivity | lia].
Qed.

(** With a board id above zero the handler goes on to the board. *)
Lemma get_issues_reads_the_board (args : obj) (R : Remote) (v : json) (b : Z) :
  validate Server.get_issues_schema (JObj args) = true ->
  get "rapidView" args = Some v ->
  boardId_of (Some v) = Some b ->
  (0 < b)%Z ->
  run (Server.call_tool (request "get_issues" args)) R
  = match bind (board_jql args b)
            (fun jql => bind (call (searchForIssuesUsingJql jql))
                          (fun r => ret (Break r))) R [] with
    | (Returned c, tr) => (Returned (respond c), tr)
    | (Thrown e, tr) => (Thrown (tool_error e), tr)
    end.
Proof.
  intros Hv Hget Hb Hpos. rewrite (Server_call_get_issues args R Hv).
  unfold case_get_issues.
  rewrite (rapidView_is_truthy args v Hv Hget). rewrite Hget, Hb.
  destruct (Z.leb_spec b 0) as [Hle|_]; [lia|]. reflexivity.
Qed.

Lemma get_issues_starts_with_the_board (args : obj) (R : Remote) (v : json) (b : Z) :
  validate Server.get_issues_schema (JObj args) = true ->
  get "rapidView" args = Some v ->
  boardId_of (Some v) = Some b ->
  (0 < b)%Z ->
  exists rest,
    snd (run (Server.call_tool (request "get_issues" args)) R) = getBoard b :: rest.
Proof.
  intros Hv Hget Hb Hpos.
  rewrite (get_issues_reads_the_board args R v b Hv Hget Hb Hpos), snd_surface.
  remember (bind (board_jql args b)
              (fun jql => bind (call (searchForIssuesUsingJql jql))
                            (fun r => ret (Break r))) R []) as outcome eqn:Hrun.
  unfold board_jql in Hrun. autounfold with js_ops in Hrun.
  cbn beta iota in Hrun. cbn [app] in Hrun.
  destruct (R [] (getBoard b)) as [board|e];
    [|rewrite Hrun; eexists; reflexivity].
  destruct (R [getBoard b] (getConfiguration b)) as [config|e];
    [|rewrite Hrun; eexists; reflexivity].
  cbn [app] in Hrun.
  repeat match type of Hrun with
         | context [if ?c then _ else _] =>
             destruct c; cbn beta iota in Hrun; cbn [app] in Hrun
         | context [match R ?tr ?c with _ => _ end] =>
             destruct (R tr c); cbn beta iota in Hrun; cbn [app] in Hrun
         end;
    rewrite Hrun; eexists; reflexivity.
Qed.

End RapidView.


(** X8.  When [rapidView] is given it decides the search, whether or not a
    [projectKey] is given too.  The board id [b] is the number given, or the
    Number that [parseInt] makes of the string given (the one nearest to the
    integer its digits denote).  For [b] an integer above zero the server
    issues [getBoard b], [getConfiguration b], [getFilter] with the filter id
    of the configuration and then the search, in this order, with the JQL of
    that filter followed by [ AND (q)] for a non-empty [jql] argument [q]
    (in parentheses, unlike the project branch); the answer of the search is
    handed back. *)
Theorem rapidView_searches_with_the_board_filter `{Runtime} :
  forall (args : obj) (R : Remote) (v : json) (b : Z) (board config filter : json)
         (f filterJql : string),
    validate Server.get_issues_schema (JObj args) = true ->
    get "rapidView" args = Some v ->
    boardId_of (Some v) = Some b ->
    (0 < b)%Z ->
    R [] (getBoard b) = Returned board ->
    R [getBoard b] (getConfiguration b) = Returned config ->
    filter_id_of config = Some f ->
    f <> EmptyString ->
    R [getBoard b; getConfiguration b] (getFilter f) = Returned filter ->
    str_prop "jql" filter = Some filterJql ->
    filterJql <> EmptyString ->
    let search :=
      searchForIssuesUsingJql
        (board_filter_jql filterJql (given (str_arg "jql" args))) in
    run (Server.call_tool (request "get_issues" args)) R
    = (surface (R [getBoard b; getConfiguration b; getFilter f] search),
       [getBoard b; getConfiguration b; getFilter f; search]).
Proof.
  intros args R v b board config filter f filterJql Hv Hget Hb Hpos Hboard Hconfig
    Hf Hfne Hfilter Hjql Hjne search.
  rewrite (Server_call_get_issues args R Hv).
  unfold case_get_issues.
  rewrite (rapidView_is_truthy args v Hv Hget). rewrite Hget, Hb.
  destruct (Z.leb_spec b 0) as [Hle|_]; [lia|].
  unfold board_jql. js_step. rewrite Hboard. cbn [app]. rewrite Hconfig.
  unfold filter_id_of in Hf. rewrite Hf. cbn [text_of].
  rewrite (nonempty_Some f Hfne). cbn [negb app]. rewrite Hfilter.
  rewrite Hjql. rewrite (nonempty_Some filterJql Hjne). cbn [negb text_of].
  unfold search. rewrite <- (jql_argument args Hv).
  destruct (truthy (get "jql" args)); cbn [board_filter_jql app];
    destruct (R _ (searchForIssuesUsingJql _)); reflexivity.
Qed.

Lemma rapidView_searches_with_the_board_filter_witness :
  snd (run (Server.call_tool (request "get_issues" board_arguments)) board_jira)
  = [getBoard 117; getConfiguration 117; getFilter "10000";
     searchForIssuesUsingJql "project = BOARD AND (assignee = currentUser())"].
Proof.
  refine (f_equal snd
            (rapidView_searches_with_the_board_filter board_arguments board_jira
               (JStr "117") 117%Z (JObj [("name", JStr "Team board")])
               (JObj [("filter", JObj [("id", JStr "10000")])])
               (JObj [("jql", JStr "project = BOARD")])
               "10000" "project = BOARD" _ _ _ _ _ _ _ _ _ _ _));
    try reflexivity; discriminate.
Defined.

(** A board id beyond [2^53] reaches Jira as the nearest Number, and one of
    310 digits is [Infinity], which is refused. *)
Example rapidView_beyond_2_53_is_rounded :
  snd (run (Server.call_tool
              (request "get_issues" [("rapidView", JStr "9007199254740993")]))
         board_jira)
  = [getBoard 9007199254740992; getConfiguration 9007199254740992;
     getFilter "10000"; searchForIssuesUsingJql "project = BOARD"].
Proof. vm_compute. reflexivity. Qed.

Example parseInt10_of_310_digits :
  parseInt10 (String.concat EmptyString (List.repeat "1234567890" 31)) = Infinity.
Proof. vm_compute. reflexivity. Qed.

(** X9.  A [rapidView] string that passes validation denotes an integer
    [n] ([parseInt] never yields [NaN] on it), and the handler takes the
    Number nearest to [n] as the board id; a [rapidView] number that passes
    is at least 1.  The handler refuses, before any remote call and with an
    error that reaches the caller as [InternalError], the strings of zeros,
    the strings that denote [2^1024 - 2^970] or more (they round to
    [Infinity]) and the numbers that are not integers.  For every other
    validated value it goes on to [getBoard], with the board id [n] itself
    below [2^53]. *)
Theorem rapidView_must_be_a_positive_integer `{Runtime} :
  forall (args : obj) (R : Remote) (v : json),
    validate Server.get_issues_schema (JObj args) = true ->
    get "rapidView" args = Some v ->
    let result := run (Server.call_tool (request "get_issues" args)) R in
    let refused : Outcome Response * Trace :=
      (Thrown (surfaced InvalidParams (invalid_rapidView_message (Some v))), []) in
    (forall s, v = JStr s ->
       exists n,
         digits_value None s = Some n /\ (0 <= n)%Z
         /\ ((n = 0 \/ Infinity_from <= n)%Z -> result = refused)
         /\ ((0 < n < Infinity_from)%Z ->
             exists b rest,
               boardId_of (Some v) = Some b /\ (0 < b)%Z
               /\ ((n < 2 ^ 53)%Z -> b = n)
               /\ snd result = getBoard b :: rest))
    /\
    (forall q, v = JNum q ->
       Qle_bool 1 q = true
       /\ (is_integer q = false -> result = refused)
       /\ (is_integer q = true ->
           exists rest, snd result = getBoard (Qnum (Qred q)) :: rest)).
Proof.
  intros args R v Hv Hget result refused.
  pose proof (validate_property Server.get_issues_schema args "rapidView"
                schema_rapidView v Hv rapidView_in_schema Hget) as Hrv.
  split.
  - intros s ->. rewrite validate_rapidView_string in Hrv.
    destruct (digits_denote s Hrv) as [n [Hn Hpos]].
    destruct (boardId_of_digits s n Hn Hpos) as (Hexact & Hround & Hinf).
    exists n. split; [exact Hn|]. split; [exact Hpos|]. split.
    + intros Hbad. apply (get_issues_refuses args R (JStr s) Hv Hget).
      destruct Hbad as [->|Hbig].
      * right. exists 0%Z. split; [apply Hexact; reflexivity | lia].
      * left. apply Hinf. exact Hbig.
    + intros [Hlo Hhi].
      destruct (Z.lt_ge_cases n (2 ^ 53)) as [Hsmall|Hlarge].
      * destruct (get_issues_starts_with_the_board args R (JStr s) n Hv Hget
                    (Hexact Hsmall) Hlo) as [rest Hrest].
        exists n, rest. split; [exact (Hexact Hsmall)|]. split; [exact Hlo|].
        split; [reflexivity | exact Hrest].
      * destruct (Hround (conj Hlarge Hhi)) as [b [Hb Hbig]].
        assert (Hbpos : (0 < b)%Z) by lia.
        destruct (get_issues_starts_with_the_board args R (JStr s) b Hv Hget
                    Hb Hbpos) as [rest Hrest].
        exists b, rest. split; [exact Hb|]. split; [exact Hbpos|].
        split; [lia | exact Hrest].
  - intros q ->. rewrite validate_rapidView_number in Hrv.
    split; [exact Hrv|]. split.
    + intros Hfrac. apply (get_issues_refuses args R (JNum q) Hv Hget).
      left. cbn [boardId_of]. rewrite Hfrac. reflexivity.
    + intros Hint.
      assert (Hb : boardId_of (Some (JNum q)) = Some (Qnum (Qred q)))
        by (cbn [boardId_of]; rewrite Hint; reflexivity).
      apply (get_issues_starts_with_the_board args R (JNum q) _ Hv Hget Hb).
      apply Qle_bool_iff in Hrv. rewrite <- (Qred_correct q) in Hrv.
      unfold is_integer in Hint. apply Z.eqb_eq in Hint.
      unfold Qle in Hrv. rewrite Hint in Hrv. cbn in Hrv. lia.
Qed.

Lemma rapidView_must_be_a_positive_integer_witness :
  run (Server.call_tool (request "get_issues" [("rapidView", JStr "000")])) sample_jira
  = (Thrown (surfaced InvalidParams
               "Invalid rapidView ID: 000. Must be a positive integer."), []).
Proof.
  destruct (proj1 (rapidView_must_be_a_positive_integer
                     [("rapidView", JStr "000")] sample_jira (JStr "000")
                     eq_refl eq_refl) "000" eq_refl)
    as (n & Hn & _ & Hrefused & _).
  apply Hrefused. left. vm_compute in Hn. inversion Hn. reflexivity.
Defined.

(** X10.  In the rapid-view branch, with the board id [b] that the handler
    makes of [rapidView], no search is issued unless the board, its
    configuration and its filter were all read and the filter has a JQL: a
    failure of [getBoard] (whose answer is not used) ends the call after that
    one call, a configuration (an object, as the client types it) without a
    filter id ends it after two calls, and a filter without JQL after
    three. *)
Theorem rapidView_without_filter_issues_no_search `{Runtime} :
  forall (args : obj) (R : Remote) (v : json) (b : Z),
    validate Server.get_issues_schema (JObj args) = true ->
    get "rapidView" args = Some v ->
    boardId_of (Some v) = Some b ->
    (0 < b)%Z ->
    let result := run (Server.call_tool (request "get_issues" args)) R in
    (forall e, R [] (getBoard b) = Thrown e ->
               result = (Thrown (tool_error e), [getBoard b]))
    /\
    (forall board config,
       R [] (getBoard b) = Returned board ->
       R [getBoard b] (getConfiguration b) = Returned config ->
       config <> JNull ->
       nonempty (filter_id_of config) = false ->
       result
       = (Thrown (surfaced InvalidParams
                    ("Board " ++ integer_text b ++ " has no filter configured")),
          [getBoard b; getConfiguration b]))
    /\
    (forall board config filter f,
       R [] (getBoard b) = Returned board ->
       R [getBoard b] (getConfiguration b) = Returned config ->
       filter_id_of config = Some f ->
       f <> EmptyString ->
       R [getBoard b; getConfiguration b] (getFilter f) = Returned filter ->
       filter <> JNull ->
       nonempty (str_prop "jql" filter) = false ->
       result
       = (Thrown (surfaced InvalidParams
                    ("Filter " ++ f ++ " has no JQL configured")),
          [getBoard b; getConfiguration b; getFilter f])).
Proof.
  intros args R v b Hv Hget Hb Hpos result.
  unfold result. clear result.
  rewrite (get_issues_reads_the_board args R v b Hv Hget Hb Hpos).
  unfold board_jql. fold filter_id_of.
  split; [|split].
  - intros e He. js_step. rewrite He. reflexivity.
  - intros board config Hboard Hconfig _ Hnone. js_step.
    rewrite Hboard. cbn [app]. rewrite Hconfig.
    fold (filter_id_of config). rewrite Hnone. reflexivity.
  - intros board config filter f Hboard Hconfig Hf Hfne Hfilter _ Hnone. js_step.
    rewrite Hboard. cbn [app]. rewrite Hconfig.
    fold (filter_id_of config). rewrite Hf. rewrite (nonempty_Some f Hfne).
    cbn [negb text_of app]. rewrite Hfilter, Hnone. reflexivity.
Qed.

Lemma rapidView_without_filter_issues_no_search_witness :
  run (Server.call_tool (request "get_issues" [("rapidView", JStr "117")]))
    unfiltered_jira
  = (Thrown (surfaced InvalidParams "Board 117 has no filter configured"),
     [getBoard 117; getConfiguration 117]).
Proof.
  refine (proj1 (proj2 (rapidView_without_filter_issues_no_search
                          [("rapidView", JStr "117")] unfiltered_jira (JStr "117")
                          117%Z _ _ _ _))
            (JObj [("name", JStr "Team board")]) (JObj [("name", JStr "Team board")])
            _ _ _ _); try reflexivity.
  discriminate.
Defined.


(** ** Tools that only read *)

(** Case analysis on the answers and tests a handler branches on (never on
    a whole sub-computation, which is a pair). *)
Ltac split_cases :=
  repeat first
    [ progress cbn beta iota
    | match goal with
      | |- context [match ?x with _ => _ end] =>
          let T := type of x in
          lazymatch T with
          | prod _ _ => fail
          | _ => destruct x
          end
      end ].

Section ReadOnly.
Context `{Runtime}.

Lemma case_get_issues_reads (args : obj) (R : Remote) :
  count is_mutation (snd (case_get_issues args R [])) = 0%nat.
Proof.
  unfold case_get_issues, board_jql. js_step. split_cases; reflexivity.
Qed.

Lemma case_get_assigned_issues_reads (args : obj) (R : Remote) :
  count is_mutation (snd (Server.case_get_assigned_issues args R [])) = 0%nat.
Proof.
  unfold Server.case_get_assigned_issues. js_step. split_cases; reflexivity.
Qed.

Lemma case_get_user_reads (args : obj) (R : Remote) :
  count is_mutation (snd (case_get_user args R [])) = 0%nat.
Proof.
  unfold case_get_user. js_step. split_cases; reflexivity.
Qed.

Lemma case_get_issue_reads (args : obj) (R : Remote) :
  count is_mutation (snd (Server.case_get_issue args R [])) = 0%nat.
Proof.
  unfold Server.case_get_issue. js_step. split_cases; reflexivity.
Qed.

Lemma case_list_reads (R : Remote) :
  count is_mutation (snd (case_list_fields R [])) = 0%nat
  /\ count is_mutation (snd (case_list_issue_types R [])) = 0%nat
  /\ count is_mutation (snd (case_list_link_types R [])) = 0%nat.
Proof.
  unfold case_list_fields, case_list_issue_types, case_list_link_types. js_step.
  repeat split; split_cases; reflexivity.
Qed.

(** The trace of a call to a registered tool is empty or the trace of its
    handler. *)
Lemma Server_trace (tool : Tool) (arguments : option json) (R : Remote) :
  In tool Server.tools ->
  snd (run (Server.call_tool {| req_name := name tool; req_arguments := arguments |}) R)
  = []
  \/ snd (run (Server.call_tool {| req_name := name tool; req_arguments := arguments |}) R)
     = snd (Server.handle (name tool) (props (Server.normalize arguments)) R []).
Proof.
  intros Hin.
  destruct (validate (inputSchema tool) (Server.normalize arguments)) eqn:Hv.
  - right. rewrite (Server_valid_arguments tool arguments R Hin Hv).
    apply snd_surface.
  - left. rewrite (Server_invalid_arguments tool arguments R Hin Hv). reflexivity.
Qed.

End ReadOnly.

(** X11.  The tools [get_issues], [get_assigned_issues], [list_fields],
    [list_issue_types], [list_link_types], [get_user] and [get_issue] never
    change anything in Jira: whatever the arguments and whatever the remote
    answers, their trace holds no [createIssue], [editIssue], [doTransition],
    [deleteIssue] or [linkIssues]. *)
Theorem read_only_tools_issue_no_mutation `{Runtime} :
  forall (toolName : string) (arguments : option json) (R : Remote),
    In toolName read_only_tools ->
    count is_mutation
      (snd (run (Server.call_tool {| req_name := toolName; req_arguments := arguments |})
              R)) = 0%nat.
Proof.
  intros toolName arguments R Hin.
  assert (Hcase :
            exists tool, In tool Server.tools /\ name tool = toolName
                         /\ count is_mutation
                              (snd (Server.handle (name tool)
                                      (props (Server.normalize arguments)) R []))
                            = 0%nat).
  { simpl in Hin.
    destruct Hin as [<-|[<-|[<-|[<-|[<-|[<-|[<-|[]]]]]]]].
    - exists Server.get_issues_tool. split; [exact get_issues_registered|].
      split; [reflexivity | apply case_get_issues_reads].
    - exists Server.get_assigned_issues_tool.
      split; [exact get_assigned_issues_registered|].
      split; [reflexivity | apply case_get_assigned_issues_reads].
    - exists Server.list_fields_tool.
      split; [simpl; do 4 right; left; reflexivity|].
      split; [reflexivity | apply (proj1 (case_list_reads R))].
    - exists Server.list_issue_types_tool.
      split; [simpl; do 5 right; left; reflexivity|].
      split; [reflexivity | apply (proj1 (proj2 (case_list_reads R)))].
    - exists Server.list_link_types_tool.
      split; [simpl; do 6 right; left; reflexivity|].
      split; [reflexivity | apply (proj2 (proj2 (case_list_reads R)))].
    - exists Server.get_user_tool. split; [exact get_user_registered|].
      split; [reflexivity | apply case_get_user_reads].
    - exists Server.get_issue_tool. split; [exact get_issue_registered|].
      split; [reflexivity | apply case_get_issue_reads]. }
  destruct Hcase as (tool & Htool & <- & Hcount).
  destruct (Server_trace tool arguments R Htool) as [-> | ->];
    [reflexivity | exact Hcount].
Qed.

Lemma read_only_tools_issue_no_mutation_witness :
  count is_mutation
    (snd (run (Server.call_tool (request "get_issues" board_arguments)) board_jira))
  = 0%nat.
Proof.
  refine (read_only_tools_issue_no_mutation "get_issues" (Some (JObj board_arguments))
            board_jira _).
  simpl. left. reflexivity.
Defined.

(** ** [create_issue]: what is sent, and when *)

Lemma count_zero_not_In (p : Call -> bool) (tr : Trace) (c : Call) :
  count p tr = 0%nat -> In c tr -> p c = false.
Proof.
  unfold count. induction tr as [|x tr IH]; intros Hc Hin; [contradiction|].
  cbn [filter] in Hc. destruct (p x) eqn:Hx; [discriminate Hc|].
  destruct Hin as [<-|Hin]; [exact Hx | exact (IH Hc Hin)].
Qed.

Lemma count_mutation_if_asked (v : option json) (c : Call) :
  is_mutation c = false -> count is_mutation (if_asked v c) = 0%nat.
Proof. apply count_if_asked. Qed.

Section CreateShape.
Context `{Runtime}.

Lemma nonempty_true (s : option string) :
  nonempty s = true -> exists x, s = Some x /\ x <> EmptyString.
Proof.
  destruct s as [x|]; [|discriminate]. cbn [nonempty]. intros Hne.
  exists x. split; [reflexivity|]. intros ->. discriminate Hne.
Qed.

Lemma not_a_mutation_in (tr : Trace) (fields : obj) :
  count is_mutation tr = 0%nat -> ~ In (createIssue fields) tr.
Proof.
  intros Hc Hin. pose proof (count_zero_not_In is_mutation tr _ Hc Hin) as Hm.
  discriminate Hm.
Qed.

(** The create workflow of the function-style server throws before any
    mutation, or ends in its only mutation, the [createIssue] of the
    assembled payload, whose outcome is its own. *)
Lemma Server_create_run (args : obj) (R : Remote) :
  (exists e tr,
     Server.case_create_issue args R [] = (Thrown e, tr)
     /\ count is_mutation tr = 0%nat)
  \/ (exists fields before,
        Server.case_create_issue args R []
        = (match R before (createIssue fields) with
           | Returned r => Returned (Break r)
           | Thrown e => Thrown e
           end, (before ++ [createIssue fields])%list)
        /\ CreateRun args R "name" (before ++ [createIssue fields])%list fields).
Proof.
  remember (Server.case_create_issue args R []) as outcome eqn:Hrun.
  unfold Server.case_create_issue in Hrun.
  set (projectKey := text_of (str_arg "projectKey" args)) in *.
  set (issueType := text_of (str_arg "issueType" args)) in *.
  autounfold with js_ops in Hrun. cbn beta iota in Hrun. cbn [app] in Hrun.
  destruct (R [] (getProject projectKey)) as [project|e] eqn:Hproject;
    [|left; exists e, [getProject projectKey]; split; [exact Hrun | reflexivity]].
  destruct (nonempty (str_prop "id" project)) eqn:Hid; cbn [negb] in Hrun;
    [|left; eexists; eexists; split; [exact Hrun | reflexivity]].
  destruct (nonempty_true _ Hid) as [projectId [Hpid Hpne]].
  rewrite Hpid in Hrun. cbn [text_of] in Hrun.
  destruct (R [getProject projectKey] getIssueAllTypes) as [types|e] eqn:Htypes;
    [|left; eexists; eexists; split; [exact Hrun | reflexivity]].
  destruct (truthy_id (find_named issueType (elements types))) as [issueTypeId|]
    eqn:Htype; [|left; eexists; eexists; split; [exact Hrun | reflexivity]].
  cbn beta iota in Hrun. cbn [app] in Hrun.
  destruct (resolve_priority_returns (get "priority" args) R
              [getProject projectKey; getIssueAllTypes]) as [priorityId Hpriority].
  destruct (resolve_components_returns (get "components" args) projectId R
              ([getProject projectKey; getIssueAllTypes]
                 ++ if_asked (get "priority" args) getPriorities)%list)
    as (componentObjects & asked & Hcomponents & Hasked).
  rewrite Hpriority in Hrun. rewrite Hcomponents in Hrun.
  set (before := (([getProject projectKey; getIssueAllTypes]
                     ++ if_asked (get "priority" args) getPriorities) ++ asked)%list)
    in *.
  set (fields := create_fields args "name" projectId issueTypeId componentObjects
                   priorityId) in *.
  assert (Hreads : count is_mutation before = 0%nat).
  { unfold before. rewrite !count_app, count_mutation_if_asked by reflexivity.
    destruct Hasked as [->| ->]; reflexivity. }
  right. exists fields, before. split.
  - rewrite Hrun. destruct (R before (createIssue fields)); reflexivity.
  - exact (@create_run _ args R "name" _ fields project types projectId issueTypeId
             priorityId componentObjects before _
             Hproject Hpid Hpne Htypes Htype Hpriority Hcomponents eq_refl eq_refl
             Hreads).
Qed.

(** The same for the class-style server, whose payload wraps the assignee
    in [accountId]. *)
Lemma Index_create_run (args : obj) (R : Remote) :
  (exists e tr,
     Index.handleCreateIssue args R [] = (Thrown e, tr)
     /\ count is_mutation tr = 0%nat)
  \/ (exists fields before,
        Index.handleCreateIssue args R []
        = (R before (createIssue fields), (before ++ [createIssue fields])%list)
        /\ CreateRun args R "accountId" (before ++ [createIssue fields])%list fields).
Proof.
  remember (Index.handleCreateIssue args R []) as outcome eqn:Hrun.
  unfold Index.handleCreateIssue in Hrun.
  set (projectKey := text_of (str_arg "projectKey" args)) in *.
  set (issueType := text_of (str_arg "issueType" args)) in *.
  autounfold with js_ops in Hrun. cbn beta iota in Hrun. cbn [app] in Hrun.
  destruct (R [] (getProject projectKey)) as [project|e] eqn:Hproject;
    [|left; eexists; eexists; split; [exact Hrun | reflexivity]].
  cbn beta iota in Hrun.
  destruct (nonempty (str_prop "id" project)) eqn:Hid; cbn [negb] in Hrun;
    [|left; eexists; eexists; split; [exact Hrun | reflexivity]].
  destruct (nonempty_true _ Hid) as [projectId [Hpid Hpne]].
  rewrite Hpid in Hrun. cbn [text_of] in Hrun.
  destruct (R [getProject projectKey] getIssueAllTypes) as [types|e] eqn:Htypes;
    [|left; eexists; eexists; split; [exact Hrun | reflexivity]].
  destruct (truthy_id (find_named issueType (elements types))) as [issueTypeId|]
    eqn:Htype; [|left; eexists; eexists; split; [exact Hrun | reflexivity]].
  cbn beta iota in Hrun. cbn [app] in Hrun.
  destruct (resolve_priority_returns (get "priority" args) R
              [getProject projectKey; getIssueAllTypes]) as [priorityId Hpriority].
  destruct (resolve_components_returns (get "components" args) projectId R
              ([getProject projectKey; getIssueAllTypes]
                 ++ if_asked (get "priority" args) getPriorities)%list)
    as (componentObjects & asked & Hcomponents & Hasked).
  rewrite Hpriority in Hrun. rewrite Hcomponents in Hrun.
  set (before := (([getProject projectKey; getIssueAllTypes]
                     ++ if_asked (get "priority" args) getPriorities) ++ asked)%list)
    in *.
  set (fields := create_fields args "accountId" projectId issueTypeId componentObjects
                   priorityId) in *.
  assert (Hreads : count is_mutation before = 0%nat).
  { unfold before. rewrite !count_app, count_mutation_if_asked by reflexivity.
    destruct Hasked as [->| ->]; reflexivity. }
  right. exists fields, before. split.
  - exact Hrun.
  - exact (@create_run _ args R "accountId" _ fields project types projectId issueTypeId
             priorityId componentObjects before _
             Hproject Hpid Hpne Htypes Htype Hpriority Hcomponents eq_refl eq_refl
             Hreads).
Qed.

End CreateShape.

Section CreateCalls.
Context `{Runtime}.

Lemma Index_trace (tool : Tool) (arguments : option json) (R : Remote) :
  In tool Index.tools ->
  snd (run (Index.call_tool {| req_name := name tool; req_arguments := arguments |}) R)
  = []
  \/ snd (run (Index.call_tool {| req_name := name tool; req_arguments := arguments |}) R)
     = snd (Index.handle (name tool) (props (value_of arguments)) R []).
Proof.
  intros Hin.
  destruct (Index.validate_arguments (inputSchema tool) arguments) eqn:Hv.
  - right. rewrite (Index_valid_arguments tool arguments R Hin Hv).
    apply snd_surface.
  - left. rewrite (Index_invalid_arguments tool arguments R Hin Hv). reflexivity.
Qed.

Lemma single_mutation_last (tr before : Trace) (fields0 : obj) :
  tr = (before ++ [createIssue fields0])%list ->
  count is_mutation before = 0%nat ->
  count is_mutation tr = 1%nat
  /\ forall fields, In (createIssue fields) tr -> fields = fields0.
Proof.
  intros -> Hreads. split.
  - rewrite count_app, Hreads. reflexivity.
  - intros fields Hin. apply in_app_or in Hin. destruct Hin as [Hin|[Heq|[]]].
    + exfalso. exact (not_a_mutation_in before fields Hreads Hin).
    + inversion Heq. reflexivity.
Qed.

(** Every [createIssue] in the trace of a [create_issue] call of the
    function-style server is the last call of a complete create run, and the
    trace holds at most one mutation. *)
Lemma Server_create_issue_calls (args : obj) (R : Remote) :
  let tr := snd (run (Server.call_tool (request "create_issue" args)) R) in
  (count is_mutation tr <= 1)%nat
  /\ forall fields, In (createIssue fields) tr -> CreateRun args R "name" tr fields.
Proof.
  intros tr.
  destruct (Server_trace Server.create_issue_tool (Some (JObj args)) R
              create_issue_registered) as [Hempty|Hhandler].
  - unfold tr, request. cbn [name Server.create_issue_tool] in Hempty.
    rewrite Hempty. split; [cbn; lia | intros fields []].
  - unfold tr, request.
    cbn [name Server.create_issue_tool Server.normalize truthy value_of props]
      in Hhandler.
    rewrite Hhandler.
    change (Server.handle "create_issue" args) with (Server.case_create_issue args).
    destruct (Server_create_run args R)
      as [(e & tr0 & -> & Hreads)|(fields0 & before & -> & Hrun)]; cbn [snd].
    + split; [rewrite Hreads; lia|].
      intros fields Hin. exfalso. exact (not_a_mutation_in tr0 fields Hreads Hin).
    + destruct Hrun as [? ? ? ? ? ? before' ? ? ? ? ? ? ? ? ? Htrace Hreads].
      apply app_inj_tail in Htrace. destruct Htrace as [<- _].
      destruct (single_mutation_last _ before fields0 eq_refl Hreads) as [Hone Hsame].
      split; [rewrite Hone; lia|].
      intros fields Hin. rewrite (Hsame fields Hin).
      eapply create_run; eauto.
Qed.

Lemma Index_create_issue_calls (args : obj) (R : Remote) :
  let tr := snd (run (Index.call_tool (request "create_issue" args)) R) in
  (count is_mutation tr <= 1)%nat
  /\ forall fields, In (createIssue fields) tr -> CreateRun args R "accountId" tr fields.
Proof.
  intros tr.
  destruct (Index_trace Index.create_issue_tool (Some (JObj args)) R
              Index_create_issue_registered) as [Hempty|Hhandler].
  - unfold tr, request. cbn [name Index.create_issue_tool] in Hempty.
    rewrite Hempty. split; [cbn; lia | intros fields []].
  - unfold tr, request.
    cbn [name Index.create_issue_tool value_of props] in Hhandler.
    rewrite Hhandler.
    change (Index.handle "create_issue" args)
      with (bind (Index.handleCreateIssue args) (fun result => ret (Break result))).
    assert (Hsnd : snd (bind (Index.handleCreateIssue args)
                          (fun result => ret (Break result)) R [])
                   = snd (Index.handleCreateIssue args R [])).
    { js_step. destruct (Index.handleCreateIssue args R []) as [[r|e] t]; reflexivity. }
    rewrite Hsnd.
    destruct (Index_create_run args R)
      as [(e & tr0 & -> & Hreads)|(fields0 & before & -> & Hrun)]; cbn [snd].
    + split; [rewrite Hreads; lia|].
      intros fields Hin. exfalso. exact (not_a_mutation_in tr0 fields Hreads Hin).
    + destruct Hrun as [? ? ? ? ? ? before' ? ? ? ? ? ? ? ? ? Htrace Hreads].
      apply app_inj_tail in Htrace. destruct Htrace as [<- _].
      destruct (single_mutation_last _ before fields0 eq_refl Hreads) as [Hone Hsame].
      split; [rewrite Hone; lia|].
      intros fields Hin. rewrite (Hsame fields Hin).
      eapply create_run; eauto.
Qed.

End CreateCalls.

(** X12.  In both servers a [create_issue] call issues at most one mutation.
    When it issues [createIssue], that is its last call; the project lookup
    returned a project with an id and the issue-type lookup a matching type
    with an id before it; and the payload is assembled from those ids, the
    arguments and the resolved priority and components. *)
Theorem create_issue_mutates_once_and_last `{Runtime} :
  forall (args : obj) (R : Remote),
    let server := snd (run (Server.call_tool (request "create_issue" args)) R) in
    let index := snd (run (Index.call_tool (request "create_issue" args)) R) in
    ((count is_mutation server <= 1)%nat
     /\ forall fields, In (createIssue fields) server ->
                       CreateRun args R "name" server fields)
    /\ ((count is_mutation index <= 1)%nat
        /\ forall fields, In (createIssue fields) index ->
                          CreateRun args R "accountId" index fields).
Proof.
  intros args R. split; [apply Server_create_issue_calls | apply Index_create_issue_calls].
Qed.

(** What each property of the create payload holds. *)
Lemma create_fields_properties `{Runtime} (args : obj) (assigneeKey projectId issueTypeId : string)
    (componentObjects : list json) (priorityId : option string) :
  let fields := create_fields args assigneeKey projectId issueTypeId
                  componentObjects priorityId in
  firstn 3 (map fst fields) = ["project"; "summary"; "issuetype"]
  /\ get "project" fields = Some (id_object projectId)
  /\ get "summary" fields = Some (value_of (get "summary" args))
  /\ get "issuetype" fields = Some (id_object issueTypeId)
  /\ get "description" fields
     = (if truthy (get "description" args) then get "description" args else None)
  /\ get "labels" fields
     = (if truthy (get "labels" args) then get "labels" args else None)
  /\ get "assignee" fields
     = (if truthy (get "assignee" args)
        then Some (JObj [(assigneeKey, value_of (get "assignee" args))]) else None)
  /\ get "components" fields
     = (if (0 <? length componentObjects)%nat
        then Some (JArr componentObjects) else None)
  /\ get "priority" fields = option_map id_object priorityId.
Proof.
  unfold create_fields.
  destruct (get "description" args) as [d|]; [destruct (truthy (Some d))|];
    (destruct (get "assignee" args) as [a|]; [destruct (truthy (Some a))|]);
    (destruct (get "labels" args) as [l|]; [destruct (truthy (Some l))|]);
    destruct (0 <? length componentObjects)%nat;
    destruct priorityId as [i|];
    cbv; repeat split; reflexivity.
Qed.

(** X13.  The payload of every [createIssue] that [create_issue] issues
    starts with [project], [summary] and [issuetype]: the id of the project
    that the project lookup returned, the [summary] argument as given, and
    the id of the issue type that matched.  [description] and [labels] are in
    the payload exactly when the argument is truthy: an empty description is
    left out, an empty array of labels is sent. *)
Theorem create_issue_payload `{Runtime} :
  forall (args : obj) (R : Remote) (fields : obj),
    In (createIssue fields)
       (snd (run (Server.call_tool (request "create_issue" args)) R)) ->
    let projectKey := text_of (str_arg "projectKey" args) in
    let issueType := text_of (str_arg "issueType" args) in
    firstn 3 (map fst fields) = ["project"; "summary"; "issuetype"]
    /\ (exists project projectId,
          R [] (getProject projectKey) = Returned project
          /\ str_prop "id" project = Some projectId
          /\ get "project" fields = Some (id_object projectId))
    /\ (exists types issueTypeId,
          R [getProject projectKey] getIssueAllTypes = Returned types
          /\ truthy_id (find_named issueType (elements types)) = Some issueTypeId
          /\ get "issuetype" fields = Some (id_object issueTypeId))
    /\ (forall s, get "summary" args = Some s -> get "summary" fields = Some s)
    /\ get "description" fields
       = (if truthy (get "description" args) then get "description" args else None)
    /\ get "labels" fields
       = (if truthy (get "labels" args) then get "labels" args else None)
    /\ (get "description" args = Some (JStr EmptyString) ->
        get "description" fields = None)
    /\ (get "labels" args = Some (JArr []) -> get "labels" fields = Some (JArr [])).
Proof.
  intros args R fields Hin projectKey issueType.
  destruct (proj2 (Server_create_issue_calls args R) fields Hin)
    as [project types projectId issueTypeId priorityId componentObjects before lookups
          Hproject Hpid Hpne Htypes Htype Hpriority Hcomponents Hfields Htrace Hreads].
  destruct (create_fields_properties args "name" projectId issueTypeId
              componentObjects priorityId)
    as (Hfirst & Hp & Hs & Ht & Hd & Hl & Ha & Hc & Hpr).
  rewrite <- Hfields in Hfirst, Hp, Hs, Ht, Hd, Hl.
  split; [exact Hfirst|].
  split; [exists project, projectId; repeat split; assumption|].
  split; [exists types, issueTypeId; repeat split; assumption|].
  split; [intros s Hsum; rewrite Hs, Hsum; reflexivity|].
  split; [exact Hd|]. split; [exact Hl|].
  split; [intros Hempty; rewrite Hd, Hempty; reflexivity|].
  intros Hempty. rewrite Hl, Hempty. reflexivity.
Qed.

Lemma create_issue_payload_witness :
  firstn 3 (map fst [("project", id_object "10000"); ("summary", JStr "s");
                     ("issuetype", id_object "10002");
                     ("assignee", JObj [("name", JStr "u-1")]); ("labels", JArr [])])
  = ["project"; "summary"; "issuetype"].
Proof.
  refine (proj1 (create_issue_payload full_create_arguments sample_jira
                   [("project", id_object "10000"); ("summary", JStr "s");
                    ("issuetype", id_object "10002");
                    ("assignee", JObj [("name", JStr "u-1")]); ("labels", JArr [])]
                   _)).
  vm_compute. do 2 right. left. reflexivity.
Defined.

(** X14.  The two servers send a given, non-empty assignee under different
    keys: the function-style server as [{ name: assignee }], the class-style
    server as [{ accountId: assignee }]. *)
Theorem create_issue_assignee_key `{Runtime} :
  forall (args : obj) (R : Remote) (a : string) (fields : obj),
    get "assignee" args = Some (JStr a) ->
    a <> EmptyString ->
    (In (createIssue fields)
        (snd (run (Server.call_tool (request "create_issue" args)) R)) ->
     get "assignee" fields = Some (JObj [("name", JStr a)]))
    /\
    (In (createIssue fields)
        (snd (run (Index.call_tool (request "create_issue" args)) R)) ->
     get "assignee" fields = Some (JObj [("accountId", JStr a)])).
Proof.
  intros args R a fields Ha Hne.
  assert (Htruthy : truthy (get "assignee" args) = true).
  { rewrite Ha. cbn [truthy]. destruct (String.eqb_spec a EmptyString);
      [contradiction | reflexivity]. }
  split; intros Hin.
  - destruct (proj2 (Server_create_issue_calls args R) fields Hin)
      as [project types projectId issueTypeId priorityId componentObjects before
            lookups _ _ _ _ _ _ _ Hfields _ _].
    destruct (create_fields_properties args "name" projectId issueTypeId
                componentObjects priorityId)
      as (_ & _ & _ & _ & _ & _ & Hassignee & _).
    rewrite Hfields, Hassignee, Htruthy, Ha. reflexivity.
  - destruct (proj2 (Index_create_issue_calls args R) fields Hin)
      as [project types projectId issueTypeId priorityId componentObjects before
            lookups _ _ _ _ _ _ _ Hfields _ _].
    destruct (create_fields_properties args "accountId" projectId issueTypeId
                componentObjects priorityId)
      as (_ & _ & _ & _ & _ & _ & Hassignee & _).
    rewrite Hfields, Hassignee, Htruthy, Ha. reflexivity.
Qed.

Lemma create_issue_assignee_key_witness :
  get "assignee"
    [("project", id_object "10000"); ("summary", JStr "s");
     ("issuetype", id_object "10002");
     ("assignee", JObj [("accountId", JStr "u-1")]); ("labels", JArr [])]
  = Some (JObj [("accountId", JStr "u-1")]).
Proof.
  refine (proj2 (create_issue_assignee_key full_create_arguments sample_jira "u-1"
                   [("project", id_object "10000"); ("summary", JStr "s");
                    ("issuetype", id_object "10002");
                    ("assignee", JObj [("accountId", JStr "u-1")]); ("labels", JArr [])]
                   _ _) _).
  - reflexivity.
  - discriminate.
  - vm_compute. do 2 right. left. reflexivity.
Defined.

Lemma create_issue_mutates_once_and_last_witness :
  (count is_mutation
     (snd (run (Server.call_tool (request "create_issue" full_create_arguments))
             sample_jira)) <= 1)%nat.
Proof.
  exact (proj1 (proj1 (create_issue_mutates_once_and_last full_create_arguments
                         sample_jira))).
Defined.

(** ** Components and first matches *)

Section Components.
Context `{Runtime}.

Lemma truthy_id_Some (found : option json) (i : string) :
  truthy_id found = Some i ->
  exists x, found = Some x /\ str_prop "id" x = Some i /\ i <> EmptyString.
Proof.
  unfold truthy_id. destruct found as [x|]; [|discriminate].
  destruct (str_prop "id" x) as [j|] eqn:Hid; [|discriminate].
  destruct (String.eqb_spec j EmptyString) as [|Hne]; [discriminate|].
  intros Heq. inversion Heq; subst. exists x.
  split; [reflexivity|]. split; [exact Hid | exact Hne].
Qed.

Lemma find_named_Some (target : string) (l : list json) (x : json) :
  find_named target l = Some x ->
  In x l /\ same_name target (str_prop "name" x) = true.
Proof. unfold find_named. apply find_some. Qed.

Lemma find_named_first (target : string) (before after : list json) (x : json) :
  (forall y, In y before -> same_name target (str_prop "name" y) = false) ->
  same_name target (str_prop "name" x) = true ->
  find_named target (before ++ x :: after) = Some x.
Proof.
  intros Hbefore Hx. unfold find_named.
  induction before as [|y before IH]; cbn [app find].
  - rewrite Hx. reflexivity.
  - rewrite (Hbefore y (or_introl eq_refl)). apply IH.
    intros z Hz. apply Hbefore. right. exact Hz.
Qed.

Lemma flat_map_at_most_one {A B : Type} (f : A -> list B) (l : list A) :
  (forall a, length (f a) <= 1)%nat -> (length (flat_map f l) <= length l)%nat.
Proof.
  intros Hf. induction l as [|a l IH]; cbn [flat_map length]; [lia|].
  rewrite length_app. specialize (Hf a). lia.
Qed.

End Components.

(** X15.  Component resolution is best-effort and never throws.  Every
    component object it yields is [{ id }] of a component of the project that
    the lookup returned, whose name equals, up to case, one of the requested
    names and whose id is truthy; there are no more objects than requested
    names; when the lookup fails there is none.  The payload has a
    [components] field exactly when at least one component was resolved. *)
Theorem components_are_ids_of_matching_components `{Runtime} :
  forall (components : option json) (projectId : string) (R : Remote) (tr : Trace),
    exists (componentObjects : list json) (asked : Trace),
      resolve_components components projectId R tr
      = (Returned componentObjects, (tr ++ asked)%list)
      /\ (asked = [] \/ asked = [getProjectComponents projectId])
      /\ (length componentObjects <= length (elements (value_of components)))%nat
      /\ (forall c, In c componentObjects ->
            exists projectComponents pc requested i,
              R tr (getProjectComponents projectId) = Returned projectComponents
              /\ In pc (elements projectComponents)
              /\ In requested (elements (value_of components))
              /\ same_name (as_string requested) (str_prop "name" pc) = true
              /\ str_prop "id" pc = Some i
              /\ i <> EmptyString
              /\ c = id_object i)
      /\ (forall e, R tr (getProjectComponents projectId) = Thrown e ->
                    componentObjects = [])
      /\ (forall args assigneeKey issueTypeId priorityId,
            get "components"
              (create_fields args assigneeKey projectId issueTypeId
                 componentObjects priorityId)
            = match componentObjects with
              | [] => None
              | _ :: _ => Some (JArr componentObjects)
              end).
Proof.
  intros components projectId R tr.
  assert (Hpayload :
            forall (cs : list json) args assigneeKey issueTypeId priorityId,
              get "components"
                (create_fields args assigneeKey projectId issueTypeId cs priorityId)
              = match cs with [] => None | _ :: _ => Some (JArr cs) end).
  { intros cs args assigneeKey issueTypeId priorityId.
    destruct (create_fields_properties args assigneeKey projectId issueTypeId
                cs priorityId) as (_ & _ & _ & _ & _ & _ & _ & Hc & _).
    rewrite Hc. destruct cs; reflexivity. }
  unfold resolve_components.
  destruct (truthy components && (0 <? length (elements (value_of components)))%nat
            && negb (String.eqb projectId EmptyString)).
  - js_step.
    destruct (R tr (getProjectComponents projectId)) as [pcs|e] eqn:Hlookup.
    + eexists. exists [getProjectComponents projectId].
      split; [reflexivity|]. split; [right; reflexivity|].
      split.
      { apply flat_map_at_most_one. intros a.
        destruct (truthy_id _); cbn; lia. }
      split.
      { intros c Hc. apply in_flat_map in Hc. destruct Hc as [requested [Hreq Hc]].
        destruct (truthy_id (find_named (as_string requested) (elements pcs)))
          as [i|] eqn:Hid; [|contradiction].
        destruct Hc as [<-|[]].
        destruct (truthy_id_Some _ i Hid) as [pc [Hfound [Hpid Hne]]].
        destruct (find_named_Some _ _ pc Hfound) as [Hin Hsame].
        exists pcs, pc, requested, i. repeat split; assumption. }
      split; [intros e He; discriminate He | apply Hpayload].
    + exists [], [getProjectComponents projectId].
      split; [reflexivity|]. split; [right; reflexivity|].
      split; [cbn; lia|]. split; [intros c []|].
      split; [reflexivity | apply Hpayload].
  - exists [], []. js_step. rewrite app_nil_r.
    split; [reflexivity|]. split; [left; reflexivity|].
    split; [cbn; lia|]. split; [intros c []|].
    split; [reflexivity | apply Hpayload].
Qed.

(** X16.  Name resolution takes the first entry whose name equals the
    requested one up to case, and looks no further: the priority id is the id
    of that first match when it is truthy, and no priority is resolved when
    that first match has no id, whatever follows it in the list. *)
Theorem priority_is_the_first_match `{Runtime} :
  forall (p : string) (R : Remote) (tr : Trace) (before after : list json) (x : json),
    p <> EmptyString ->
    R tr getPriorities = Returned (JArr (before ++ x :: after)) ->
    (forall y, In y before -> same_name p (str_prop "name" y) = false) ->
    same_name p (str_prop "name" x) = true ->
    resolve_priority (Some (JStr p)) R tr
    = (Returned (truthy_id (Some x)), (tr ++ [getPriorities])%list).
Proof.
  intros p R tr before after x Hne Hlookup Hbefore Hx.
  unfold resolve_priority. cbn [truthy render].
  destruct (String.eqb_spec p EmptyString) as [|_]; [contradiction|]. cbn [negb].
  js_step. rewrite Hlookup. cbn [elements].
  rewrite (find_named_first p before after x Hbefore Hx). reflexivity.
Qed.

Lemma priority_is_the_first_match_witness :
  resolve_priority (Some (JStr "HIGH"))
    (fun _ _ => Returned (JArr [named "2" "Low"; JObj [("name", JStr "High")];
                                named "1" "High"])) []
  = (Returned None, [getPriorities]).
Proof.
  refine (priority_is_the_first_match "HIGH" _ [] [named "2" "Low"]
            [named "1" "High"] (JObj [("name", JStr "High")]) _ _ _ _).
  - discriminate.
  - reflexivity.
  - intros y [<-|[]]. reflexivity.
  - reflexivity.
Defined.

Lemma components_are_ids_of_matching_components_witness :
  exists (componentObjects : list json) (asked : Trace),
    resolve_components (Some (JArr [JStr "docs"; JStr "BACKEND"; JStr "ui"])) "10000"
      components_jira []
    = (Returned componentObjects, ([] ++ asked)%list)
    /\ (asked = [] \/ asked = [getProjectComponents "10000"])
    /\ (length componentObjects <= 3)%nat.
Proof.
  destruct (components_are_ids_of_matching_components
              (Some (JArr [JStr "docs"; JStr "BACKEND"; JStr "ui"])) "10000"
              components_jira [])
    as (cs & asked & Hrun & Hasked & Hlen & _).
  exists cs, asked. split; [exact Hrun|]. split; [exact Hasked | exact Hlen].
Defined.

(** ** [update_issue]: the shape of every trace *)

Section UpdateShape.
Context `{Runtime}.

Lemma set_keys {A : Type} (k : string) (v : A) (o : list (string * A)) (key : string) :
  In key (map fst (set k v o)) -> key = k \/ In key (map fst o).
Proof.
  induction o as [|[k0 v0] o IH]; cbn [set map fst In].
  - intros [<-|[]]. left. reflexivity.
  - destruct (String.eqb_spec k k0) as [->|Hne]; cbn [map fst In].
    + intros [<-|Hin]; [left; reflexivity | right; right; exact Hin].
    + intros [<-|Hin]; [right; left; reflexivity|].
      destruct (IH Hin) as [->|Hin']; [left; reflexivity | right; right; exact Hin'].
Qed.

Lemma set_keys_within {A : Type} (allowed : list string) (k : string) (v : A)
    (o : list (string * A)) :
  In k allowed ->
  Forall (fun key => In key allowed) (map fst o) ->
  Forall (fun key => In key allowed) (map fst (set k v o)).
Proof.
  intros Hk Ho. apply Forall_forall. intros key Hin.
  apply set_keys in Hin. destruct Hin as [->|Hin]; [exact Hk|].
  rewrite Forall_forall in Ho. exact (Ho key Hin).
Qed.

Lemma assign_keys_within (allowed : list string) (k : string) (v : option json)
    (o : obj) :
  In k allowed ->
  Forall (fun key => In key allowed) (map fst o) ->
  Forall (fun key => In key allowed) (map fst (assign k v o)).
Proof.
  intros Hk Ho. destruct v as [x|]; [|exact Ho].
  apply set_keys_within; assumption.
Qed.

Lemma fields_from_arguments_keys (args : obj) :
  Forall (fun key => In key updatable_fields)
    (map fst (Server.fields_from_arguments args)).
Proof.
  assert (Hsummary : In "summary" updatable_fields) by (left; reflexivity).
  assert (Hdescription : In "description" updatable_fields)
    by (right; left; reflexivity).
  assert (Hassignee : In "assignee" updatable_fields)
    by (right; right; left; reflexivity).
  unfold Server.fields_from_arguments. cbv zeta.
  set (summarized := if truthy (get "summary" args)
                     then assign "summary" (get "summary" args) [] else []).
  assert (H1 : Forall (fun key => In key updatable_fields) (map fst summarized)).
  { subst summarized. destruct (truthy (get "summary" args));
      [apply assign_keys_within; [exact Hsummary|]|]; constructor. }
  set (described := if truthy (get "description" args)
                    then assign "description" (get "description" args) summarized
                    else summarized).
  assert (H2 : Forall (fun key => In key updatable_fields) (map fst described)).
  { subst described. destruct (truthy (get "description" args));
      [apply assign_keys_within; [exact Hdescription | exact H1] | exact H1]. }
  clearbody described. clear H1. clearbody summarized.
  destruct (get "assignee" args) as [[| | |a| |]|];
    [| | |destruct (String.eqb a "null")| | |];
    first [ exact H2 | apply set_keys_within; [exact Hassignee | exact H2] ].
Qed.

(** [editIssue] never carries anything but the four updatable fields. *)
Lemma update_fields_keys (args : obj) (priorityId : option string) :
  Forall (fun key => In key updatable_fields)
    (map fst (Server.update_fields args priorityId)).
Proof.
  unfold Server.update_fields. destruct priorityId as [i|];
    [|apply fields_from_arguments_keys].
  apply Forall_forall. intros key Hin. apply set_keys in Hin.
  destruct Hin as [->|Hin].
  - cbn. tauto.
  - pose proof (fields_from_arguments_keys args) as Hkeys.
    rewrite Forall_forall in Hkeys. exact (Hkeys key Hin).
Qed.

(** The update workflow of the function-style server: the lookups, then one
    of the tails. *)
Lemma Server_update_run (args : obj) (R : Remote) :
  let issueKey := text_of (str_arg "issueKey" args) in
  exists (priorityId transitionId : option string),
    let lookups := (if_asked (get "priority" args) getPriorities
                      ++ if_asked (get "status" args) (getTransitions issueKey))%list in
    resolve_priority (get "priority" args) R []
    = (Returned priorityId, if_asked (get "priority" args) getPriorities)
    /\ resolve_transition issueKey (get "status" args) R
         (if_asked (get "priority" args) getPriorities)
       = (Returned transitionId, lookups)
    /\ exists rest,
         snd (Server.case_update_issue args R []) = (lookups ++ rest)%list
         /\ In rest (update_tails issueKey (Server.update_fields args priorityId)
                       transitionId).
Proof.
  intros issueKey.
  destruct (resolve_priority_returns (get "priority" args) R []) as [priorityId Hp].
  cbn [app] in Hp.
  destruct (resolve_transition_returns issueKey (get "status" args) R
              (if_asked (get "priority" args) getPriorities)) as [transitionId Ht].
  exists priorityId, transitionId. cbn zeta.
  split; [exact Hp|]. split; [exact Ht|].
  remember (Server.case_update_issue args R []) as outcome eqn:Hrun.
  unfold Server.case_update_issue in Hrun. fold issueKey in Hrun.
  unfold bind at 1 in Hrun. rewrite Hp in Hrun.
  unfold bind at 1 in Hrun. rewrite Ht in Hrun.
  set (lookups := (if_asked (get "priority" args) getPriorities
                     ++ if_asked (get "status" args) (getTransitions issueKey))%list)
    in *.
  set (fields := Server.update_fields args priorityId) in *.
  unfold update_tails. unfold transition_and_read in Hrun.
  autounfold with js_ops in Hrun. cbn beta iota in Hrun.
  destruct (0 <? length (Object_keys fields))%nat.
  - destruct (R lookups (editIssue issueKey fields)) as [edited|e];
      [|exists [editIssue issueKey fields]; rewrite Hrun; split;
        [reflexivity | cbn; tauto]].
    destruct transitionId as [i|]; cbn beta iota in Hrun.
    + destruct (R (lookups ++ [editIssue issueKey fields])%list
                  (doTransition issueKey i)) as [done|e].
      * exists [editIssue issueKey fields; doTransition issueKey i; getIssue issueKey].
        rewrite Hrun. split; [|cbn; tauto].
        destruct (R _ (getIssue issueKey)); cbn [snd]; rewrite <- !app_assoc; reflexivity.
      * exists [editIssue issueKey fields; doTransition issueKey i].
        rewrite Hrun. split; [cbn [snd]; rewrite <- !app_assoc; reflexivity | cbn; tauto].
    + exists [editIssue issueKey fields; getIssue issueKey].
      rewrite Hrun. split; [|cbn; tauto].
      destruct (R _ (getIssue issueKey)); cbn [snd]; rewrite <- !app_assoc; reflexivity.
  - destruct transitionId as [i|]; cbn beta iota in Hrun.
    + destruct (R lookups (doTransition issueKey i)) as [done|e].
      * exists [doTransition issueKey i; getIssue issueKey].
        rewrite Hrun. split; [|cbn; tauto].
        destruct (R _ (getIssue issueKey)); cbn [snd]; rewrite <- !app_assoc; reflexivity.
      * exists [doTransition issueKey i].
        rewrite Hrun. split; [reflexivity | cbn; tauto].
    + exists []. rewrite Hrun. split; [cbn [snd]; rewrite app_nil_r; reflexivity|].
      cbn. tauto.
Qed.

End UpdateShape.

Lemma counts_of_update_tail (issueKey : string) (fields : obj)
    (transitionId : option string) (rest : Trace) :
  In rest (update_tails issueKey fields transitionId) ->
  (count is_editIssue rest <= 1)%nat
  /\ (count is_doTransition rest <= 1)%nat
  /\ (count is_getIssue rest <= 1)%nat.
Proof.
  unfold update_tails. intros Hin.
  destruct transitionId as [i|]; cbn in Hin;
    repeat (destruct Hin as [<-|Hin]; [cbn; lia|]); contradiction.
Qed.

(** X17.  Every trace of [update_issue] in the function-style server is
    empty, or consists of the lookups (the priorities when [priority] is
    truthy, then the transitions when [status] is truthy) followed by calls
    taken in order from: one [editIssue] of the issue key, one
    [doTransition] with the resolved transition id, one [getIssue].  The
    priority id in the payload and the transition id are the ones that the
    two lookups resolve from the answers of the remote.  So each of the
    three calls is issued at most once, never out of this order, and the
    [editIssue] payload holds no key other than [summary], [description],
    [assignee] and [priority]. *)
Theorem update_issue_trace_shape `{Runtime} :
  forall (args : obj) (R : Remote),
    let issueKey := text_of (str_arg "issueKey" args) in
    let tr := snd (run (Server.call_tool (request "update_issue" args)) R) in
    let priorities := if_asked (get "priority" args) getPriorities in
    let lookups :=
      (priorities ++ if_asked (get "status" args) (getTransitions issueKey))%list in
    exists (priorityId transitionId : option string) (rest : Trace),
      resolve_priority (get "priority" args) R [] = (Returned priorityId, priorities)
      /\ resolve_transition issueKey (get "status" args) R priorities
         = (Returned transitionId, lookups)
      /\ In rest (update_tails issueKey (Server.update_fields args priorityId)
                    transitionId)
      /\ (tr = [] \/ tr = (lookups ++ rest)%list)
      /\ Forall (fun key => In key updatable_fields)
           (map fst (Server.update_fields args priorityId))
      /\ (count is_editIssue tr <= 1)%nat
      /\ (count is_doTransition tr <= 1)%nat
      /\ (count is_getIssue tr <= 1)%nat.
Proof.
  intros args R issueKey tr priorities lookups.
  destruct (Server_update_run args R)
    as (priorityId & transitionId & Hp & Ht & rest & Hsnd & Hrest).
  fold issueKey in Ht, Hsnd, Hrest. fold priorities in Hp, Ht, Hsnd.
  fold lookups in Ht, Hsnd.
  exists priorityId, transitionId, rest.
  split; [exact Hp|]. split; [exact Ht|]. split; [exact Hrest|].
  assert (Htr : tr = [] \/ tr = (lookups ++ rest)%list).
  { destruct (Server_trace Server.update_issue_tool (Some (JObj args)) R
                update_issue_registered) as [Hempty|Hhandler].
    - left. exact Hempty.
    - right. unfold tr, request.
      cbn [name Server.update_issue_tool Server.normalize truthy value_of props]
        in Hhandler.
      rewrite Hhandler. exact Hsnd. }
  split; [exact Htr|]. split; [apply update_fields_keys|].
  destruct (counts_of_update_tail _ _ _ rest Hrest) as (He & Hd & Hg).
  destruct Htr as [-> | ->]; [cbn; lia|].
  unfold lookups, priorities. rewrite !count_app.
  rewrite !count_if_asked by reflexivity. cbn [Nat.add]. tauto.
Qed.

Lemma update_issue_trace_shape_witness :
  exists rest : Trace,
    In rest (update_tails "T-1" (Server.update_fields summary_and_status None)
               (Some "31"))
    /\ (snd (run (Server.call_tool (request "update_issue" summary_and_status))
               rejecting_jira) = []
        \/ snd (run (Server.call_tool (request "update_issue" summary_and_status))
                  rejecting_jira)
           = ([getTransitions "T-1"] ++ rest)%list).
Proof.
  destruct (update_issue_trace_shape summary_and_status rejecting_jira)
    as (priorityId & transitionId & rest & Hp & Ht & Hrest & Htr & _).
  vm_compute in Hp. inversion Hp. subst priorityId.
  vm_compute in Ht. inversion Ht. subst transitionId.
  exists rest. split; [exact Hrest | exact Htr].
Defined.

(** X18.  An [update_issue] call with only [issueKey] and a [status] that
    resolves to a transition id issues no [editIssue]: after the transitions
    lookup it issues [doTransition] and, when that succeeded, [getIssue],
    whose answer it hands back. *)
Theorem status_only_update_skips_the_field_update `{Runtime} :
  forall (args : obj) (issueKey status transitionId : string) (transitions : json)
         (R : Remote),
    validate Server.update_issue_schema (JObj args) = true ->
    get "issueKey" args = Some (JStr issueKey) ->
    get "status" args = Some (JStr status) ->
    status <> EmptyString ->
    get "summary" args = None ->
    get "description" args = None ->
    get "assignee" args = None ->
    get "priority" args = None ->
    R [] (getTransitions issueKey) = Returned transitions ->
    truthy_id (find_transition status transitions) = Some transitionId ->
    let transition := doTransition issueKey transitionId in
    run (Server.call_tool (request "update_issue" args)) R
    = match R [getTransitions issueKey] transition with
      | Thrown e => (Thrown (tool_error e), [getTransitions issueKey; transition])
      | Returned _ =>
          (surface (R [getTransitions issueKey; transition] (getIssue issueKey)),
           [getTransitions issueKey; transition; getIssue issueKey])
      end.
Proof.
  intros args issueKey status transitionId transitions R Hv Hkey Hstatus Hne
    Hs Hd Ha Hp Hlookup Hfound transition.
  rewrite (Server_call_update_issue args R Hv).
  unfold Server.case_update_issue, Server.update_fields, str_arg.
  rewrite Hkey, Hstatus, Hp, (no_fields_from_arguments args Hs Hd Ha).
  cbn [text_of]. unfold bind at 1. cbn [resolve_priority truthy ret].
  unfold resolve_transition. cbn [truthy render].
  destruct (String.eqb_spec status EmptyString) as [|_]; [contradiction|]. cbn [negb].
  change (0 <? length (Object_keys []))%nat with false.
  unfold transition_and_read. js_step. rewrite Hlookup, Hfound. cbn [app].
  js_step. cbn [app]. fold transition.
  destruct (R [getTransitions issueKey] transition); [|reflexivity].
  destruct (R [getTransitions issueKey; transition] (getIssue issueKey)); reflexivity.
Qed.

Lemma status_only_update_skips_the_field_update_witness :
  run (Server.call_tool
         (request "update_issue" [("issueKey", JStr "T-1"); ("status", JStr "DONE")]))
    sample_jira
  = (Returned (envelope (JStr "T-1")),
     [getTransitions "T-1"; doTransition "T-1" "31"; getIssue "T-1"]).
Proof.
  refine (status_only_update_skips_the_field_update
            [("issueKey", JStr "T-1"); ("status", JStr "DONE")] "T-1" "DONE" "31"
            (JObj [("transitions",
                    JArr [JObj [("id", JStr "31"); ("to", JObj [("name", JStr "Done")])]])])
            sample_jira _ _ _ _ _ _ _ _ _ _); try reflexivity.
  discriminate.
Defined.

(** ** Where the two servers differ *)

Lemma Object_keys_nonempty (o : obj) :
  o <> [] -> (0 <? length (Object_keys o))%nat = true.
Proof.
  destruct o as [|[k v] o]; [congruence|]. intros _.
  apply Nat.ltb_lt. unfold Object_keys.
  assert (Hin : In k (nodup string_dec (map fst ((k, v) :: o))))
    by (apply nodup_In; left; reflexivity).
  destruct (nodup string_dec (map fst ((k, v) :: o))); [contradiction|].
  cbn [length]. lia.
Qed.

Section AssigneeOnly.
Context `{Runtime}.

Lemma Index_update_issue_registered : In Index.update_issue_tool Index.tools.
Proof. simpl. do 2 right. left. reflexivity. Qed.

Lemma Index_call_update_issue (args : obj) (R : Remote) :
  validate Index.update_issue_schema (JObj args) = true ->
  run (Index.call_tool (request "update_issue" args)) R
  = match Index.handleUpdateIssue args R [] with
    | (Returned r, tr) => (Returned (envelope r), tr)
    | (Thrown e, tr) => (Thrown (tool_error e), tr)
    end.
Proof.
  intros Hv.
  pose proof (Index_runs_handler Index.update_issue_tool args R
                Index_update_issue_registered Hv) as Hrun.
  cbn [name Index.update_issue_tool] in Hrun. rewrite Hrun.
  change (Index.handle "update_issue" args)
    with (bind (Index.handleUpdateIssue args) (fun result => ret (Break result))).
  js_step. destruct (Index.handleUpdateIssue args R []) as [[r|e] tr]; reflexivity.
Qed.

End AssigneeOnly.

(** X19.  For an [update_issue] call with only [issueKey] and a string
    [assignee], the function-style server always issues [editIssue] first,
    with [assignee: null] when the string is "null" and
    [assignee: { name }] otherwise, the empty string included; the
    class-style server sends [assignee: { accountId }] for a non-empty string
    and takes an empty one as nothing to update, answering with the no-op
    message without any remote call. *)
Theorem assignee_only_update `{Runtime} :
  forall (args : obj) (issueKey a : string) (R : Remote),
    get "issueKey" args = Some (JStr issueKey) ->
    get "assignee" args = Some (JStr a) ->
    get "summary" args = None ->
    get "description" args = None ->
    get "priority" args = None ->
    get "status" args = None ->
    (validate Server.update_issue_schema (JObj args) = true ->
     exists rest,
       snd (run (Server.call_tool (request "update_issue" args)) R)
       = editIssue issueKey
           [("assignee",
             if String.eqb a "null" then JNull else JObj [("name", JStr a)])]
         :: rest)
    /\
    (validate Index.update_issue_schema (JObj args) = true ->
     if String.eqb a EmptyString
     then run (Index.call_tool (request "update_issue" args)) R
          = (Returned (envelope (no_update_message issueKey)), [])
     else exists rest,
       snd (run (Index.call_tool (request "update_issue" args)) R)
       = editIssue issueKey [("assignee", JObj [("accountId", JStr a)])] :: rest).
Proof.
  intros args issueKey a R Hkey Ha Hs Hd Hp Hst. split; intros Hv.
  - rewrite (Server_call_update_issue args R Hv), snd_surface.
    remember (Server.case_update_issue args R []) as outcome eqn:Hrun.
    unfold Server.case_update_issue, Server.update_fields,
      Server.fields_from_arguments, str_arg in Hrun.
    rewrite Hkey, Ha, Hs, Hd, Hp, Hst in Hrun. cbn [text_of truthy] in Hrun.
    unfold bind at 1 in Hrun. cbn [resolve_priority truthy ret] in Hrun.
    unfold bind at 1 in Hrun. cbn [resolve_transition truthy ret] in Hrun.
    destruct (String.eqb a "null"); cbn [set] in Hrun;
    set (fields := [("assignee", _)]) in *;
    rewrite Object_keys_nonempty in Hrun by (subst fields; discriminate);
    unfold transition_and_read in Hrun; autounfold with js_ops in Hrun;
    cbn beta iota in Hrun; cbn [app] in Hrun;
    (destruct (R [] (editIssue issueKey fields));
      [destruct (R [editIssue issueKey fields] (getIssue issueKey))|]);
      rewrite Hrun; eexists; reflexivity.
  - rewrite (Index_call_update_issue args R Hv).
    remember (Index.handleUpdateIssue args R []) as outcome eqn:Hrun.
    unfold Index.handleUpdateIssue, Index.update_fields,
      Index.fields_from_arguments, str_arg in Hrun.
    rewrite Hkey, Ha, Hs, Hd, Hp, Hst in Hrun. cbn [text_of truthy value_of] in Hrun.
    unfold bind at 1 in Hrun. cbn [resolve_priority truthy ret] in Hrun.
    unfold bind at 1 in Hrun. cbn [resolve_transition truthy ret] in Hrun.
    destruct (String.eqb a EmptyString); cbn [negb] in Hrun.
    + rewrite Hrun. reflexivity.
    + cbn [set] in Hrun.
      set (fields := [("assignee", _)]) in *.
      rewrite Object_keys_nonempty in Hrun by (subst fields; discriminate).
      unfold transition_and_read in Hrun. autounfold with js_ops in Hrun.
      cbn beta iota in Hrun. cbn [app] in Hrun.
      destruct (R [] (editIssue issueKey fields));
        [destruct (R [editIssue issueKey fields] (getIssue issueKey))|];
        rewrite Hrun; eexists; reflexivity.
Qed.

Lemma assignee_only_update_witness :
  run (Index.call_tool (request "update_issue" (assignee_only "T-1" EmptyString)))
    sample_jira
  = (Returned (envelope (no_update_message "T-1")), []).
Proof.
  refine (proj2 (assignee_only_update (assignee_only "T-1" EmptyString) "T-1"
                   EmptyString sample_jira _ _ _ _ _ _) _); reflexivity.
Defined.

(** X20.  When the project lookup of [create_issue] fails, both servers
    stop after that one call, but they report it differently: the
    function-style server re-classifies the remote error by its status, the
    class-style server replaces it by its own "Could not find project" error,
    which reaches the caller as [InternalError] whatever the status was. *)
Theorem project_lookup_failure `{Runtime} :
  forall (args : obj) (R : Remote) (e : JsError),
    let projectKey := text_of (str_arg "projectKey" args) in
    R [] (getProject projectKey) = Thrown e ->
    (validate Server.create_issue_schema (JObj args) = true ->
     run (Server.call_tool (request "create_issue" args)) R
     = (Thrown (tool_error e), [getProject projectKey]))
    /\
    (validate Index.create_issue_schema (JObj args) = true ->
     run (Index.call_tool (request "create_issue" args)) R
     = (Thrown (surfaced InvalidParams
                  ("Could not find project with key " ++ quoted projectKey ++ ".")),
        [getProject projectKey])).
Proof.
  intros args R e projectKey Hlookup. split; intros Hv.
  - rewrite (Server_call_create_issue args R Hv).
    unfold Server.case_create_issue. fold projectKey. js_step.
    rewrite Hlookup. reflexivity.
  - pose proof (Index_runs_handler Index.create_issue_tool args R
                  Index_create_issue_registered Hv) as Hrun.
    cbn [name Index.create_issue_tool] in Hrun. rewrite Hrun.
    change (Index.handle "create_issue" args)
      with (bind (Index.handleCreateIssue args) (fun result => ret (Break result))).
    unfold Index.handleCreateIssue. fold projectKey. js_step.
    rewrite Hlookup. reflexivity.
Qed.

Lemma project_lookup_failure_witness :
  run (Server.call_tool (request "create_issue" story_arguments)) failing_jira
  = (Thrown (McpError InvalidRequest "Jira API Error (404): Not Found"
               (Some (ApiError (Some 404%Z) None (Some "Not Found")))),
     [getProject "TEST"]).
Proof.
  refine (proj1 (project_lookup_failure story_arguments failing_jira
                   (ApiError (Some 404%Z) None (Some "Not Found")) _) _); reflexivity.
Defined.

Section SameCalls.
Context `{Runtime}.

Lemma snd_then_break {A : Type} (m : M A) (f : A -> Completion) (R : Remote) (tr : Trace) :
  snd (bind m (fun result => ret (f result)) R tr) = snd (m R tr).
Proof. js_step. destruct (m R tr) as [[r|e] t]; reflexivity. Qed.

Lemma create_traces_agree (args : obj) (R : Remote) :
  truthy (get "assignee" args) = false ->
  snd (Server.case_create_issue args R []) = snd (Index.handleCreateIssue args R []).
Proof.
  intros Hassignee.
  unfold Server.case_create_issue, Index.handleCreateIssue, create_fields.
  rewrite Hassignee. js_step.
  destruct (R [] (getProject (text_of (str_arg "projectKey" args)))) as [project|e];
    [|reflexivity].
  cbn beta iota.
  destruct (negb (nonempty (str_prop "id" project))); [reflexivity|].
  cbn [app].
  destruct (R [getProject (text_of (str_arg "projectKey" args))] getIssueAllTypes)
    as [types|e]; [|reflexivity].
  destruct (truthy_id (find_named (text_of (str_arg "issueType" args)) (elements types)))
    as [issueTypeId|]; [|reflexivity].
  cbn beta iota.
  destruct (resolve_priority (get "priority" args) R _) as [[priorityId|e] tr1];
    [|reflexivity].
  destruct (resolve_components (get "components" args) _ R tr1)
    as [[componentObjects|e] tr2]; [|reflexivity].
  destruct (R tr2 _); reflexivity.
Qed.

Lemma update_traces_agree (args : obj) (R : Remote) :
  get "assignee" args = None ->
  snd (Server.case_update_issue args R []) = snd (Index.handleUpdateIssue args R []).
Proof.
  intros Hassignee.
  unfold Server.case_update_issue, Index.handleUpdateIssue,
    Server.update_fields, Index.update_fields,
    Server.fields_from_arguments, Index.fields_from_arguments.
  rewrite Hassignee. cbn [truthy]. unfold transition_and_read. js_step.
  destruct (resolve_priority (get "priority" args) R []) as [[priorityId|e] tr1];
    [|reflexivity].
  destruct (resolve_transition _ (get "status" args) R tr1)
    as [[transitionId|e] tr2]; [|reflexivity].
  destruct (0 <? length (Object_keys _))%nat.
  - destruct (R tr2 (editIssue _ _)); [|reflexivity].
    destruct transitionId as [i|]; cbn beta iota.
    + destruct (R _ (doTransition _ i)); [|reflexivity].
      destruct (R _ (getIssue _)); reflexivity.
    + destruct (R _ (getIssue _)); reflexivity.
  - destruct transitionId as [i|]; cbn beta iota; [|reflexivity].
    destruct (R _ (doTransition _ i)); [|reflexivity].
    destruct (R _ (getIssue _)); reflexivity.
Qed.

End SameCalls.

(** X21.  Unless an assignee is given, the two servers issue the same
    remote calls, in the same order, for any [create_issue] and any
    [update_issue] call that both of them accept. *)
Theorem servers_issue_the_same_calls `{Runtime} :
  forall (args : obj) (R : Remote),
    (truthy (get "assignee" args) = false ->
     validate Server.create_issue_schema (JObj args) = true ->
     validate Index.create_issue_schema (JObj args) = true ->
     snd (run (Server.call_tool (request "create_issue" args)) R)
     = snd (run (Index.call_tool (request "create_issue" args)) R))
    /\
    (get "assignee" args = None ->
     validate Server.update_issue_schema (JObj args) = true ->
     validate Index.update_issue_schema (JObj args) = true ->
     snd (run (Server.call_tool (request "update_issue" args)) R)
     = snd (run (Index.call_tool (request "update_issue" args)) R)).
Proof.
  intros args R. split; intros Hassignee Hs Hi.
  - rewrite (Server_call_create_issue args R Hs), snd_surface.
    pose proof (Index_runs_handler Index.create_issue_tool args R
                  Index_create_issue_registered Hi) as Hrun.
    cbn [name Index.create_issue_tool] in Hrun. rewrite Hrun, snd_surface.
    change (Index.handle "create_issue" args)
      with (bind (Index.handleCreateIssue args) (fun result => ret (Break result))).
    rewrite snd_then_break. apply create_traces_agree. exact Hassignee.
  - rewrite (Server_call_update_issue args R Hs), snd_surface.
    rewrite (Index_call_update_issue args R Hi), snd_surface.
    apply update_traces_agree. exact Hassignee.
Qed.

Lemma servers_issue_the_same_calls_witness :
  snd (run (Server.call_tool (request "create_issue" urgent_arguments)) sample_jira)
  = snd (run (Index.call_tool (request "create_issue" urgent_arguments)) sample_jira).
Proof.
  refine (proj1 (servers_issue_the_same_calls urgent_arguments sample_jira) _ _ _);
    reflexivity.
Defined.

(** ** Types of the declared properties *)

(** X22.  In the function-style server a call to a registered tool is
    refused with [InvalidParams], before any remote call, whenever a property
    that the tool's schema declares holds a value its sub-schema rejects: a
    string property that is not a string, a [status] of
    [get_assigned_issues] outside current, past and all. *)
Theorem ill_typed_property_is_rejected `{Runtime} :
  forall (tool : Tool) (args : obj) (k : string) (sub : Schema) (v : json) (R : Remote),
    In tool Server.tools ->
    In (k, sub) (properties (inputSchema tool)) ->
    get k args = Some v ->
    validate sub v = false ->
    run (Server.call_tool (request (name tool) args)) R
    = (Thrown (McpError InvalidParams
                 ("Invalid arguments for tool " ++ name tool ++ ": "
                  ++ errorsText (inputSchema tool) (Some (JObj args))) None), []).
Proof.
  intros tool args k sub v R Hin Hprop Hget Hbad.
  apply (Server_invalid_arguments tool (Some (JObj args)) R Hin).
  cbn [Server.normalize truthy value_of].
  destruct (validate (inputSchema tool) (JObj args)) eqn:Hv; [|reflexivity].
  rewrite (validate_property (inputSchema tool) args k sub v Hv Hprop Hget) in Hbad.
  discriminate Hbad.
Qed.

Lemma ill_typed_property_is_rejected_witness :
  run (Server.call_tool
         (request "get_assigned_issues"
            [("accountId", JStr "u-1"); ("status", JStr "future")])) sample_jira
  = (Thrown (McpError InvalidParams
               "Invalid arguments for tool get_assigned_issues: data is invalid" None),
     []).
Proof.
  refine (ill_typed_property_is_rejected Server.get_assigned_issues_tool
            [("accountId", JStr "u-1"); ("status", JStr "future")] "status"
            (schema_enum ["current"; "past"; "all"]) (JStr "future") sample_jira
            _ _ _ _); try reflexivity.
  - exact get_assigned_issues_registered.
  - simpl. right. left. reflexivity.
Defined.
